(** * nesa2csv: weather-station log lines to CSV

    A shallow embedding of the two converters of the repository:

    - [Nesa2csv]: [src/nesa2csv.go], lines 1-186, the recency-filtering
      converter ([parseRow] takes a cutoff, [*] is a missing-data marker);
    - [Part000]: [src/unnamed/part_000], the converter without filtering.

    The older converter that follows in [src/nesa2csv.go] (lines 187-322,
    a flat measurement table, no zero padding) is not modelled: the
    specification describes the two above.

    Go strings are byte strings and are modelled as [string]; slices of
    strings as [list string] with stdpp's total lookup [!!]; Go maps as
    [gmap string _]; an index out of range is the outcome [Panic].  The
    packages [time], [os], [bufio], [encoding/csv] and [path/filepath] are
    modelled by what the converters observe of them. *)

From Stdlib Require Import ZArith Ascii String List Lia.
From stdpp Require Import base option list strings gmap fin_maps.

Local Open Scope string_scope.
Local Open Scope list_scope.

(** ** Outcomes of a Go call: a value, a returned [error], or a run-time panic *)

Inductive error : Type :=
| InvalidRow (line : string)              (* "invalid row: %s" *)
| InvalidTimestamp (timestampStr : string) (* "invalid timestamp: %s" *)
| CannotOpen (filePath : string)           (* "cannot open file %s: %v" *)
| ReadError (filePath : string).           (* "error reading file %s: %v" *)

Inductive result (A : Type) : Type :=
| Ok (a : A)
| Err (e : error)
| Panic                                    (* index out of range *)
| OutOfFuel.                               (* the model's loop bound ran out *)

Arguments Ok {A} a.
Arguments Err {A} e.
Arguments Panic {A}.
Arguments OutOfFuel {A}.

#[global] Instance result_ret : MRet result := fun A a => Ok a.

#[global] Instance result_bind : MBind result := fun A B k r =>
  match r with
  | Ok a => k a
  | Err e => Err e
  | Panic => Panic
  | OutOfFuel => OutOfFuel
  end.

(** [fields[i]] on a slice: a panic when [i] is out of range. *)
Definition index (fields : list string) (i : nat) : result string :=
  match fields !! i with
  | Some f => Ok f
  | None => Panic
  end.

(** ** The string library calls the converters make *)

Definition comma : ascii := ","%char.
Definition zero : ascii := "0"%char.

(** [strings.Split(s, ",")]: the pieces between the commas, one more than
    there are commas.  (The recursive call never returns the empty list.) *)
Fixpoint Split (s : string) : list string :=
  match s with
  | EmptyString => [EmptyString]
  | String c s' =>
      if Ascii.eqb c comma then EmptyString :: Split s'
      else match Split s' with
           | [] => [String c EmptyString]
           | f :: fs => String c f :: fs
           end
  end.

(** [strings.TrimLeft(s, "0")]. *)
Fixpoint TrimLeft0 (s : string) : string :=
  match s with
  | EmptyString => EmptyString
  | String c s' => if Ascii.eqb c zero then TrimLeft0 s' else s
  end.

(** [strings.HasPrefix(line, "S,")]. *)
Definition HasPrefix (line p : string) : bool := String.prefix p line.

(** ** [zeroPad], the same in both converters *)

Definition zeroPad (num : string) : string :=
  if Nat.eqb (String.length num) 1 then "0" +:+ num else num.

(** [fmt.Sprintf("%s-%s-%sT%s:%s:%s", year, month, day, hour, minute, second)] *)
Definition Sprintf_timestamp (year month day hour minute second : string) : string :=
  year +:+ "-" +:+ month +:+ "-" +:+ day +:+ "T" +:+ hour +:+ ":" +:+ minute +:+ ":" +:+ second.

(** ** Records and rows *)

Record Record := mkRecord {
  StationID : string;
  Timestamp : string;
  Values : gmap string string
}.

(** [Record{Timestamp: ""}] is [mkRecord "" "" ∅]: the other fields are
    zero, and a nil map reads as an empty one. *)

(** [m[key]] on a Go map: the zero value when the key is absent. *)
Definition map_get (m : gmap string string) (key : string) : string :=
  default "" (m !! key).

(** [strings.HasSuffix(s, suffix)]:
    [len(s) >= len(suffix) && s[len(s)-len(suffix):] == suffix]. *)
Definition HasSuffix (s suffix : string) : bool :=
  (String.length suffix <=? String.length s)%nat &&
  String.eqb
    (String.substring (String.length s - String.length suffix)
       (String.length suffix) s)
    suffix.

(** ** The [time] package, as far as [parseRow] uses it

    [time_Parse layout value] is [Some t] when [time.Parse] returns a nil
    error; [Before t u] is [t.Before(u)]. *)
Class TimePkg := {
  Time : Type;
  time_Parse : string -> string -> option Time;
  Before : Time -> Time -> bool
}.

(** ** What a run can observe

    [csv] holds the rows handed to [writer.Write], [stdout] the lines
    printed with [fmt.Printf], both in order.  [calls] is a ghost trace of
    the lines [parseRow] was invoked on. *)

Inductive message : Type :=
| SkippingLine (e : error)                  (* "Skipping line due to error: %v\n" *)
| ProcessingFile (path : string)            (* "Processing file: %s\n" *)
| ErrorProcessingFile (path : string) (e : error).
                                            (* "Error processing file %s: %v\n" *)

Record World := mkWorld {
  csv : list (list string);
  stdout : list message;
  calls : list string
}.

Definition World_init : World := mkWorld [] [] [].

Definition Write (row : list string) (w : World) : World :=
  mkWorld (csv w ++ [row]) (stdout w) (calls w).

Definition Printf (m : message) (w : World) : World :=
  mkWorld (csv w) (stdout w ++ [m]) (calls w).

Definition invoke (line : string) (w : World) : World :=
  mkWorld (csv w) (stdout w) (calls w ++ [line]).

(** A file as [bufio.Scanner] delivers it: its lines, then end of input
    with [scanner.Err()] nil or not. *)
Record File := mkFile {
  lines : list string;
  scanErr : bool
}.

(** [os.Open]: [None] when the file cannot be opened. *)
Definition FS : Type := string -> option File.

(** One callback of [filepath.Walk]: the path, [info.Name()],
    [info.IsDir()], and whether the walk hands the callback an error. *)
Record Entry := mkEntry {
  path : string;
  name : string;
  isDir : bool;
  walkErr : bool
}.

Inductive walk_result : Type :=
| WalkDone                                   (* Walk returned nil *)
| WalkError (path : string)                  (* "cannot access %s: %v" *)
| WalkPanic
| WalkOutOfFuel.

(** ** [src/nesa2csv.go]: the recency-filtering converter *)

Module Nesa2csv.

Definition measurementMap : gmap string (gmap string string) :=
  list_to_map [
    ("1", list_to_map [("2", "Temperature_Avg"); ("3", "Temperature_Min"); ("4", "Temperature_Max")]);
    ("2", list_to_map [("2", "Humidity_Avg"); ("3", "Humidity_Min"); ("4", "Humidity_Max")]);
    ("9", list_to_map [("2", "Windspeed_Avg"); ("3", "Windspeed_Min"); ("4", "Windspeed_Max")]);
    ("4", list_to_map [("2", "Wind Direction_Avg"); ("3", "Wind Direction_Min"); ("4", "Wind Direction_Max")]);
    ("13", list_to_map [("2", "Pressure_Avg"); ("3", "Pressure_Min"); ("4", "Pressure_Max")]);
    ("10", list_to_map [("7", "Rainfall_Acc")]);
    ("51", list_to_map [("2", "Soiltemperature10_Avg")]);
    ("101", list_to_map [("2", "Soiltemperature20_Avg")]);
    ("151", list_to_map [("2", "Soiltemperature50_Avg")]);
    ("201", list_to_map [("2", "Soiltemperature100_Avg")])
  ].

Definition requiredMeasurements : list string :=
  ["Temperature_Avg"; "Humidity_Avg"; "Windspeed_Avg"; "Wind Direction_Avg";
   "Pressure_Avg"; "Rainfall_Acc"; "Windspeed_Max"; "Soiltemperature10_Avg";
   "Soiltemperature20_Avg"; "Soiltemperature50_Avg"; "Soiltemperature100_Avg"].

(** Lines 78-83: the name the two nested lookups resolve to, [""] when
    either ID is unknown. *)
Definition measurementName_of (measurementID processingID : string) : string :=
  match measurementMap !! measurementID with
  | Some processingMap =>
      match processingMap !! processingID with
      | Some name => name
      | None => ""
      end
  | None => ""
  end.

(** Lines 76-90: one iteration of the measurement loop at index [i]. *)
Definition loop_body (fields : list string) (i : nat)
    (values : gmap string string) : result (gmap string string) :=
  measurementID ← index fields i;
  processingID ← index fields (i + 1);
  let measurementName := measurementName_of measurementID processingID in
  if negb (String.eqb measurementName "") && (i + 2 <? length fields)%nat then
    value ← index fields (i + 2);
    let value := if String.eqb value "*" then "" else value in
    Ok (<[measurementName := value]> values)
  else Ok values.

(** Line 75: [for i := 8; i < len(fields)-1; i += 3], from index [i] on. *)
Fixpoint loop (fuel : nat) (fields : list string) (i : nat)
    (values : gmap string string) : result (gmap string string) :=
  if (i <? length fields - 1)%nat then
    match fuel with
    | O => OutOfFuel
    | S fuel' =>
        values' ← loop_body fields i values;
        loop fuel' fields (i + 3) values'
    end
  else Ok values.

Definition layout : string := "2006-01-02T15:04:05".

Section WithTime.
Context {T : TimePkg}.

Definition parseRow (line : string) (cutoff : Time) : result Record :=
  let fields := Split line in
  if (length fields <? 7)%nat then Err (InvalidRow line)
  else
    f1 ← index fields 1;
    let stationID := TrimLeft0 f1 in
    f2 ← index fields 2;
    let hour := zeroPad f2 in
    f3 ← index fields 3;
    let minute := zeroPad f3 in
    f4 ← index fields 4;
    let second := zeroPad f4 in
    f5 ← index fields 5;
    let day := zeroPad f5 in
    f6 ← index fields 6;
    let month := zeroPad f6 in
    year ← index fields 7;
    let timestampStr := Sprintf_timestamp year month day hour minute second in
    match time_Parse layout timestampStr with
    | None => Err (InvalidTimestamp timestampStr)
    | Some recordTime =>
        if Before recordTime cutoff then Ok (mkRecord "" "" ∅)
        else
          values ← loop (length fields) fields 8 ∅;
          Ok (mkRecord stationID timestampStr values)
    end.

(** Lines 120-123: the record projected onto the required columns. *)
Definition row_of (record : Record) : list string :=
  [StationID record; Timestamp record] ++
  map (map_get (Values record)) requiredMeasurements.

(** Lines 105-125: the body of the scan loop for one line. *)
Definition process_line (line : string) (cutoff : Time) (w : World)
    : World * result unit :=
  if negb (HasPrefix line "S,") then (w, Ok tt)
  else
    let w := invoke line w in
    match parseRow line cutoff with
    | Err err => (Printf (SkippingLine err) w, Ok tt)
    | Panic => (w, Panic)
    | OutOfFuel => (w, OutOfFuel)
    | Ok record =>
        if String.eqb (Timestamp record) "" then (w, Ok tt)
        else (Write (row_of record) w, Ok tt)
    end.

Fixpoint scan (ls : list string) (cutoff : Time) (w : World)
    : World * result unit :=
  match ls with
  | [] => (w, Ok tt)
  | line :: ls' =>
      match process_line line cutoff w with
      | (w', Ok _) => scan ls' cutoff w'
      | (w', r) => (w', r)
      end
  end.

(** Lines 96-132.  [writeHeader] is received and not used. *)
Definition processFile (fs : FS) (filePath : string) (w : World)
    (writeHeader : bool) (cutoff : Time) : World * result unit :=
  match fs filePath with
  | None => (w, Err (CannotOpen filePath))
  | Some file =>
      match scan (lines file) cutoff w with
      | (w', Ok _) =>
          if scanErr file then (w', Err (ReadError filePath)) else (w', Ok tt)
      | (w', r) => (w', r)
      end
  end.

(** Lines 165-181: the walk callback, [writeHeader] threaded through. *)
Fixpoint walk (fs : FS) (entries : list Entry) (cutoff : Time)
    (writeHeader : bool) (w : World) : World * bool * walk_result :=
  match entries with
  | [] => (w, writeHeader, WalkDone)
  | e :: entries' =>
      if walkErr e then (w, writeHeader, WalkError (path e))
      else if negb (isDir e) && HasSuffix (name e) ".txt" then
        let w := Printf (ProcessingFile (path e)) w in
        match processFile fs (path e) w writeHeader cutoff with
        | (w', Err err) =>
            walk fs entries' cutoff writeHeader
              (Printf (ErrorProcessingFile (path e) err) w')
        | (w', Ok _) => walk fs entries' cutoff false w'
        | (w', Panic) => (w', writeHeader, WalkPanic)
        | (w', OutOfFuel) => (w', writeHeader, WalkOutOfFuel)
        end
      else walk fs entries' cutoff writeHeader w
  end.

(** [main] from line 162 on, once the output file is open: the rows and
    messages of the whole run. *)
Definition run (fs : FS) (entries : list Entry) (cutoff : Time)
    : World * bool * walk_result :=
  walk fs entries cutoff true World_init.

End WithTime.

End Nesa2csv.

(** ** [src/unnamed/part_000]: the converter without recency filtering *)

Module Part000.

Definition measurementMap : gmap string (gmap string string) :=
  list_to_map [
    ("1", list_to_map [("2", "Temperature_Avg"); ("3", "Temperature_Min"); ("4", "Temperature_Max")]);
    ("2", list_to_map [("2", "Humidity_Avg"); ("3", "Humidity_Min"); ("4", "Humidity_Max")]);
    ("9", list_to_map [("2", "Windspeed_Avg"); ("3", "Windspeed_Min"); ("4", "Windspeed_Max")]);
    ("4", list_to_map [("2", "Wind Direction_Avg"); ("3", "Wind Direction_Min"); ("4", "Wind Direction_Max")]);
    ("13", list_to_map [("2", "Pressure_Avg"); ("3", "Pressure_Min"); ("4", "Pressure_Max")])
  ].

Definition requiredMeasurements : list string :=
  ["Temperature_Avg"; "Humidity_Avg"; "Windspeed_Avg"; "Wind Direction_Avg";
   "Pressure_Avg"].

(** Lines 60-65. *)
Definition measurementName_of (measurementID processingID : string) : string :=
  match measurementMap !! measurementID with
  | Some processingMap =>
      match processingMap !! processingID with
      | Some name => name
      | None => ""
      end
  | None => ""
  end.

(** Lines 58-68: one iteration of the measurement loop at index [i]. *)
Definition loop_body (fields : list string) (i : nat)
    (values : gmap string string) : result (gmap string string) :=
  measurementID ← index fields i;
  processingID ← index fields (i + 1);
  let measurementName := measurementName_of measurementID processingID in
  if negb (String.eqb measurementName "") && (i + 2 <? length fields)%nat then
    value ← index fields (i + 2);
    Ok (<[measurementName := value]> values)
  else Ok values.

(** Line 57: [for i := 8; i < len(fields)-1; i += 3], from index [i] on. *)
Fixpoint loop (fuel : nat) (fields : list string) (i : nat)
    (values : gmap string string) : result (gmap string string) :=
  if (i <? length fields - 1)%nat then
    match fuel with
    | O => OutOfFuel
    | S fuel' =>
        values' ← loop_body fields i values;
        loop fuel' fields (i + 3) values'
    end
  else Ok values.

Definition parseRow (line : string) : result Record :=
  let fields := Split line in
  if (length fields <? 7)%nat then Err (InvalidRow line)
  else
    f1 ← index fields 1;
    let stationID := TrimLeft0 f1 in
    f2 ← index fields 2;
    let hour := zeroPad f2 in
    f3 ← index fields 3;
    let minute := zeroPad f3 in
    f4 ← index fields 4;
    let second := zeroPad f4 in
    f5 ← index fields 5;
    let day := zeroPad f5 in
    f6 ← index fields 6;
    let month := zeroPad f6 in
    year ← index fields 7;
    let timestamp := Sprintf_timestamp year month day hour minute second in
    values ← loop (length fields) fields 8 ∅;
    Ok (mkRecord stationID timestamp values).

(** Lines 83: [append([]string{"station_id", "timestamp"}, requiredMeasurements...)]. *)
Definition header : list string :=
  ["station_id"; "timestamp"] ++ requiredMeasurements.

(** Lines 100-103. *)
Definition row_of (record : Record) : list string :=
  [StationID record; Timestamp record] ++
  map (map_get (Values record)) requiredMeasurements.

(** Lines 89-105: the body of the scan loop for one line. *)
Definition process_line (line : string) (w : World) : World * result unit :=
  if negb (HasPrefix line "S,") then (w, Ok tt)
  else
    let w := invoke line w in
    match parseRow line with
    | Err err => (Printf (SkippingLine err) w, Ok tt)
    | Panic => (w, Panic)
    | OutOfFuel => (w, OutOfFuel)
    | Ok record => (Write (row_of record) w, Ok tt)
    end.

Fixpoint scan (ls : list string) (w : World) : World * result unit :=
  match ls with
  | [] => (w, Ok tt)
  | line :: ls' =>
      match process_line line w with
      | (w', Ok _) => scan ls' w'
      | (w', r) => (w', r)
      end
  end.

(** Lines 75-112. *)
Definition processFile (fs : FS) (filePath : string) (w : World)
    (writeHeader : bool) : World * result unit :=
  match fs filePath with
  | None => (w, Err (CannotOpen filePath))
  | Some file =>
      let w := if writeHeader then Write header w else w in
      match scan (lines file) w with
      | (w', Ok _) =>
          if scanErr file then (w', Err (ReadError filePath)) else (w', Ok tt)
      | (w', r) => (w', r)
      end
  end.

(** Lines 133-149: the walk callback, [writeHeader] threaded through. *)
Fixpoint walk (fs : FS) (entries : list Entry) (writeHeader : bool)
    (w : World) : World * bool * walk_result :=
  match entries with
  | [] => (w, writeHeader, WalkDone)
  | e :: entries' =>
      if walkErr e then (w, writeHeader, WalkError (path e))
      else if negb (isDir e) && HasSuffix (name e) ".txt" then
        let w := Printf (ProcessingFile (path e)) w in
        match processFile fs (path e) w writeHeader with
        | (w', Err err) =>
            walk fs entries' writeHeader
              (Printf (ErrorProcessingFile (path e) err) w')
        | (w', Ok _) => walk fs entries' false w'
        | (w', Panic) => (w', writeHeader, WalkPanic)
        | (w', OutOfFuel) => (w', writeHeader, WalkOutOfFuel)
        end
      else walk fs entries' writeHeader w
  end.

Definition run (fs : FS) (entries : list Entry) : World * bool * walk_result :=
  walk fs entries true World_init.

End Part000.

(** ** A model of Go's [time] for the layout [parseRow] uses

    [time.Parse("2006-01-02T15:04:05", value)] as Go 1.20 runs it: a
    four-digit year, two-digit month, day, minute and second, an hour of
    one or two digits, the literal separators, an optional fractional
    second after the seconds, nothing after that; month, hour, minute and
    second in range, the day valid for the month and year.  The result is
    the instant in UTC, as Unix seconds and nanoseconds. *)

Module GoTime.

Local Open Scope Z_scope.

Definition isDigit (c : ascii) : bool :=
  (48 <=? Z.of_nat (nat_of_ascii c)) && (Z.of_nat (nat_of_ascii c) <=? 57).

Definition digit (c : ascii) : Z := Z.of_nat (nat_of_ascii c) - 48.

(** [getnum(s, fixed)]: one or two leading digits, two when [fixed]. *)
Definition getnum (s : string) (fixed : bool) : option (Z * string) :=
  match s with
  | String c0 s1 =>
      if isDigit c0 then
        match s1 with
        | String c1 s2 =>
            if isDigit c1 then Some (digit c0 * 10 + digit c1, s2)
            else if fixed then None else Some (digit c0, s1)
        | EmptyString => if fixed then None else Some (digit c0, s1)
        end
      else None
  | EmptyString => None
  end.

(** [stdLongYear]: exactly four digits. *)
Definition getyear (s : string) : option (Z * string) :=
  match s with
  | String c0 (String c1 (String c2 (String c3 s'))) =>
      if isDigit c0 && isDigit c1 && isDigit c2 && isDigit c3 then
        Some (((digit c0 * 10 + digit c1) * 10 + digit c2) * 10 + digit c3, s')
      else None
  | _ => None
  end.

(** [skip(value, prefix)] for a one-byte prefix that is not a space. *)
Definition skip (s : string) (c : ascii) : option string :=
  match s with
  | String c' s' => if Ascii.eqb c' c then Some s' else None
  | EmptyString => None
  end.

(** The digits at the head of [s], and what follows them. *)
Fixpoint span_digits (s : string) : list Z * string :=
  match s with
  | String c s' =>
      if isDigit c then let '(ds, r) := span_digits s' in (digit c :: ds, r)
      else ([], s)
  | EmptyString => ([], s)
  end.

(** [parseNanoseconds]: the first nine fractional digits, scaled to
    nanoseconds. *)
Definition nanoseconds (ds : list Z) : Z :=
  let ds9 := firstn 9 ds in
  fold_left (fun acc d => acc * 10 + d) ds9 0 * 10 ^ (9 - Z.of_nat (length ds9)).

(** The fractional second Go accepts after the seconds although the layout
    has none: a period or comma followed by at least one digit. *)
Definition fraction (s : string) : Z * string :=
  match s with
  | String c (String d s') =>
      if (Ascii.eqb c "."%char || Ascii.eqb c ","%char) && isDigit d then
        let '(ds, r) := span_digits (String d s') in (nanoseconds ds, r)
      else (0, s)
  | _ => (0, s)
  end.

Definition isLeap (year : Z) : bool :=
  (year mod 4 =? 0) && (negb (year mod 100 =? 0) || (year mod 400 =? 0)).

Definition daysIn (month year : Z) : Z :=
  if month =? 2 then (if isLeap year then 29 else 28)
  else if (month =? 4) || (month =? 6) || (month =? 9) || (month =? 11) then 30
  else 31.

(** Days of the year before the first of [month], in a year that is not
    leap. *)
Definition daysBefore (month : Z) : Z :=
  nth (Z.to_nat (month - 1))
    [0; 31; 59; 90; 120; 151; 181; 212; 243; 273; 304; 334] 0.

(** Days from 1970-01-01 to the given date of the proleptic Gregorian
    calendar. *)
Definition unixDays (year month day : Z) : Z :=
  let y := year - 1 in
  365 * y + y / 4 - y / 100 + y / 400
  + daysBefore month + (if isLeap year && (3 <=? month) then 1 else 0)
  + (day - 1) - 719162.

(** [time.Date(year, month, day, hour, min, sec, nsec, time.UTC)]. *)
Definition Date (year month day hour min sec nsec : Z) : Z * Z :=
  (unixDays year month day * 86400 + hour * 3600 + min * 60 + sec, nsec).

Definition Parse (value : string) : option (Z * Z) :=
  '(year, value) ← getyear value;
  value ← skip value "-"%char;
  '(month, value) ← getnum value true;
  if (month <=? 0) || (12 <? month) then None else
  value ← skip value "-"%char;
  '(day, value) ← getnum value true;
  value ← skip value "T"%char;
  '(hour, value) ← getnum value false;
  if (hour <? 0) || (24 <=? hour) then None else
  value ← skip value ":"%char;
  '(min, value) ← getnum value true;
  if (min <? 0) || (60 <=? min) then None else
  value ← skip value ":"%char;
  '(sec, value) ← getnum value true;
  if (sec <? 0) || (60 <=? sec) then None else
  let '(nsec, value) := fraction value in
  if negb (String.eqb value "") then None else
  if (day <? 1) || (daysIn month year <? day) then None else
  Some (Date year month day hour min sec nsec).

(** [t.Before(u)] on instants without a monotonic clock reading. *)
Definition before (t u : Z * Z) : bool :=
  (t.1 <? u.1) || ((t.1 =? u.1) && (t.2 <? u.2)).

End GoTime.

#[global] Instance goTime : TimePkg := {|
  Time := Z * Z;
  time_Parse := fun layout value =>
    if String.eqb layout "2006-01-02T15:04:05" then GoTime.Parse value else None;
  Before := GoTime.before
|}.

(** ** Predicates and inputs the properties are stated with *)

(** The line begins with ["S,"]. *)
Definition prefixed (line : string) : Prop := HasPrefix line "S," = true.

(** What the filtering converter stores for a value field: [*] is its
    missing-data marker (lines 86-88 of [src/nesa2csv.go]). *)
Definition star_to_empty (value : string) : string :=
  if String.eqb value "*" then "" else value.

(** The byte [c] occurs in [s]. *)
Fixpoint has_char (c : ascii) (s : string) : bool :=
  match s with
  | EmptyString => false
  | String c' s' => Ascii.eqb c' c || has_char c s'
  end.

(** [w'] has the rows of [w] followed by rows other than the header of the
    converter without filtering. *)
Definition data_rows_added (w w' : World) : Prop :=
  exists rows, csv w' = csv w ++ rows /\ Forall (fun row => row <> Part000.header) rows.

(** The second field of the row holds a dash, as every assembled timestamp
    does and the header's ["timestamp"] does not. *)
Definition data_row (row : list string) : Prop :=
  exists timestamp, row !! 1%nat = Some timestamp /\ has_char "-" timestamp = true.

(** The header row of the filtering converter, were it written:
    [station_id, timestamp] and the required measurements. *)
Definition Nesa2csv_header : list string :=
  ["station_id"; "timestamp"] ++ Nesa2csv.requiredMeasurements.

(** A directory with the one file [a.txt], which holds a comment line and
    one data line. *)
Definition one_file : FS := fun filePath =>
  if String.eqb filePath "a.txt"
  then Some (mkFile ["# station log"; "S,0012,9,5,0,15,6,2023,1,2,21.5"] false)
  else None.

Definition one_entry : list Entry := [mkEntry "a.txt" "a.txt" false false].

(** A directory with [a.txt], whose scan ends in a read error after its
    one data line, and [b.txt], which is read to its end. *)
Definition two_files : FS := fun filePath =>
  if String.eqb filePath "a.txt"
  then Some (mkFile ["S,0012,9,5,0,15,6,2023,1,2,21.5"] true)
  else if String.eqb filePath "b.txt"
  then Some (mkFile ["S,7,9,5,0,15,6,2023,2,2,50"] false)
  else None.

Definition two_entries : list Entry :=
  [mkEntry "a.txt" "a.txt" false false; mkEntry "b.txt" "b.txt" false false].

(** ** [src/nesa2csv.go], lines 187-322: the older converter

    A flat table from measurement ID to name, the station ID taken as it
    is, no zero padding, and the date written day-month-year. *)

Module Legacy.

Definition measurementMap : gmap string string :=
  list_to_map [
    ("1", "Temperature");
    ("6", "Dewpoint");
    ("5", "Windspeed");
    ("4", "Wind Direction");
    ("3", "Pressure")
  ].

Definition requiredMeasurements : list string :=
  ["Temperature"; "Dewpoint"; "Windspeed"; "Wind Direction"; "Pressure"].

(** Lines 232-236: one iteration at index [i]; [measurementMap[id]] is
    [""] for an unknown ID. *)
Definition loop_body (fields : list string) (i : nat)
    (values : gmap string string) : result (gmap string string) :=
  id ← index fields i;
  let measurementName := map_get measurementMap id in
  if negb (String.eqb measurementName "") && (i + 2 <? length fields)%nat then
    value ← index fields (i + 2);
    Ok (<[measurementName := value]> values)
  else Ok values.

(** Line 231: [for i := 8; i < len(fields)-1; i += 3], from index [i] on. *)
Fixpoint loop (fuel : nat) (fields : list string) (i : nat)
    (values : gmap string string) : result (gmap string string) :=
  if (i <? length fields - 1)%nat then
    match fuel with
    | O => OutOfFuel
    | S fuel' =>
        values' ← loop_body fields i values;
        loop fuel' fields (i + 3) values'
    end
  else Ok values.

(** Lines 219-240. *)
Definition parseRow (line : string) : result Record :=
  let fields := Split line in
  if (length fields <? 7)%nat then Err (InvalidRow line)
  else
    stationID ← index fields 1;
    f2 ← index fields 2;
    f3 ← index fields 3;
    f4 ← index fields 4;
    let time := f2 +:+ ":" +:+ f3 +:+ ":" +:+ f4 in
    f5 ← index fields 5;
    f6 ← index fields 6;
    f7 ← index fields 7;
    let date := f5 +:+ "-" +:+ f6 +:+ "-" +:+ f7 in
    let timestamp := date +:+ "T" +:+ time in
    values ← loop (length fields) fields 8 ∅;
    Ok (mkRecord stationID timestamp values).

(** Line 251. *)
Definition header : list string :=
  ["station_id"; "timestamp"] ++ requiredMeasurements.

(** Lines 268-271. *)
Definition row_of (record : Record) : list string :=
  [StationID record; Timestamp record] ++
  map (map_get (Values record)) requiredMeasurements.

(** Lines 257-273: the body of the scan loop for one line. *)
Definition process_line (line : string) (w : World) : World * result unit :=
  if negb (HasPrefix line "S,") then (w, Ok tt)
  else
    let w := invoke line w in
    match parseRow line with
    | Err err => (Printf (SkippingLine err) w, Ok tt)
    | Panic => (w, Panic)
    | OutOfFuel => (w, OutOfFuel)
    | Ok record => (Write (row_of record) w, Ok tt)
    end.

Fixpoint scan (ls : list string) (w : World) : World * result unit :=
  match ls with
  | [] => (w, Ok tt)
  | line :: ls' =>
      match process_line line w with
      | (w', Ok _) => scan ls' w'
      | (w', r) => (w', r)
      end
  end.

(** Lines 243-280. *)
Definition processFile (fs : FS) (filePath : string) (w : World)
    (writeHeader : bool) : World * result unit :=
  match fs filePath with
  | None => (w, Err (CannotOpen filePath))
  | Some file =>
      let w := if writeHeader then Write header w else w in
      match scan (lines file) w with
      | (w', Ok _) =>
          if scanErr file then (w', Err (ReadError filePath)) else (w', Ok tt)
      | (w', r) => (w', r)
      end
  end.

End Legacy.

(** ** [main] of the filtering converter, lines 134-186 *)

Module Main.

(** [strconv.Atoi]: an optional sign and at least one decimal digit,
    nothing else, the value within the 64-bit range of [int]. *)
Fixpoint digits_value (acc : Z) (s : string) : option Z :=
  match s with
  | EmptyString => Some acc
  | String c s' =>
      if GoTime.isDigit c then digits_value (acc * 10 + GoTime.digit c)%Z s'
      else None
  end.

Definition Atoi (s : string) : option Z :=
  let '(negative, body) :=
    match s with
    | String c s' =>
        if Ascii.eqb c "-" then (true, s')
        else if Ascii.eqb c "+" then (false, s')
        else (false, s)
    | EmptyString => (false, s)
    end in
  match body with
  | EmptyString => None
  | _ =>
      match digits_value 0 body with
      | None => None
      | Some n =>
          let v := (if negative then - n else n)%Z in
          if ((- 2 ^ 63 <=? v) && (v <? 2 ^ 63))%Z then Some v else None
      end
  end.

(** [-days] on a 64-bit [int]: the least value is its own negation. *)
Definition neg_int (days : Z) : Z :=
  (if days =? - 2 ^ 63 then days else - days)%Z.

(** What [main] prints itself, besides the messages of the walk. *)
Inductive main_message : Type :=
| Usage                                   (* "Usage: go run main.go ..." *)
| InvalidDays (arg : string)              (* "Invalid days value: %v\n" *)
| CannotCreate (outputFile : string)      (* "Cannot create output file: %v\n" *)
| ErrorWalking (path : string).           (* "Error walking directory: %v\n" *)

(** The outcome of a run of [main]: the output file it created, if it
    came to that, with the rows flushed into it; the lines on standard
    output, first those of the walk; and whether the run panicked. *)
Record Outcome := mkOutcome {
  created : option (string * list (list string));
  walk_stdout : list message;
  main_stdout : list main_message;
  panicked : bool
}.

Section WithEnvironment.
Context {T : TimePkg}.

(** [AddDate days] is [time.Now().AddDate(0, 0, days)]; [Create] tells
    whether [os.Create] succeeds; [Walk inputDir] lists the callbacks
    [filepath.Walk] makes. *)
Variable AddDate : Z -> Time.
Variable Create : string -> bool.
Variable fs : FS.
Variable Walk : string -> list Entry.

(** [os.Args] holds the program name first; [os.Args[3]] is read only
    when there are more than three entries. *)
Definition main (Args : list string) : Outcome :=
  match Args with
  | _ :: inputDir :: outputFile :: rest =>
      let days :=
        match rest with
        | [] => Some 14%Z
        | arg :: _ => Atoi arg
        end in
      match days with
      | None => mkOutcome None [] [InvalidDays (default "" (head rest))] false
      | Some days =>
          let cutoff := AddDate (neg_int days) in
          if Create outputFile then
            match Nesa2csv.walk fs (Walk inputDir) cutoff true World_init with
            | (w, _, WalkDone) =>
                mkOutcome (Some (outputFile, csv w)) (stdout w) [] false
            | (w, _, WalkError path) =>
                mkOutcome (Some (outputFile, csv w)) (stdout w)
                  [ErrorWalking path] false
            | (w, _, _) =>
                mkOutcome (Some (outputFile, csv w)) (stdout w) [] true
            end
          else mkOutcome None [] [CannotCreate outputFile] false
      end
  | _ => mkOutcome None [] [Usage] false
  end.

End WithEnvironment.

End Main.

(** ** More predicates the properties are stated with *)

(** [strings.Join(fields, ",")], the inverse of [Split]. *)
Fixpoint Join (fields : list string) : string :=
  match fields with
  | [] => ""
  | [f] => f
  | f :: fs => f +:+ String comma (Join fs)
  end.

(** The string consists of the byte [c] only. *)
Fixpoint all_char (c : ascii) (s : string) : bool :=
  match s with
  | EmptyString => true
  | String c' s' => Ascii.eqb c' c && all_char c s'
  end.

(** The first byte of the string is [c]. *)
Definition starts_with (c : ascii) (s : string) : bool :=
  match s with
  | String c' _ => Ascii.eqb c' c
  | EmptyString => false
  end.

(** How often the byte [c] occurs in [s]. *)
Fixpoint count_char (c : ascii) (s : string) : nat :=
  match s with
  | EmptyString => 0
  | String c' s' => (if Ascii.eqb c' c then 1 else 0) + count_char c s'
  end.

(** [n] zero digits. *)
Fixpoint zeros (n : nat) : string :=
  match n with
  | O => ""
  | S n' => String zero (zeros n')
  end.

(** The three kinds of lines that begin with ["S,"]: with fewer than
    seven fields, with exactly seven, and with eight or more. *)
Definition short_line (line : string) : bool :=
  HasPrefix line "S," && (length (Split line) <? 7)%nat.

Definition seven_fields (line : string) : bool :=
  HasPrefix line "S," && (length (Split line) =? 7)%nat.

Definition data_line (line : string) : bool :=
  HasPrefix line "S," && (8 <=? length (Split line))%nat.

(** Decimal fields: the digit [n], the two digits of [n] below 100, the
    four digits of [n] below 10000, and a field that holds [n] in one or
    two digits, as the logs write hours, minutes, seconds, days and
    months. *)
Definition digit_char (n : Z) : ascii := ascii_of_nat (48 + Z.to_nat n).

Definition two_digits (n : Z) : string :=
  String (digit_char (n / 10)) (String (digit_char (n mod 10)) "").

Definition four_digits (n : Z) : string :=
  String (digit_char (n / 1000))
    (String (digit_char (n / 100 mod 10))
       (String (digit_char (n / 10 mod 10)) (String (digit_char (n mod 10)) ""))).

Definition decimal_field (n : Z) (f : string) : Prop :=
  f = two_digits n \/ ((n < 10)%Z /\ f = String (digit_char n) "").

(** The entries the walk callback hands to [processFile]: not a
    directory, and a name that ends in [.txt]. *)
Definition is_text (e : Entry) : bool :=
  negb (isDir e) && HasSuffix (name e) ".txt".

(** * Properties *)

(** ** The library calls *)

Example Split_ex : Split "S,0012,9,,5" = ["S"; "0012"; "9"; ""; "5"].
Proof. reflexivity. Qed.

Example Split_empty : Split "" = [""].
Proof. reflexivity. Qed.

Example TrimLeft0_ex : TrimLeft0 "0012" = "12".
Proof. reflexivity. Qed.

Example HasSuffix_ex : HasSuffix "log.txt" ".txt" = true /\ HasSuffix "txt" ".txt" = false.
Proof. split; reflexivity. Qed.

Lemma Split_nonempty (s : string) : Split s <> [].
Proof.
  destruct s as [|c s]; simpl; [discriminate|].
  destruct (Ascii.eqb c comma); [discriminate|].
  destruct (Split s); discriminate.
Qed.

(** A comma ends a field: what follows is split on its own. *)
Lemma Split_comma (s : string) : Split (String comma s) = "" :: Split s.
Proof. reflexivity. Qed.

Lemma Split_other (c : ascii) (s : string) :
  Ascii.eqb c comma = false ->
  exists f fs, Split s = f :: fs /\ Split (String c s) = String c f :: fs.
Proof.
  intros Hc. simpl. rewrite Hc.
  destruct (Split s) as [|f fs] eqn:E; [now apply Split_nonempty in E|].
  eauto.
Qed.

Lemma index_Some (fields : list string) (i : nat) (f : string) :
  fields !! i = Some f -> index fields i = Ok f.
Proof. intros E. unfold index. now rewrite E. Qed.

Lemma index_lt (fields : list string) (i : nat) :
  (i < length fields)%nat -> exists f, index fields i = Ok f.
Proof.
  intros Hlt. destruct (lookup_lt_is_Some_2 fields i Hlt) as [f E].
  exists f. now apply index_Some.
Qed.

Lemma index_ge (fields : list string) (i : nat) :
  (length fields <= i)%nat -> index fields i = Panic.
Proof. intros Hge. unfold index. now rewrite (lookup_ge_None_2 fields i Hge). Qed.

(** ** [zeroPad] *)

Lemma zeroPad_length_1 (num : string) :
  String.length num = 1%nat -> zeroPad num = "0" +:+ num.
Proof. intros E. unfold zeroPad. now rewrite E. Qed.

Lemma zeroPad_length_ne_1 (num : string) :
  String.length num <> 1%nat -> zeroPad num = num.
Proof.
  intros E. unfold zeroPad.
  destruct (Nat.eqb_spec (String.length num) 1); [contradiction|reflexivity].
Qed.

Lemma zeroPad_length (num : string) :
  String.length (zeroPad num) <> 1%nat.
Proof.
  unfold zeroPad. destruct (Nat.eqb_spec (String.length num) 1) as [E|E].
  - change (S (String.length num) <> 1%nat). rewrite E. discriminate.
  - exact E.
Qed.

(** C10: [zeroPad] returns a string of length 2, such as ["05"],
    unchanged, and applying it twice to a string of length at least 2 is
    the same as applying it once. *)
Theorem zeroPad_idempotent :
  (forall s : string, String.length s = 2%nat -> zeroPad s = s) /\
  zeroPad "05" = "05" /\
  (forall s : string, (2 <= String.length s)%nat -> zeroPad (zeroPad s) = zeroPad s).
Proof.
  split; [|split].
  - intros s E. apply zeroPad_length_ne_1. lia.
  - reflexivity.
  - intros s _. apply zeroPad_length_ne_1, zeroPad_length.
Qed.

Lemma zeroPad_idempotent_witness :
  zeroPad "15" = "15" /\ zeroPad (zeroPad "2023") = zeroPad "2023".
Proof.
  destruct zeroPad_idempotent as (H2 & _ & Hge).
  split.
  - apply (H2 "15"). reflexivity.
  - apply (Hge "2023"). simpl. lia.
Defined.

(** Idempotence needs no bound on the length: a one-byte string is padded
    to two bytes, which the second call leaves alone. *)
Lemma zeroPad_twice (s : string) : zeroPad (zeroPad s) = zeroPad s.
Proof. apply zeroPad_length_ne_1, zeroPad_length. Qed.

(** ** The measurement loop stays in bounds and terminates *)

Lemma bind_Ok {A B : Type} (a : A) (k : A -> result B) : (Ok a ≫= k) = k a.
Proof. reflexivity. Qed.

(** The proofs are the same for both converters, whose loops differ only
    in the table and in the handling of [*]. *)
Ltac loop_body_in_bounds_tac :=
  intros fields i values Hlt;
  match goal with |- exists v, ?body _ _ _ = _ => unfold body end;
  destruct (index_lt fields i) as [mid Emid]; [lia|];
  destruct (index_lt fields (i + 1)) as [pid Epid]; [lia|];
  rewrite Emid, bind_Ok, Epid, bind_Ok;
  match goal with
  | |- context [negb ?b && ?c] =>
      destruct (negb b && c) eqn:Eguard;
      [ apply andb_true_iff in Eguard as [_ Hin%Nat.ltb_lt];
        destruct (index_lt fields (i + 2) Hin) as [v Ev];
        rewrite Ev, bind_Ok; eauto
      | eauto ]
  end.

Ltac loop_ok_tac body_ok :=
  intros fields fuel; induction fuel as [|fuel IH]; intros i values Hfuel; simpl;
  (destruct (Nat.ltb_spec i (length fields - 1)) as [Hlt|Hge]; [|eauto]);
  [ lia
  | destruct (body_ok fields i values) as [values' E]; [lia|];
    rewrite E, bind_Ok; apply IH; lia ].

Ltac loop_trailing_tac :=
  intros fields fuel i values Hinc Hfuel;
  destruct fuel as [|fuel]; [lia|]; simpl;
  (destruct (Nat.ltb_spec i (length fields - 1)) as [Hlt|Hge]; [|reflexivity]);
  match goal with |- context [?body fields i values] => unfold body end;
  destruct (index_lt fields i) as [mid Emid]; [lia|];
  destruct (index_lt fields (i + 1)) as [pid Epid]; [lia|];
  rewrite Emid, bind_Ok, Epid, bind_Ok;
  (destruct (Nat.ltb_spec (i + 2) (length fields)) as [Hin|Hout]; [lia|]);
  rewrite andb_false_r, bind_Ok;
  destruct fuel; simpl;
  (destruct (Nat.ltb_spec (i + 3) (length fields - 1)); [lia|reflexivity]).

Lemma Nesa2csv_loop_body_in_bounds :
  forall (fields : list string) (i : nat) (values : gmap string string),
  (i + 1 < length fields)%nat ->
  exists values', Nesa2csv.loop_body fields i values = Ok values'.
Proof. loop_body_in_bounds_tac. Qed.

Lemma Part000_loop_body_in_bounds :
  forall (fields : list string) (i : nat) (values : gmap string string),
  (i + 1 < length fields)%nat ->
  exists values', Part000.loop_body fields i values = Ok values'.
Proof. loop_body_in_bounds_tac. Qed.

(** With as much fuel as the slice is long the loop runs to its end, and
    every iteration returns a map. *)
Lemma Nesa2csv_loop_ok :
  forall (fields : list string) (fuel i : nat) (values : gmap string string),
  (length fields - 1 <= i + fuel)%nat ->
  exists values', Nesa2csv.loop fuel fields i values = Ok values'.
Proof. loop_ok_tac Nesa2csv_loop_body_in_bounds. Qed.

Lemma Part000_loop_ok :
  forall (fields : list string) (fuel i : nat) (values : gmap string string),
  (length fields - 1 <= i + fuel)%nat ->
  exists values', Part000.loop fuel fields i values = Ok values'.
Proof. loop_ok_tac Part000_loop_body_in_bounds. Qed.

(** From an index whose group has no value field the loop changes
    nothing. *)
Lemma Nesa2csv_loop_trailing :
  forall (fields : list string) (fuel i : nat) (values : gmap string string),
  (length fields <= i + 2)%nat -> (1 <= fuel)%nat ->
  Nesa2csv.loop fuel fields i values = Ok values.
Proof. loop_trailing_tac. Qed.

Lemma Part000_loop_trailing :
  forall (fields : list string) (fuel i : nat) (values : gmap string string),
  (length fields <= i + 2)%nat -> (1 <= fuel)%nat ->
  Part000.loop fuel fields i values = Ok values.
Proof. loop_trailing_tac. Qed.

(** The fields of a trailing incomplete group can be cut off without
    changing what the loop computes. *)
Ltac loop_take_tac trailing :=
  intros fields n k; induction k as [|k IH]; intros i fuel fuel' values Hn Hle Hlen Hf Hf';
  [ replace i with n by lia;
    rewrite trailing by lia;
    destruct fuel'; simpl; rewrite length_take_le by lia;
    (destruct (Nat.ltb_spec n (n - 1)); [lia|reflexivity])
  | destruct fuel as [|fuel]; [lia|]; destruct fuel' as [|fuel']; [lia|];
    simpl; rewrite length_take_le by lia;
    (destruct (Nat.ltb_spec i (length fields - 1)); [|lia]);
    (destruct (Nat.ltb_spec i (n - 1)); [|lia]);
    match goal with
    | |- (?body fields i values ≫= _) = _ =>
        replace (body (take n fields) i values) with (body fields i values);
        [ destruct (body fields i values); simpl; try reflexivity; apply IH; lia
        | unfold body, index;
          rewrite !lookup_take_lt by lia; rewrite length_take_le by lia;
          (destruct (Nat.ltb_spec (i + 2) (length fields)); [|lia]);
          (destruct (Nat.ltb_spec (i + 2) n); [|lia]);
          reflexivity ]
    end ].

Lemma Nesa2csv_loop_take :
  forall (fields : list string) (n k i fuel fuel' : nat) (values : gmap string string),
  n = (i + 3 * k)%nat -> (n <= length fields)%nat -> (length fields <= n + 2)%nat ->
  (k + 1 <= fuel)%nat -> (k <= fuel')%nat ->
  Nesa2csv.loop fuel fields i values = Nesa2csv.loop fuel' (take n fields) i values.
Proof. loop_take_tac Nesa2csv_loop_trailing. Qed.

Lemma Part000_loop_take :
  forall (fields : list string) (n k i fuel fuel' : nat) (values : gmap string string),
  n = (i + 3 * k)%nat -> (n <= length fields)%nat -> (length fields <= n + 2)%nat ->
  (k + 1 <= fuel)%nat -> (k <= fuel')%nat ->
  Part000.loop fuel fields i values = Part000.loop fuel' (take n fields) i values.
Proof. loop_take_tac Part000_loop_trailing. Qed.

(** ** [parseRow] on a line with its eight fixed fields *)

Lemma Part000_parseRow_fields
    (line tag station hour minute second day month year : string)
    (rest : list string) :
  Split line = tag :: station :: hour :: minute :: second :: day :: month :: year :: rest ->
  Part000.parseRow line =
    values ← Part000.loop (length (Split line)) (Split line) 8 ∅;
    Ok (mkRecord (TrimLeft0 station)
          (Sprintf_timestamp year (zeroPad month) (zeroPad day)
             (zeroPad hour) (zeroPad minute) (zeroPad second))
          values).
Proof. intros E. unfold Part000.parseRow. rewrite E. reflexivity. Qed.

Lemma Nesa2csv_parseRow_fields `{TimePkg}
    (line tag station hour minute second day month year : string)
    (rest : list string) (cutoff : Time) :
  Split line = tag :: station :: hour :: minute :: second :: day :: month :: year :: rest ->
  Nesa2csv.parseRow line cutoff =
    let timestampStr :=
      Sprintf_timestamp year (zeroPad month) (zeroPad day)
        (zeroPad hour) (zeroPad minute) (zeroPad second) in
    match time_Parse Nesa2csv.layout timestampStr with
    | None => Err (InvalidTimestamp timestampStr)
    | Some recordTime =>
        if Before recordTime cutoff then Ok (mkRecord "" "" ∅)
        else
          values ← Nesa2csv.loop (length (Split line)) (Split line) 8 ∅;
          Ok (mkRecord (TrimLeft0 station) timestampStr values)
    end.
Proof. intros E. unfold Nesa2csv.parseRow. rewrite E. reflexivity. Qed.

Lemma eight_fields (fields : list string) :
  (8 <= length fields)%nat ->
  exists tag station hour minute second day month year rest,
    fields = tag :: station :: hour :: minute :: second :: day :: month :: year :: rest.
Proof.
  intros Hlen.
  do 8 (destruct fields as [|? fields]; [simpl in Hlen; lia|]).
  repeat eexists.
Qed.

(** With exactly seven fields the guard [len(fields) < 7] lets the line
    through and [fields[7]] is out of range, in both converters. *)
Lemma Part000_parseRow_seven (line : string) :
  length (Split line) = 7%nat -> Part000.parseRow line = Panic.
Proof.
  intros E. unfold Part000.parseRow.
  destruct (Split line) as [|f0 [|f1 [|f2 [|f3 [|f4 [|f5 [|f6 [|f7 fs]]]]]]]];
    try discriminate E.
  reflexivity.
Qed.

Lemma Nesa2csv_parseRow_seven `{TimePkg} (line : string) (cutoff : Time) :
  length (Split line) = 7%nat -> Nesa2csv.parseRow line cutoff = Panic.
Proof.
  intros E. unfold Nesa2csv.parseRow.
  destruct (Split line) as [|f0 [|f1 [|f2 [|f3 [|f4 [|f5 [|f6 [|f7 fs]]]]]]]];
    try discriminate E.
  reflexivity.
Qed.

(** C2: the line ["S,1,2,3,4,5,6"] has exactly seven fields, passes the
    guard [len(fields) < 7], and the read of the year at index 7 is out
    of range: [parseRow] panics in both converters, for every cutoff,
    and does not return the "invalid row" error. *)
Theorem parseRow_seven_fields_panics :
  exists line : string,
    line = "S,1,2,3,4,5,6" /\
    length (Split line) = 7%nat /\
    (length (Split line) <? 7)%nat = false /\
    index (Split line) 7 = Panic /\
    Part000.parseRow line = Panic /\
    Part000.parseRow line <> Err (InvalidRow line) /\
    (forall (T : TimePkg) (cutoff : Time),
       Nesa2csv.parseRow line cutoff = Panic /\
       Nesa2csv.parseRow line cutoff <> Err (InvalidRow line)).
Proof.
  exists "S,1,2,3,4,5,6".
  repeat split; try reflexivity; try discriminate.
Qed.

(** ** Rows with too few fields *)

Lemma Part000_parseRow_short (line : string) :
  (length (Split line) < 7)%nat -> Part000.parseRow line = Err (InvalidRow line).
Proof.
  intros Hlt. unfold Part000.parseRow.
  now destruct (Nat.ltb_spec (length (Split line)) 7); [|lia].
Qed.

Lemma Nesa2csv_parseRow_short `{TimePkg} (line : string) (cutoff : Time) :
  (length (Split line) < 7)%nat ->
  Nesa2csv.parseRow line cutoff = Err (InvalidRow line).
Proof.
  intros Hlt. unfold Nesa2csv.parseRow.
  now destruct (Nat.ltb_spec (length (Split line)) 7); [|lia].
Qed.

(** C3: a line with fewer than seven comma-separated fields makes
    [parseRow] return the "invalid row" error, and the scan loop of
    [processFile] writes no CSV row for it and goes on to the next line;
    in both converters and for every cutoff. *)
Theorem short_row_is_invalid (line : string) :
  (length (Split line) < 7)%nat ->
  (Part000.parseRow line = Err (InvalidRow line) /\
   forall w : World,
     csv (Part000.process_line line w).1 = csv w /\
     (Part000.process_line line w).2 = Ok tt) /\
  (forall (T : TimePkg) (cutoff : Time),
     Nesa2csv.parseRow line cutoff = Err (InvalidRow line) /\
     forall w : World,
       csv (Nesa2csv.process_line line cutoff w).1 = csv w /\
       (Nesa2csv.process_line line cutoff w).2 = Ok tt).
Proof.
  intros Hlt. split.
  - split; [now apply Part000_parseRow_short|].
    intros w. unfold Part000.process_line.
    rewrite Part000_parseRow_short by exact Hlt.
    destruct (HasPrefix line "S,"); split; reflexivity.
  - intros T cutoff. split; [now apply Nesa2csv_parseRow_short|].
    intros w. unfold Nesa2csv.process_line.
    rewrite Nesa2csv_parseRow_short by exact Hlt.
    destruct (HasPrefix line "S,"); split; reflexivity.
Qed.

Lemma short_row_is_invalid_witness :
  Part000.parseRow "S,0012,9,5" = Err (InvalidRow "S,0012,9,5") /\
  csv (Part000.process_line "S,0012,9,5" World_init).1 = [] /\
  Nesa2csv.parseRow "S,0012,9,5" (0, 0)%Z = Err (InvalidRow "S,0012,9,5").
Proof.
  assert (Hlt : (length (Split "S,0012,9,5") < 7)%nat) by (vm_compute; lia).
  destruct (short_row_is_invalid "S,0012,9,5" Hlt) as [[HP HPw] HN].
  split; [exact HP|]. split.
  - exact (proj1 (HPw World_init)).
  - exact (proj1 (HN goTime (0, 0)%Z)).
Defined.

(** ** Trailing incomplete measurement groups *)

Lemma Part000_parseRow_eight (line : string) :
  (8 <= length (Split line))%nat -> exists record, Part000.parseRow line = Ok record.
Proof.
  intros Hlen.
  destruct (eight_fields _ Hlen) as (tag & st & h & mi & s & d & mo & y & rest & E).
  rewrite (Part000_parseRow_fields _ _ _ _ _ _ _ _ _ _ E).
  destruct (Part000_loop_ok (Split line) (length (Split line)) 8 ∅) as [values Ev]; [lia|].
  rewrite Ev, bind_Ok. eauto.
Qed.

Lemma Nesa2csv_parseRow_eight `{TimePkg} (line : string) (cutoff : Time) :
  (8 <= length (Split line))%nat ->
  (exists record, Nesa2csv.parseRow line cutoff = Ok record) \/
  (exists timestampStr,
     Nesa2csv.parseRow line cutoff = Err (InvalidTimestamp timestampStr)).
Proof.
  intros Hlen.
  destruct (eight_fields _ Hlen) as (tag & st & h & mi & s & d & mo & y & rest & E).
  rewrite (Nesa2csv_parseRow_fields _ _ _ _ _ _ _ _ _ _ _ E). cbv zeta.
  destruct (time_Parse _ _) as [recordTime|]; [|eauto].
  destruct (Before recordTime cutoff); [eauto|].
  destruct (Nesa2csv_loop_ok (Split line) (length (Split line)) 8 ∅) as [values Ev]; [lia|].
  rewrite Ev, bind_Ok. eauto.
Qed.

(** C9: for a slice of at least eight fields, in both converters,
    - the loop from index 8 returns a map: no iteration reads out of
      range, and the loop bound of the model suffices;
    - an iteration at an index [i] whose processing ID is in range
      reads only in range;
    - from an index whose group lacks its value (or its processing ID)
      the loop returns the map as it is: the group contributes nothing;
    - so the fields of such a trailing group can be cut off: the loop
      computes the same map on the slice truncated to whole groups;
    and [parseRow] on a line of at least eight fields does not panic. *)
Theorem trailing_group_in_bounds (fields : list string) :
  (8 <= length fields)%nat ->
  ((exists values, Nesa2csv.loop (length fields) fields 8 ∅ = Ok values) /\
   (exists values, Part000.loop (length fields) fields 8 ∅ = Ok values)) /\
  (forall (i : nat) (values : gmap string string),
     (i < length fields - 1)%nat ->
     (exists values', Nesa2csv.loop_body fields i values = Ok values') /\
     (exists values', Part000.loop_body fields i values = Ok values')) /\
  (forall (i : nat) (values : gmap string string),
     (length fields <= i + 2)%nat ->
     Nesa2csv.loop (length fields) fields i values = Ok values /\
     Part000.loop (length fields) fields i values = Ok values) /\
  (forall k : nat,
     (8 + 3 * k <= length fields)%nat -> (length fields <= 8 + 3 * k + 2)%nat ->
     Nesa2csv.loop (length fields) fields 8 ∅ =
       Nesa2csv.loop (8 + 3 * k) (take (8 + 3 * k) fields) 8 ∅ /\
     Part000.loop (length fields) fields 8 ∅ =
       Part000.loop (8 + 3 * k) (take (8 + 3 * k) fields) 8 ∅) /\
  (forall line : string,
     Split line = fields ->
     Part000.parseRow line <> Panic /\
     forall (T : TimePkg) (cutoff : Time), Nesa2csv.parseRow line cutoff <> Panic).
Proof.
  intros Hlen. repeat split.
  - apply Nesa2csv_loop_ok. lia.
  - apply Part000_loop_ok. lia.
  - apply Nesa2csv_loop_body_in_bounds. lia.
  - apply Part000_loop_body_in_bounds. lia.
  - apply Nesa2csv_loop_trailing; lia.
  - apply Part000_loop_trailing; lia.
  - apply (Nesa2csv_loop_take fields (8 + 3 * k) k); lia.
  - apply (Part000_loop_take fields (8 + 3 * k) k); lia.
  - subst fields. destruct (Part000_parseRow_eight line Hlen) as [r ->]. discriminate.
  - intros T cutoff. subst fields.
    destruct (Nesa2csv_parseRow_eight line cutoff Hlen) as [[r ->]|[ts ->]]; discriminate.
Qed.

Lemma trailing_group_in_bounds_witness :
  Nesa2csv.loop 10 ["S"; "12"; "9"; "5"; "0"; "15"; "6"; "2023"; "1"; "2"] 8 ∅ = Ok ∅ /\
  Part000.loop 10 ["S"; "12"; "9"; "5"; "0"; "15"; "6"; "2023"; "1"; "2"] 8 ∅ = Ok ∅ /\
  Part000.parseRow "S,12,9,5,0,15,6,2023,1,2" <> Panic.
Proof.
  pose (fields := ["S"; "12"; "9"; "5"; "0"; "15"; "6"; "2023"; "1"; "2"]).
  assert (Hlen : (8 <= length fields)%nat) by (simpl; lia).
  destruct (trailing_group_in_bounds fields Hlen) as (_ & _ & Htrail & _ & Hrow).
  destruct (Htrail 8%nat ∅) as [HN HP]; [simpl; lia|].
  split; [exact HN|]. split; [exact HP|].
  exact (proj1 (Hrow "S,12,9,5,0,15,6,2023,1,2" eq_refl)).
Defined.

(** ** The measurement tables and the loop *)





Lemma Nesa2csv_unrecognized (measurementID processingID : string) :
  Nesa2csv.measurementMap !! measurementID = None \/
  (exists processingMap,
     Nesa2csv.measurementMap !! measurementID = Some processingMap /\
     processingMap !! processingID = None) ->
  Nesa2csv.measurementName_of measurementID processingID = "".
Proof.
  unfold Nesa2csv.measurementName_of.
  intros [E|(pm & E1 & E2)]; [now rewrite E|now rewrite E1, E2].
Qed.

Lemma Part000_unrecognized (measurementID processingID : string) :
  Part000.measurementMap !! measurementID = None \/
  (exists processingMap,
     Part000.measurementMap !! measurementID = Some processingMap /\
     processingMap !! processingID = None) ->
  Part000.measurementName_of measurementID processingID = "".
Proof.
  unfold Part000.measurementName_of.
  intros [E|(pm & E1 & E2)]; [now rewrite E|now rewrite E1, E2].
Qed.

(** An iteration changes the map at most at the name its IDs resolve to. *)
Ltac loop_body_lookup_tac :=
  intros fields i values values' c mid pid Emid Epid Hbody Hne;
  match type of Hbody with ?body _ _ _ = _ => unfold body in Hbody end;
  rewrite (index_Some _ _ _ Emid), bind_Ok, (index_Some _ _ _ Epid), bind_Ok in Hbody;
  match type of Hbody with
  | context [negb ?b && ?g] =>
      destruct (negb b && g);
      [ destruct (index fields (i + 2)) as [v| | |]; try discriminate Hbody;
        rewrite bind_Ok in Hbody; injection Hbody as <-;
        now rewrite lookup_insert_ne
      | now injection Hbody as <- ]
  end.

Lemma Nesa2csv_loop_body_lookup :
  forall (fields : list string) (i : nat) (values values' : gmap string string)
    (c mid pid : string),
  fields !! i = Some mid -> fields !! (i + 1)%nat = Some pid ->
  Nesa2csv.loop_body fields i values = Ok values' ->
  Nesa2csv.measurementName_of mid pid <> c ->
  values' !! c = values !! c.
Proof. loop_body_lookup_tac. Qed.

Lemma Part000_loop_body_lookup :
  forall (fields : list string) (i : nat) (values values' : gmap string string)
    (c mid pid : string),
  fields !! i = Some mid -> fields !! (i + 1)%nat = Some pid ->
  Part000.loop_body fields i values = Ok values' ->
  Part000.measurementName_of mid pid <> c ->
  values' !! c = values !! c.
Proof. loop_body_lookup_tac. Qed.

(** A name that no group from index [i] on resolves to keeps its entry,
    or its absence, through the loop. *)
Ltac loop_lookup_tac body_lookup :=
  intros fields c fuel; induction fuel as [|fuel IH];
  intros i values values' Hloop Hnone; simpl in Hloop;
  (destruct (Nat.ltb_spec i (length fields - 1)) as [Hlt|Hge];
   [|now injection Hloop as <-]);
  [ discriminate Hloop
  | destruct (index_lt fields i) as [mid Emid]; [lia|];
    destruct (index_lt fields (i + 1)) as [pid Epid]; [lia|];
    unfold index in Emid, Epid;
    destruct (fields !! i) as [mid'|] eqn:Fmid; [|discriminate Emid];
    destruct (fields !! (i + 1)%nat) as [pid'|] eqn:Fpid; [|discriminate Epid];
    match type of Hloop with
    | (?body fields i values ≫= _) = _ =>
        destruct (body fields i values) as [values1| | |] eqn:Ebody;
        try discriminate Hloop;
        rewrite bind_Ok in Hloop;
        rewrite (IH (i + 3)%nat values1 values' Hloop);
        [ apply (body_lookup fields i values values1 c mid' pid' Fmid Fpid Ebody);
          apply (Hnone 0%nat);
          [ now replace (i + 3 * 0)%nat with i by lia
          | now replace (i + 3 * 0 + 1)%nat with (i + 1)%nat by lia ]
        | intros k mid2 pid2 E1 E2; apply (Hnone (S k));
          [ now replace (i + 3 * S k)%nat with (i + 3 + 3 * k)%nat by lia
          | now replace (i + 3 * S k + 1)%nat with (i + 3 + 3 * k + 1)%nat by lia ] ]
    end ].

Lemma Nesa2csv_loop_lookup :
  forall (fields : list string) (c : string) (fuel i : nat)
    (values values' : gmap string string),
  Nesa2csv.loop fuel fields i values = Ok values' ->
  (forall (k : nat) (mid pid : string),
     fields !! (i + 3 * k)%nat = Some mid -> fields !! (i + 3 * k + 1)%nat = Some pid ->
     Nesa2csv.measurementName_of mid pid <> c) ->
  values' !! c = values !! c.
Proof. loop_lookup_tac Nesa2csv_loop_body_lookup. Qed.

Lemma Part000_loop_lookup :
  forall (fields : list string) (c : string) (fuel i : nat)
    (values values' : gmap string string),
  Part000.loop fuel fields i values = Ok values' ->
  (forall (k : nat) (mid pid : string),
     fields !! (i + 3 * k)%nat = Some mid -> fields !! (i + 3 * k + 1)%nat = Some pid ->
     Part000.measurementName_of mid pid <> c) ->
  values' !! c = values !! c.
Proof. loop_lookup_tac Part000_loop_body_lookup. Qed.

(** ** Rows *)

Lemma Nesa2csv_row_of_lookup (record : Record) (k : nat) :
  Nesa2csv.row_of record !! (2 + k)%nat =
  map_get (Values record) <$> Nesa2csv.requiredMeasurements !! k.
Proof. exact (list_lookup_fmap (map_get (Values record)) Nesa2csv.requiredMeasurements k). Qed.

Lemma Part000_row_of_lookup (record : Record) (k : nat) :
  Part000.row_of record !! (2 + k)%nat =
  map_get (Values record) <$> Part000.requiredMeasurements !! k.
Proof. exact (list_lookup_fmap (map_get (Values record)) Part000.requiredMeasurements k). Qed.

Lemma Nesa2csv_parseRow_values `{TimePkg} (line : string) (cutoff : Time)
    (record : Record) (c : string) :
  Nesa2csv.parseRow line cutoff = Ok record ->
  (forall (j : nat) (mid pid : string),
     Split line !! (8 + 3 * j)%nat = Some mid ->
     Split line !! (8 + 3 * j + 1)%nat = Some pid ->
     Nesa2csv.measurementName_of mid pid <> c) ->
  Values record !! c = None.
Proof.
  intros Hrow Hnone. unfold Nesa2csv.parseRow in Hrow.
  destruct (length (Split line) <? 7)%nat; [discriminate Hrow|].
  repeat match type of Hrow with
  | (index ?l ?i ≫= _) = _ =>
      destruct (index l i); try discriminate Hrow; rewrite bind_Ok in Hrow
  end.
  destruct (time_Parse _ _) as [recordTime|]; [|discriminate Hrow].
  destruct (Before recordTime cutoff).
  - injection Hrow as <-. apply lookup_empty.
  - destruct (Nesa2csv.loop _ _ _ _) as [values| | |] eqn:Eloop; try discriminate Hrow.
    rewrite bind_Ok in Hrow. injection Hrow as <-. simpl.
    rewrite (Nesa2csv_loop_lookup _ c _ _ _ _ Eloop Hnone). apply lookup_empty.
Qed.

Lemma Part000_parseRow_values (line : string) (record : Record) (c : string) :
  Part000.parseRow line = Ok record ->
  (forall (j : nat) (mid pid : string),
     Split line !! (8 + 3 * j)%nat = Some mid ->
     Split line !! (8 + 3 * j + 1)%nat = Some pid ->
     Part000.measurementName_of mid pid <> c) ->
  Values record !! c = None.
Proof.
  intros Hrow Hnone. unfold Part000.parseRow in Hrow.
  destruct (length (Split line) <? 7)%nat; [discriminate Hrow|].
  repeat match type of Hrow with
  | (index ?l ?i ≫= _) = _ =>
      destruct (index l i); try discriminate Hrow; rewrite bind_Ok in Hrow
  end.
  destruct (Part000.loop _ _ _ _) as [values| | |] eqn:Eloop; try discriminate Hrow.
  rewrite bind_Ok in Hrow. injection Hrow as <-. simpl.
  rewrite (Part000_loop_lookup _ c _ _ _ _ Eloop Hnone). apply lookup_empty.
Qed.

(** C6: in both converters, an iteration of the measurement loop on a
    group whose measurement ID is not in the table, or whose processing
    ID is not in the nested table of that measurement ID, returns the
    value map as it received it, and returns no error.  A required
    column that no group of the line resolves to has no entry in the
    record [parseRow] returns, and its field in the output row is the
    empty string. *)
Theorem unknown_ids_store_nothing :
  (forall (fields : list string) (i : nat) (measurementID processingID : string)
     (values : gmap string string),
     fields !! i = Some measurementID ->
     fields !! (i + 1)%nat = Some processingID ->
     (Nesa2csv.measurementMap !! measurementID = None \/
      exists processingMap,
        Nesa2csv.measurementMap !! measurementID = Some processingMap /\
        processingMap !! processingID = None) ->
     Nesa2csv.loop_body fields i values = Ok values) /\
  (forall (fields : list string) (i : nat) (measurementID processingID : string)
     (values : gmap string string),
     fields !! i = Some measurementID ->
     fields !! (i + 1)%nat = Some processingID ->
     (Part000.measurementMap !! measurementID = None \/
      exists processingMap,
        Part000.measurementMap !! measurementID = Some processingMap /\
        processingMap !! processingID = None) ->
     Part000.loop_body fields i values = Ok values) /\
  (forall (T : TimePkg) (line : string) (cutoff : Time) (record : Record)
     (k : nat) (column : string),
     Nesa2csv.parseRow line cutoff = Ok record ->
     Nesa2csv.requiredMeasurements !! k = Some column ->
     (forall (j : nat) (mid pid : string),
        Split line !! (8 + 3 * j)%nat = Some mid ->
        Split line !! (8 + 3 * j + 1)%nat = Some pid ->
        Nesa2csv.measurementName_of mid pid <> column) ->
     Values record !! column = None /\
     Nesa2csv.row_of record !! (2 + k)%nat = Some "") /\
  (forall (line : string) (record : Record) (k : nat) (column : string),
     Part000.parseRow line = Ok record ->
     Part000.requiredMeasurements !! k = Some column ->
     (forall (j : nat) (mid pid : string),
        Split line !! (8 + 3 * j)%nat = Some mid ->
        Split line !! (8 + 3 * j + 1)%nat = Some pid ->
        Part000.measurementName_of mid pid <> column) ->
     Values record !! column = None /\
     Part000.row_of record !! (2 + k)%nat = Some "").
Proof.
  split; [|split; [|split]].
  - intros fields i mid pid values Emid Epid Hunknown.
    unfold Nesa2csv.loop_body.
    rewrite (index_Some _ _ _ Emid), bind_Ok, (index_Some _ _ _ Epid), bind_Ok.
    now rewrite (Nesa2csv_unrecognized _ _ Hunknown).
  - intros fields i mid pid values Emid Epid Hunknown.
    unfold Part000.loop_body.
    rewrite (index_Some _ _ _ Emid), bind_Ok, (index_Some _ _ _ Epid), bind_Ok.
    now rewrite (Part000_unrecognized _ _ Hunknown).
  - intros T line cutoff record k column Hrow Hcol Hnone.
    pose proof (Nesa2csv_parseRow_values line cutoff record column Hrow Hnone) as Hv.
    split; [exact Hv|].
    rewrite Nesa2csv_row_of_lookup, Hcol. simpl. unfold map_get. now rewrite Hv.
  - intros line record k column Hrow Hcol Hnone.
    pose proof (Part000_parseRow_values line record column Hrow Hnone) as Hv.
    split; [exact Hv|].
    rewrite Part000_row_of_lookup, Hcol. simpl. unfold map_get. now rewrite Hv.
Qed.

Lemma unknown_ids_store_nothing_witness :
  Nesa2csv.loop_body
    ["S"; "12"; "9"; "5"; "0"; "15"; "6"; "2023"; "77"; "2"; "21.5"] 8 ∅ = Ok ∅ /\
  Part000.loop_body
    ["S"; "12"; "9"; "5"; "0"; "15"; "6"; "2023"; "1"; "9"; "21.5"] 8 ∅ = Ok ∅ /\
  (exists record,
     Part000.parseRow "S,12,9,5,0,15,6,2023,1,9,21.5" = Ok record /\
     Part000.row_of record !! 2%nat = Some "") /\
  (exists record,
     Nesa2csv.parseRow "S,12,9,5,0,15,6,2023,77,2,21.5" (0, 0)%Z = Ok record /\
     Nesa2csv.row_of record !! 2%nat = Some "").
Proof.
  destruct unknown_ids_store_nothing as (HN & HP & HNrow & HProw).
  split; [|split; [|split]].
  - apply (HN _ 8%nat "77" "2"); [reflexivity|reflexivity|].
    left. reflexivity.
  - apply (HP _ 8%nat "1" "9"); [reflexivity|reflexivity|].
    right. eexists. split; reflexivity.
  - destruct (Part000.parseRow "S,12,9,5,0,15,6,2023,1,9,21.5") as [record| | |] eqn:E;
      try (vm_compute in E; discriminate E).
    exists record. split; [reflexivity|].
    apply (HProw _ record 0%nat "Temperature_Avg" E eq_refl).
    intros [|j] mid pid E1 E2.
    + vm_compute in E1, E2. injection E1 as <-. injection E2 as <-. discriminate.
    + rewrite lookup_ge_None_2 in E1; [discriminate E1|].
      change (length (Split "S,12,9,5,0,15,6,2023,1,9,21.5")) with 11%nat. lia.
  - destruct (Nesa2csv.parseRow (T:=goTime) "S,12,9,5,0,15,6,2023,77,2,21.5" (0, 0)%Z)
      as [record| | |] eqn:E; try (vm_compute in E; discriminate E).
    exists record. split; [reflexivity|].
    apply (HNrow goTime _ (0, 0)%Z record 0%nat "Temperature_Avg" E eq_refl).
    intros [|j] mid pid E1 E2.
    + vm_compute in E1, E2. injection E1 as <-. injection E2 as <-. discriminate.
    + rewrite lookup_ge_None_2 in E1; [discriminate E1|].
      change (length (Split "S,12,9,5,0,15,6,2023,77,2,21.5")) with 11%nat. lia.
Defined.

(** ** Lines without the prefix *)

Lemma Part000_process_line_calls (line : string) (w : World) :
  calls (Part000.process_line line w).1 =
  calls w ++ (if HasPrefix line "S," then [line] else []).
Proof.
  unfold Part000.process_line.
  destruct (HasPrefix line "S,"); simpl; [|now rewrite app_nil_r].
  destruct (Part000.parseRow line); reflexivity.
Qed.

Lemma Nesa2csv_process_line_calls `{TimePkg} (line : string) (cutoff : Time) (w : World) :
  calls (Nesa2csv.process_line line cutoff w).1 =
  calls w ++ (if HasPrefix line "S," then [line] else []).
Proof.
  unfold Nesa2csv.process_line.
  destruct (HasPrefix line "S,"); simpl; [|now rewrite app_nil_r].
  destruct (Nesa2csv.parseRow line cutoff) as [record| | |]; try reflexivity.
  destruct (String.eqb (Timestamp record) ""); reflexivity.
Qed.

Lemma Part000_scan_calls (ls : list string) (w : World) :
  Forall prefixed (calls w) -> Forall prefixed (calls (Part000.scan ls w).1).
Proof.
  revert w. induction ls as [|line ls IH]; intros w Hw; simpl; [exact Hw|].
  pose proof (Part000_process_line_calls line w) as Hc.
  destruct (Part000.process_line line w) as [w' r]. simpl in Hc.
  assert (Hw' : Forall prefixed (calls w')).
  { rewrite Hc. apply Forall_app. split; [exact Hw|].
    destruct (HasPrefix line "S,") eqn:Ep; repeat constructor. exact Ep. }
  destruct r; [now apply IH| exact Hw' ..].
Qed.

Lemma Nesa2csv_scan_calls `{TimePkg} (ls : list string) (cutoff : Time) (w : World) :
  Forall prefixed (calls w) -> Forall prefixed (calls (Nesa2csv.scan ls cutoff w).1).
Proof.
  revert w. induction ls as [|line ls IH]; intros w Hw; simpl; [exact Hw|].
  pose proof (Nesa2csv_process_line_calls line cutoff w) as Hc.
  destruct (Nesa2csv.process_line line cutoff w) as [w' r]. simpl in Hc.
  assert (Hw' : Forall prefixed (calls w')).
  { rewrite Hc. apply Forall_app. split; [exact Hw|].
    destruct (HasPrefix line "S,") eqn:Ep; repeat constructor. exact Ep. }
  destruct r; [now apply IH| exact Hw' ..].
Qed.

(** Dropping the lines without the prefix from a file changes nothing a
    scan does. *)
Lemma Part000_scan_filter (ls : list string) (w : World) :
  Part000.scan ls w = Part000.scan (List.filter (fun l => HasPrefix l "S,") ls) w.
Proof.
  revert w. induction ls as [|line ls IH]; intros w; [reflexivity|].
  cbn [List.filter]. destruct (HasPrefix line "S,") eqn:Ep.
  - simpl. destruct (Part000.process_line line w) as [w' [[]| | |]]; auto.
  - simpl. unfold Part000.process_line at 1. rewrite Ep. simpl. apply IH.
Qed.

Lemma Nesa2csv_scan_filter `{TimePkg} (ls : list string) (cutoff : Time) (w : World) :
  Nesa2csv.scan ls cutoff w =
  Nesa2csv.scan (List.filter (fun l => HasPrefix l "S,") ls) cutoff w.
Proof.
  revert w. induction ls as [|line ls IH]; intros w; [reflexivity|].
  cbn [List.filter]. destruct (HasPrefix line "S,") eqn:Ep.
  - simpl. destruct (Nesa2csv.process_line line cutoff w) as [w' [[]| | |]]; auto.
  - simpl. unfold Nesa2csv.process_line at 1. rewrite Ep. simpl. apply IH.
Qed.

(** C8: in both converters, the step of the scan loop on a line that does
    not begin with ["S,"] leaves the rows, the messages and the trace of
    [parseRow] invocations as they were and reports no error; a scan does
    the same on a file and on the file without such lines; and every line
    [processFile] invokes [parseRow] on begins with ["S,"]. *)
Theorem only_prefixed_lines_are_parsed :
  (forall (line : string) (w : World),
     HasPrefix line "S," = false ->
     Part000.process_line line w = (w, Ok tt) /\
     forall (T : TimePkg) (cutoff : Time),
       Nesa2csv.process_line line cutoff w = (w, Ok tt)) /\
  (forall (ls : list string) (w : World),
     Part000.scan ls w = Part000.scan (List.filter (fun l => HasPrefix l "S,") ls) w /\
     forall (T : TimePkg) (cutoff : Time),
       Nesa2csv.scan ls cutoff w =
       Nesa2csv.scan (List.filter (fun l => HasPrefix l "S,") ls) cutoff w) /\
  (forall (fs : FS) (filePath : string) (w : World) (writeHeader : bool),
     Forall prefixed (calls w) ->
     Forall prefixed (calls (Part000.processFile fs filePath w writeHeader).1) /\
     forall (T : TimePkg) (cutoff : Time),
       Forall prefixed
         (calls (Nesa2csv.processFile fs filePath w writeHeader cutoff).1)).
Proof.
  split; [|split].
  - intros line w Ep. split.
    + unfold Part000.process_line. now rewrite Ep.
    + intros T cutoff. unfold Nesa2csv.process_line. now rewrite Ep.
  - intros ls w. split; [apply Part000_scan_filter|].
    intros T cutoff. apply Nesa2csv_scan_filter.
  - intros fs filePath w writeHeader Hw. split.
    + unfold Part000.processFile. destruct (fs filePath) as [file|]; [|exact Hw].
      set (w0 := if writeHeader then Write Part000.header w else w).
      assert (Hw0 : Forall prefixed (calls w0)) by (subst w0; now destruct writeHeader).
      pose proof (Part000_scan_calls (lines file) w0 Hw0) as Hs.
      destruct (Part000.scan (lines file) w0) as [w' r]. simpl in Hs.
      destruct r; [destruct (scanErr file)|..]; exact Hs.
    + intros T cutoff.
      unfold Nesa2csv.processFile. destruct (fs filePath) as [file|]; [|exact Hw].
      pose proof (Nesa2csv_scan_calls (lines file) cutoff w Hw) as Hs.
      destruct (Nesa2csv.scan (lines file) cutoff w) as [w' r]. simpl in Hs.
      destruct r; [destruct (scanErr file)|..]; exact Hs.
Qed.

Lemma only_prefixed_lines_are_parsed_witness :
  Part000.process_line "# station log" World_init = (World_init, Ok tt) /\
  Nesa2csv.process_line "# station log" (0, 0)%Z World_init = (World_init, Ok tt) /\
  Forall prefixed
    (calls (Part000.processFile
              (fun _ => Some (mkFile ["# station log"; "S,12,9,5,0,15,6,2023"] false))
              "a.txt" World_init true).1).
Proof.
  destruct only_prefixed_lines_are_parsed as (Hstep & _ & Hfile).
  assert (Ep : HasPrefix "# station log" "S," = false) by reflexivity.
  destruct (Hstep "# station log" World_init Ep) as [HP HN].
  split; [exact HP|]. split; [exact (HN goTime (0, 0)%Z)|].
  apply Hfile. simpl. constructor.
Defined.

(** ** Timestamps and the cutoff *)

Example Parse_ex :
  GoTime.Parse "2023-06-15T09:05:00" = Some (1686819900, 0)%Z /\
  GoTime.Parse "1970-01-01T00:00:00" = Some (0, 0)%Z /\
  GoTime.Parse "2024-02-29T23:59:59" = Some (1709251199, 0)%Z.
Proof. repeat split; reflexivity. Qed.

Example Parse_mismatch :
  GoTime.Parse "2023-02-31T09:05:00" = None /\
  GoTime.Parse "2023-13-01T09:05:00" = None /\
  GoTime.Parse "2023-06-15T24:05:00" = None /\
  GoTime.Parse "23-06-15T09:05:00" = None /\
  GoTime.Parse "2023-06-15T09:05:" = None /\
  GoTime.Parse "2023-06-15T09:05:00Z" = None.
Proof. repeat split; reflexivity. Qed.

(** Go reads a fractional second after the seconds although the layout
    has none. *)
Example Parse_fraction :
  GoTime.Parse "2023-06-15T09:05:00.5" = Some (1686819900, 500000000)%Z.
Proof. reflexivity. Qed.

Lemma Nesa2csv_process_line_skip `{TimePkg} (line : string) (cutoff : Time)
    (w : World) (record : Record) :
  Nesa2csv.parseRow line cutoff = Ok record -> Timestamp record = "" ->
  csv (Nesa2csv.process_line line cutoff w).1 = csv w /\
  stdout (Nesa2csv.process_line line cutoff w).1 = stdout w /\
  (Nesa2csv.process_line line cutoff w).2 = Ok tt.
Proof.
  intros Hrow Hts. unfold Nesa2csv.process_line.
  destruct (HasPrefix line "S,"); simpl; [|auto].
  rewrite Hrow, Hts. simpl. auto.
Qed.

Lemma Nesa2csv_process_line_error `{TimePkg} (line : string) (cutoff : Time)
    (w : World) (err : error) :
  Nesa2csv.parseRow line cutoff = Err err ->
  csv (Nesa2csv.process_line line cutoff w).1 = csv w /\
  (Nesa2csv.process_line line cutoff w).2 = Ok tt.
Proof.
  intros Hrow. unfold Nesa2csv.process_line.
  destruct (HasPrefix line "S,"); simpl; [|auto].
  rewrite Hrow. simpl. auto.
Qed.

(** C4: in the filtering converter, on a line with its eight fixed fields,
    - when [time.Parse] rejects the assembled timestamp under the layout
      [2006-01-02T15:04:05], [parseRow] returns the "invalid timestamp"
      error, and the scan loop writes no row for the line and goes on;
    - when the timestamp parses to a time before the cutoff, [parseRow]
      returns the record with empty [Timestamp] and no error, and the scan
      loop writes no row, prints nothing, and goes on. *)
Theorem invalid_or_old_timestamp (T : TimePkg) (line : string) (cutoff : Time)
    (tag station hour minute second day month year : string) (rest : list string) :
  Split line = tag :: station :: hour :: minute :: second :: day :: month :: year :: rest ->
  let timestampStr :=
    Sprintf_timestamp year (zeroPad month) (zeroPad day)
      (zeroPad hour) (zeroPad minute) (zeroPad second) in
  (time_Parse "2006-01-02T15:04:05" timestampStr = None ->
   Nesa2csv.parseRow line cutoff = Err (InvalidTimestamp timestampStr) /\
   forall w : World,
     csv (Nesa2csv.process_line line cutoff w).1 = csv w /\
     (Nesa2csv.process_line line cutoff w).2 = Ok tt) /\
  (forall recordTime : Time,
     time_Parse "2006-01-02T15:04:05" timestampStr = Some recordTime ->
     Before recordTime cutoff = true ->
     Nesa2csv.parseRow line cutoff = Ok (mkRecord "" "" ∅) /\
     forall w : World,
       csv (Nesa2csv.process_line line cutoff w).1 = csv w /\
       stdout (Nesa2csv.process_line line cutoff w).1 = stdout w /\
       (Nesa2csv.process_line line cutoff w).2 = Ok tt).
Proof.
  intros E timestampStr.
  pose proof (Nesa2csv_parseRow_fields _ _ _ _ _ _ _ _ _ _ cutoff E) as Hrow.
  cbv zeta in Hrow. fold timestampStr in Hrow.
  change Nesa2csv.layout with "2006-01-02T15:04:05" in Hrow.
  split.
  - intros Hparse. rewrite Hparse in Hrow. split; [exact Hrow|].
    intros w. now apply (Nesa2csv_process_line_error line cutoff w _ Hrow).
  - intros recordTime Hparse Hold. rewrite Hparse, Hold in Hrow. split; [exact Hrow|].
    intros w. now apply (Nesa2csv_process_line_skip line cutoff w _ Hrow).
Qed.

Lemma invalid_or_old_timestamp_witness :
  Nesa2csv.parseRow "S,12,9,5,0,31,2,2023" (0, 0)%Z =
    Err (InvalidTimestamp "2023-02-31T09:05:00") /\
  Nesa2csv.parseRow "S,0012,9,5,0,15,6,2023,1,2,21.5" (1700000000, 0)%Z =
    Ok (mkRecord "" "" ∅) /\
  csv (Nesa2csv.process_line "S,0012,9,5,0,15,6,2023,1,2,21.5"
         (1700000000, 0)%Z World_init).1 = [].
Proof.
  split; [|split].
  - apply (invalid_or_old_timestamp goTime "S,12,9,5,0,31,2,2023" (0, 0)%Z
             "S" "12" "9" "5" "0" "31" "2" "2023" [] eq_refl).
    reflexivity.
  - apply (invalid_or_old_timestamp goTime "S,0012,9,5,0,15,6,2023,1,2,21.5"
             (1700000000, 0)%Z "S" "0012" "9" "5" "0" "15" "6" "2023"
             ["1"; "2"; "21.5"] eq_refl)
      with (recordTime := (1686819900, 0)%Z); reflexivity.
  - apply (invalid_or_old_timestamp goTime "S,0012,9,5,0,15,6,2023,1,2,21.5"
             (1700000000, 0)%Z "S" "0012" "9" "5" "0" "15" "6" "2023"
             ["1"; "2"; "21.5"] eq_refl)
      with (recordTime := (1686819900, 0)%Z); reflexivity.
Defined.

(** ** The worked example of the specification *)

Lemma Split_example (rest : string) :
  Split ("S,0012,9,5,0,15,6,2023,1,2,21.5," +:+ rest) =
  "S" :: "0012" :: "9" :: "5" :: "0" :: "15" :: "6" :: "2023" ::
  "1" :: "2" :: "21.5" :: Split rest.
Proof. cbv [String.app]. reflexivity. Qed.

Lemma timestamp_example :
  Sprintf_timestamp "2023" (zeroPad "6") (zeroPad "15")
    (zeroPad "9") (zeroPad "5") (zeroPad "0") = "2023-06-15T09:05:00" /\
  TrimLeft0 "0012" = "12".
Proof. split; reflexivity. Qed.

(** With a cutoff after 15 June 2023 (here 14 November 2023, 22:13:20 UTC)
    the filtering converter returns the too-old record for the example
    line: its station ID and timestamp are empty. *)
Lemma example_line_too_old :
  Nesa2csv.parseRow "S,0012,9,5,0,15,6,2023,1,2,21.5,..." (1700000000, 0)%Z =
    Ok (mkRecord "" "" ∅) /\
  ~ (exists record,
       Nesa2csv.parseRow "S,0012,9,5,0,15,6,2023,1,2,21.5,..." (1700000000, 0)%Z =
         Ok record /\
       StationID record = "12" /\ Timestamp record = "2023-06-15T09:05:00").
Proof.
  assert (E : Nesa2csv.parseRow "S,0012,9,5,0,15,6,2023,1,2,21.5,..."
                (1700000000, 0)%Z = Ok (mkRecord "" "" ∅)) by reflexivity.
  split; [exact E|].
  intros (record & Hrow & Hid & _). rewrite E in Hrow.
  injection Hrow as <-. discriminate Hid.
Qed.

(** C5, with the cutoff taken into account: for the line
    [S,0012,9,5,0,15,6,2023,1,2,21.5,] followed by anything,
    [parseRow] of the converter without filtering returns a
    record with station ID ["12"] and timestamp ["2023-06-15T09:05:00"];
    [parseRow] of the filtering converter returns such a record when the
    parsed time is not before the cutoff, and the too-old record with
    empty station ID and timestamp when it is. *)
Theorem parseRow_example (rest : string) :
  (exists values,
     Part000.parseRow ("S,0012,9,5,0,15,6,2023,1,2,21.5," +:+ rest) =
       Ok (mkRecord "12" "2023-06-15T09:05:00" values)) /\
  (forall (T : TimePkg) (cutoff recordTime : Time),
     time_Parse "2006-01-02T15:04:05" "2023-06-15T09:05:00" = Some recordTime ->
     (Before recordTime cutoff = false ->
      exists values,
        Nesa2csv.parseRow ("S,0012,9,5,0,15,6,2023,1,2,21.5," +:+ rest) cutoff =
          Ok (mkRecord "12" "2023-06-15T09:05:00" values)) /\
     (Before recordTime cutoff = true ->
      Nesa2csv.parseRow ("S,0012,9,5,0,15,6,2023,1,2,21.5," +:+ rest) cutoff =
        Ok (mkRecord "" "" ∅))).
Proof.
  pose proof (Split_example rest) as E.
  destruct timestamp_example as [Ets Eid].
  split.
  - rewrite (Part000_parseRow_fields _ _ _ _ _ _ _ _ _ _ E), Ets, Eid.
    destruct (Part000_loop_ok (Split ("S,0012,9,5,0,15,6,2023,1,2,21.5," +:+ rest))
                (length (Split ("S,0012,9,5,0,15,6,2023,1,2,21.5," +:+ rest))) 8 ∅)
      as [values Ev]; [lia|].
    rewrite Ev, bind_Ok. eauto.
  - intros T cutoff recordTime Hparse.
    rewrite (Nesa2csv_parseRow_fields _ _ _ _ _ _ _ _ _ _ cutoff E). cbv zeta.
    rewrite Ets, Eid.
    change Nesa2csv.layout with "2006-01-02T15:04:05". rewrite Hparse.
    split; intros Hold; rewrite Hold; [|reflexivity].
    destruct (Nesa2csv_loop_ok (Split ("S,0012,9,5,0,15,6,2023,1,2,21.5," +:+ rest))
                (length (Split ("S,0012,9,5,0,15,6,2023,1,2,21.5," +:+ rest))) 8 ∅)
      as [values Ev]; [lia|].
    rewrite Ev, bind_Ok. eauto.
Qed.

Lemma parseRow_example_witness :
  exists values,
    Nesa2csv.parseRow "S,0012,9,5,0,15,6,2023,1,2,21.5,..." (1686819900, 0)%Z =
      Ok (mkRecord "12" "2023-06-15T09:05:00" values).
Proof.
  apply (proj2 (parseRow_example "...") goTime (1686819900, 0)%Z (1686819900, 0)%Z);
    reflexivity.
Defined.

(** On the line as the specification writes it, dots included, the one
    group is the average temperature. *)
Example example_line_values :
  Part000.parseRow "S,0012,9,5,0,15,6,2023,1,2,21.5,..." =
    Ok (mkRecord "12" "2023-06-15T09:05:00" {[ "Temperature_Avg" := "21.5" ]}) /\
  Nesa2csv.parseRow "S,0012,9,5,0,15,6,2023,1,2,21.5,..." (0, 0)%Z =
    Ok (mkRecord "12" "2023-06-15T09:05:00" {[ "Temperature_Avg" := "21.5" ]}).
Proof. split; vm_compute; reflexivity. Qed.

(** ** What the loop leaves in the map for a recognized group *)

(** A run of the loop that returns passes through every group start
    before the end of the slice. *)
Ltac loop_reach_tac :=
  intros fields final k; induction k as [|k IH]; intros fuel i values Hloop Hlt;
  [ replace (i + 3 * 0)%nat with i by lia;
    destruct fuel as [|fuel];
    [ simpl in Hloop;
      destruct (Nat.ltb_spec i (length fields - 1)); [discriminate Hloop|lia]
    | eauto ]
  | destruct fuel as [|fuel]; simpl in Hloop;
    (destruct (Nat.ltb_spec i (length fields - 1)); [|lia]);
    [ discriminate Hloop
    | match type of Hloop with
      | (?body fields i values ≫= _) = _ =>
          destruct (body fields i values) as [values1| | |];
          try discriminate Hloop;
          rewrite bind_Ok in Hloop;
          replace (i + 3 * S k)%nat with (i + 3 + 3 * k)%nat by lia;
          apply (IH fuel (i + 3)%nat values1 Hloop); lia
      end ] ].

Lemma Nesa2csv_loop_reach :
  forall (fields : list string) (final : gmap string string) (k fuel i : nat)
    (values : gmap string string),
  Nesa2csv.loop fuel fields i values = Ok final ->
  (i + 3 * k < length fields - 1)%nat ->
  exists fuel' values',
    Nesa2csv.loop (S fuel') fields (i + 3 * k) values' = Ok final.
Proof. loop_reach_tac. Qed.

Lemma Part000_loop_reach :
  forall (fields : list string) (final : gmap string string) (k fuel i : nat)
    (values : gmap string string),
  Part000.loop fuel fields i values = Ok final ->
  (i + 3 * k < length fields - 1)%nat ->
  exists fuel' values',
    Part000.loop (S fuel') fields (i + 3 * k) values' = Ok final.
Proof. loop_reach_tac. Qed.

Lemma Nesa2csv_loop_body_store (fields : list string) (i : nat)
    (mid pid value : string) (values : gmap string string) :
  fields !! i = Some mid -> fields !! (i + 1)%nat = Some pid ->
  fields !! (i + 2)%nat = Some value ->
  Nesa2csv.measurementName_of mid pid <> "" ->
  Nesa2csv.loop_body fields i values =
    Ok (<[Nesa2csv.measurementName_of mid pid := star_to_empty value]> values).
Proof.
  intros Emid Epid Eval Hne. unfold Nesa2csv.loop_body.
  rewrite (index_Some _ _ _ Emid), bind_Ok, (index_Some _ _ _ Epid), bind_Ok.
  destruct (String.eqb_spec (Nesa2csv.measurementName_of mid pid) ""); [contradiction|].
  pose proof (lookup_lt_Some _ _ _ Eval) as Hlt.
  destruct (Nat.ltb_spec (i + 2) (length fields)); [|lia].
  simpl. now rewrite (index_Some _ _ _ Eval), bind_Ok.
Qed.

Lemma Part000_loop_body_store (fields : list string) (i : nat)
    (mid pid value : string) (values : gmap string string) :
  fields !! i = Some mid -> fields !! (i + 1)%nat = Some pid ->
  fields !! (i + 2)%nat = Some value ->
  Part000.measurementName_of mid pid <> "" ->
  Part000.loop_body fields i values =
    Ok (<[Part000.measurementName_of mid pid := value]> values).
Proof.
  intros Emid Epid Eval Hne. unfold Part000.loop_body.
  rewrite (index_Some _ _ _ Emid), bind_Ok, (index_Some _ _ _ Epid), bind_Ok.
  destruct (String.eqb_spec (Part000.measurementName_of mid pid) ""); [contradiction|].
  pose proof (lookup_lt_Some _ _ _ Eval) as Hlt.
  destruct (Nat.ltb_spec (i + 2) (length fields)); [|lia].
  simpl. now rewrite (index_Some _ _ _ Eval), bind_Ok.
Qed.

Lemma Nesa2csv_loop_S (fuel : nat) (fields : list string) (i : nat)
    (values : gmap string string) :
  (i < length fields - 1)%nat ->
  Nesa2csv.loop (S fuel) fields i values =
    values' ← Nesa2csv.loop_body fields i values;
    Nesa2csv.loop fuel fields (i + 3) values'.
Proof.
  intros Hlt. cbn [Nesa2csv.loop].
  now destruct (Nat.ltb_spec i (length fields - 1)); [|lia].
Qed.

Lemma Part000_loop_S (fuel : nat) (fields : list string) (i : nat)
    (values : gmap string string) :
  (i < length fields - 1)%nat ->
  Part000.loop (S fuel) fields i values =
    values' ← Part000.loop_body fields i values;
    Part000.loop fuel fields (i + 3) values'.
Proof.
  intros Hlt. cbn [Part000.loop].
  now destruct (Nat.ltb_spec i (length fields - 1)); [|lia].
Qed.

(** The last group that resolves to a name decides the entry under it. *)
Lemma Nesa2csv_loop_store (fields : list string) (final : gmap string string)
    (fuel j : nat) (mid pid value : string) :
  Nesa2csv.loop fuel fields 8 ∅ = Ok final ->
  fields !! (8 + 3 * j)%nat = Some mid ->
  fields !! (8 + 3 * j + 1)%nat = Some pid ->
  fields !! (8 + 3 * j + 2)%nat = Some value ->
  Nesa2csv.measurementName_of mid pid <> "" ->
  (forall (j' : nat) (mid' pid' : string),
     (j < j')%nat ->
     fields !! (8 + 3 * j')%nat = Some mid' ->
     fields !! (8 + 3 * j' + 1)%nat = Some pid' ->
     Nesa2csv.measurementName_of mid' pid' <> Nesa2csv.measurementName_of mid pid) ->
  final !! Nesa2csv.measurementName_of mid pid = Some (star_to_empty value).
Proof.
  intros Hloop Emid Epid Eval Hne Hlast.
  pose proof (lookup_lt_Some _ _ _ Eval) as Hlt.
  destruct (Nesa2csv_loop_reach fields final j fuel 8 ∅ Hloop) as (fuel' & values' & Hj);
    [lia|].
  rewrite Nesa2csv_loop_S in Hj by lia.
  rewrite (Nesa2csv_loop_body_store _ _ _ _ _ values' Emid Epid Eval Hne), bind_Ok in Hj.
  rewrite (Nesa2csv_loop_lookup _ (Nesa2csv.measurementName_of mid pid) _ _ _ _ Hj).
  - apply lookup_insert_eq.
  - intros k mid' pid' E1 E2. apply (Hlast (j + 1 + k)%nat); [lia| |].
    + now replace (8 + 3 * (j + 1 + k))%nat with (8 + 3 * j + 3 + 3 * k)%nat by lia.
    + now replace (8 + 3 * (j + 1 + k) + 1)%nat with (8 + 3 * j + 3 + 3 * k + 1)%nat by lia.
Qed.

Lemma Part000_loop_store (fields : list string) (final : gmap string string)
    (fuel j : nat) (mid pid value : string) :
  Part000.loop fuel fields 8 ∅ = Ok final ->
  fields !! (8 + 3 * j)%nat = Some mid ->
  fields !! (8 + 3 * j + 1)%nat = Some pid ->
  fields !! (8 + 3 * j + 2)%nat = Some value ->
  Part000.measurementName_of mid pid <> "" ->
  (forall (j' : nat) (mid' pid' : string),
     (j < j')%nat ->
     fields !! (8 + 3 * j')%nat = Some mid' ->
     fields !! (8 + 3 * j' + 1)%nat = Some pid' ->
     Part000.measurementName_of mid' pid' <> Part000.measurementName_of mid pid) ->
  final !! Part000.measurementName_of mid pid = Some value.
Proof.
  intros Hloop Emid Epid Eval Hne Hlast.
  pose proof (lookup_lt_Some _ _ _ Eval) as Hlt.
  destruct (Part000_loop_reach fields final j fuel 8 ∅ Hloop) as (fuel' & values' & Hj);
    [lia|].
  rewrite Part000_loop_S in Hj by lia.
  rewrite (Part000_loop_body_store _ _ _ _ _ values' Emid Epid Eval Hne), bind_Ok in Hj.
  rewrite (Part000_loop_lookup _ (Part000.measurementName_of mid pid) _ _ _ _ Hj).
  - apply lookup_insert_eq.
  - intros k mid' pid' E1 E2. apply (Hlast (j + 1 + k)%nat); [lia| |].
    + now replace (8 + 3 * (j + 1 + k))%nat with (8 + 3 * j + 3 + 3 * k)%nat by lia.
    + now replace (8 + 3 * (j + 1 + k) + 1)%nat with (8 + 3 * j + 3 + 3 * k + 1)%nat by lia.
Qed.

Lemma Nesa2csv_parseRow_loop `{TimePkg} (line : string) (cutoff : Time)
    (record : Record) :
  Nesa2csv.parseRow line cutoff = Ok record -> Timestamp record <> "" ->
  Nesa2csv.loop (length (Split line)) (Split line) 8 ∅ = Ok (Values record).
Proof.
  intros Hrow Hts. unfold Nesa2csv.parseRow in Hrow.
  destruct (length (Split line) <? 7)%nat; [discriminate Hrow|].
  repeat match type of Hrow with
  | (index ?l ?i ≫= _) = _ =>
      destruct (index l i); try discriminate Hrow; rewrite bind_Ok in Hrow
  end.
  destruct (time_Parse _ _) as [recordTime|]; [|discriminate Hrow].
  destruct (Before recordTime cutoff).
  - injection Hrow as <-. now contradiction Hts.
  - destruct (Nesa2csv.loop _ _ _ _) as [values| | |]; try discriminate Hrow.
    rewrite bind_Ok in Hrow. now injection Hrow as <-.
Qed.

Lemma Part000_parseRow_loop (line : string) (record : Record) :
  Part000.parseRow line = Ok record ->
  Part000.loop (length (Split line)) (Split line) 8 ∅ = Ok (Values record).
Proof.
  intros Hrow. unfold Part000.parseRow in Hrow.
  destruct (length (Split line) <? 7)%nat; [discriminate Hrow|].
  repeat match type of Hrow with
  | (index ?l ?i ≫= _) = _ =>
      destruct (index l i); try discriminate Hrow; rewrite bind_Ok in Hrow
  end.
  destruct (Part000.loop _ _ _ _) as [values| | |]; try discriminate Hrow.
  rewrite bind_Ok in Hrow. now injection Hrow as <-.
Qed.

(** ** The missing-data marker *)






(** The same on whole lines: with filtering the row of a line with [*] is
    the row of the line without the group; without filtering it carries
    the [*]. *)
Example star_rows :
  (exists record record',
     Nesa2csv.parseRow "S,12,9,5,0,15,6,2023,1,2,*" (0, 0)%Z = Ok record /\
     Nesa2csv.parseRow "S,12,9,5,0,15,6,2023" (0, 0)%Z = Ok record' /\
     Nesa2csv.row_of record = Nesa2csv.row_of record' /\
     Nesa2csv.row_of record !! 2%nat = Some "") /\
  (exists record,
     Part000.parseRow "S,12,9,5,0,15,6,2023,1,2,*" = Ok record /\
     Part000.row_of record !! 2%nat = Some "*").
Proof.
  split.
  - eexists _, _. split; [vm_compute; reflexivity|].
    split; [vm_compute; reflexivity|]. split; vm_compute; reflexivity.
  - eexists. split; vm_compute; reflexivity.
Qed.


(** ** The header row *)

Lemma has_char_append (c : ascii) (a b : string) :
  has_char c (a +:+ b) = has_char c a || has_char c b.
Proof.
  induction a as [|c' a IH]; [reflexivity|].
  change (String c' a +:+ b) with (String c' (a +:+ b)).
  cbn [has_char]. rewrite IH. now destruct (Ascii.eqb c' c).
Qed.

Lemma Sprintf_timestamp_has_dash (year month day hour minute second : string) :
  has_char "-" (Sprintf_timestamp year month day hour minute second) = true.
Proof.
  unfold Sprintf_timestamp. rewrite has_char_append.
  change ("-" +:+ month +:+ "-" +:+ day +:+ "T" +:+ hour +:+ ":" +:+ minute +:+ ":" +:+ second)
    with (String "-" (month +:+ "-" +:+ day +:+ "T" +:+ hour +:+ ":" +:+ minute +:+ ":" +:+ second)).
  cbn [has_char]. apply orb_true_r.
Qed.

(** *** The filtering converter writes data rows only *)

Lemma Nesa2csv_parseRow_timestamp `{TimePkg} (line : string) (cutoff : Time)
    (record : Record) :
  Nesa2csv.parseRow line cutoff = Ok record ->
  Timestamp record = "" \/ has_char "-" (Timestamp record) = true.
Proof.
  intros Hrow. unfold Nesa2csv.parseRow in Hrow.
  destruct (length (Split line) <? 7)%nat; [discriminate Hrow|].
  repeat match type of Hrow with
  | (index ?l ?i ≫= _) = _ =>
      destruct (index l i); try discriminate Hrow; rewrite bind_Ok in Hrow
  end.
  destruct (time_Parse _ _) as [recordTime|]; [|discriminate Hrow].
  destruct (Before recordTime cutoff).
  - injection Hrow as <-. now left.
  - destruct (Nesa2csv.loop _ _ _ _) as [values| | |]; try discriminate Hrow.
    rewrite bind_Ok in Hrow. injection Hrow as <-. right.
    apply Sprintf_timestamp_has_dash.
Qed.

Lemma Nesa2csv_process_line_data `{TimePkg} (line : string) (cutoff : Time) (w : World) :
  Forall data_row (csv w) ->
  Forall data_row (csv (Nesa2csv.process_line line cutoff w).1).
Proof.
  intros Hw. unfold Nesa2csv.process_line.
  destruct (HasPrefix line "S,"); simpl; [|exact Hw].
  destruct (Nesa2csv.parseRow line cutoff) as [record| | |] eqn:E; simpl; try exact Hw.
  destruct (String.eqb_spec (Timestamp record) "") as [|Hne]; simpl; [exact Hw|].
  apply Forall_app. split; [exact Hw|]. repeat constructor.
  exists (Timestamp record). split; [reflexivity|].
  now destruct (Nesa2csv_parseRow_timestamp line cutoff record E).
Qed.

Lemma Nesa2csv_scan_data `{TimePkg} (ls : list string) (cutoff : Time) (w : World) :
  Forall data_row (csv w) -> Forall data_row (csv (Nesa2csv.scan ls cutoff w).1).
Proof.
  revert w. induction ls as [|line ls IH]; intros w Hw; simpl; [exact Hw|].
  pose proof (Nesa2csv_process_line_data line cutoff w Hw) as Hstep.
  destruct (Nesa2csv.process_line line cutoff w) as [w' r]. simpl in Hstep.
  destruct r; [now apply IH|exact Hstep..].
Qed.

Lemma Nesa2csv_processFile_data `{TimePkg} (fs : FS) (filePath : string) (w : World)
    (writeHeader : bool) (cutoff : Time) :
  Forall data_row (csv w) ->
  Forall data_row (csv (Nesa2csv.processFile fs filePath w writeHeader cutoff).1).
Proof.
  intros Hw. unfold Nesa2csv.processFile.
  destruct (fs filePath) as [file|]; [|exact Hw].
  pose proof (Nesa2csv_scan_data (lines file) cutoff w Hw) as Hs.
  destruct (Nesa2csv.scan (lines file) cutoff w) as [w' r]. simpl in Hs.
  destruct r; [destruct (scanErr file)|..]; exact Hs.
Qed.

Lemma Nesa2csv_walk_data `{TimePkg} (fs : FS) (entries : list Entry) (cutoff : Time)
    (writeHeader : bool) (w : World) :
  Forall data_row (csv w) ->
  Forall data_row (csv (Nesa2csv.walk fs entries cutoff writeHeader w).1.1).
Proof.
  revert writeHeader w.
  induction entries as [|e entries IH]; intros writeHeader w Hw; simpl; [exact Hw|].
  destruct (walkErr e); [exact Hw|].
  destruct (negb (isDir e) && HasSuffix (name e) ".txt"); [|now apply IH].
  pose proof (Nesa2csv_processFile_data fs (path e)
                (Printf (ProcessingFile (path e)) w) writeHeader cutoff Hw) as Hf.
  destruct (Nesa2csv.processFile fs (path e) (Printf (ProcessingFile (path e)) w)
              writeHeader cutoff) as [w' r].
  simpl in Hf.
  destruct r as [[]|err| |]; simpl; try exact Hf; now apply IH.
Qed.

Lemma data_row_not_header (row : list string) :
  data_row row -> row <> Nesa2csv_header /\ row <> Part000.header.
Proof.
  intros (timestamp & E & Hdash).
  split; intros ->; injection E as <-; discriminate Hdash.
Qed.

(** C1: the filtering converter never writes the header.  [processFile]
    does the same whatever [writeHeader] is; no row of any run is the
    header row; the run over the one file [a.txt] writes the data row as
    the first and only row, where the converter without filtering writes
    the header before that row. *)
Theorem filtering_run_writes_no_header :
  (forall (T : TimePkg) (fs : FS) (filePath : string) (w : World)
     (writeHeader : bool) (cutoff : Time),
     Nesa2csv.processFile fs filePath w writeHeader cutoff =
     Nesa2csv.processFile fs filePath w false cutoff) /\
  (forall (T : TimePkg) (fs : FS) (entries : list Entry) (cutoff : Time),
     Forall (fun row => row <> Nesa2csv_header)
       (csv (Nesa2csv.run fs entries cutoff).1.1)) /\
  Nesa2csv.run one_file one_entry (0, 0)%Z =
    (mkWorld
       [["12"; "2023-06-15T09:05:00"; "21.5"; ""; ""; ""; ""; ""; ""; ""; ""; ""; ""]]
       [ProcessingFile "a.txt"]
       ["S,0012,9,5,0,15,6,2023,1,2,21.5"],
     false, WalkDone) /\
  Part000.run one_file one_entry =
    (mkWorld
       [["station_id"; "timestamp"; "Temperature_Avg"; "Humidity_Avg";
         "Windspeed_Avg"; "Wind Direction_Avg"; "Pressure_Avg"];
        ["12"; "2023-06-15T09:05:00"; "21.5"; ""; ""; ""; ""]]
       [ProcessingFile "a.txt"]
       ["S,0012,9,5,0,15,6,2023,1,2,21.5"],
     false, WalkDone).
Proof.
  split; [|split; [|split]].
  - reflexivity.
  - intros T fs entries cutoff.
    eapply Forall_impl; [apply Nesa2csv_walk_data; constructor|].
    intros row Hrow. now apply data_row_not_header.
  - vm_compute. reflexivity.
  - vm_compute. reflexivity.
Qed.

(** Without filtering, a file that opens and then fails with a read error
    leaves [writeHeader] set: the next file writes the header again. *)
Example Part000_header_twice :
  csv (Part000.run two_files two_entries).1.1 =
    [Part000.header;
     ["12"; "2023-06-15T09:05:00"; "21.5"; ""; ""; ""; ""];
     Part000.header;
     ["7"; "2023-06-15T09:05:00"; ""; "50"; ""; ""; ""]].
Proof. vm_compute. reflexivity. Qed.

(** *** The header in the converter without filtering *)

(** The timestamp of a parsed record is never the header's ["timestamp"],
    so a data row is never the header row. *)
Lemma Part000_parseRow_timestamp (line : string) (record : Record) :
  Part000.parseRow line = Ok record -> has_char "-" (Timestamp record) = true.
Proof.
  intros Hrow. unfold Part000.parseRow in Hrow.
  destruct (length (Split line) <? 7)%nat; [discriminate Hrow|].
  repeat match type of Hrow with
  | (index ?l ?i ≫= _) = _ =>
      destruct (index l i); try discriminate Hrow; rewrite bind_Ok in Hrow
  end.
  destruct (Part000.loop _ _ _ _) as [values| | |]; try discriminate Hrow.
  rewrite bind_Ok in Hrow. injection Hrow as <-.
  apply Sprintf_timestamp_has_dash.
Qed.

Lemma Part000_parseRow_row (line : string) (record : Record) :
  Part000.parseRow line = Ok record -> Part000.row_of record <> Part000.header.
Proof.
  intros Hrow Heq. apply Part000_parseRow_timestamp in Hrow.
  unfold Part000.row_of, Part000.header in Heq. cbn [app] in Heq.
  injection Heq as _ Hts _. rewrite Hts in Hrow. discriminate Hrow.
Qed.

Lemma data_rows_added_same (w w' : World) : csv w' = csv w -> data_rows_added w w'.
Proof. intros E. exists []. split; [now rewrite app_nil_r|constructor]. Qed.

Lemma data_rows_added_refl (w : World) : data_rows_added w w.
Proof. exists []. split; [now rewrite app_nil_r|constructor]. Qed.

Lemma data_rows_added_trans (w1 w2 w3 : World) :
  data_rows_added w1 w2 -> data_rows_added w2 w3 -> data_rows_added w1 w3.
Proof.
  intros (r1 & E1 & F1) (r2 & E2 & F2). exists (r1 ++ r2). split.
  - now rewrite E2, E1, app_assoc.
  - now apply Forall_app.
Qed.

Lemma Part000_process_line_rows (line : string) (w : World) :
  data_rows_added w (Part000.process_line line w).1.
Proof.
  unfold Part000.process_line.
  destruct (HasPrefix line "S,"); simpl; [|apply data_rows_added_refl].
  destruct (Part000.parseRow line) as [record| | |] eqn:E; simpl;
    try (now apply data_rows_added_same).
  exists [Part000.row_of record]. split; [reflexivity|].
  repeat constructor. now apply (Part000_parseRow_row line).
Qed.

Lemma Part000_scan_rows (ls : list string) (w : World) :
  data_rows_added w (Part000.scan ls w).1.
Proof.
  revert w. induction ls as [|line ls IH]; intros w; simpl;
    [apply data_rows_added_refl|].
  pose proof (Part000_process_line_rows line w) as Hstep.
  destruct (Part000.process_line line w) as [w' r]. simpl in Hstep.
  destruct r; [|exact Hstep ..].
  exact (data_rows_added_trans _ _ _ Hstep (IH w')).
Qed.

Lemma Part000_processFile_rows (fs : FS) (filePath : string) (w : World) :
  data_rows_added w (Part000.processFile fs filePath w false).1.
Proof.
  unfold Part000.processFile.
  destruct (fs filePath) as [file|]; [|apply data_rows_added_refl].
  pose proof (Part000_scan_rows (lines file) w) as Hs.
  destruct (Part000.scan (lines file) w) as [w' r]. simpl in Hs.
  destruct r; [destruct (scanErr file)|..]; exact Hs.
Qed.

(** Once [writeHeader] is cleared the walk adds data rows only. *)
Lemma Part000_walk_rows (fs : FS) (entries : list Entry) (w : World) :
  data_rows_added w (Part000.walk fs entries false w).1.1.
Proof.
  revert w. induction entries as [|e entries IH]; intros w; simpl;
    [apply data_rows_added_refl|].
  destruct (walkErr e); [apply data_rows_added_refl|].
  destruct (negb (isDir e) && HasSuffix (name e) ".txt"); [|apply IH].
  pose proof (Part000_processFile_rows fs (path e) (Printf (ProcessingFile (path e)) w))
    as Hf.
  destruct (Part000.processFile fs (path e) (Printf (ProcessingFile (path e)) w) false)
    as [w' r].
  simpl in Hf.
  destruct r as [[]|err| |]; simpl; try exact Hf.
  - exact (data_rows_added_trans _ _ _ Hf (IH w')).
  - refine (data_rows_added_trans _ _ _ Hf _).
    exact (IH (Printf (ErrorProcessingFile (path e) err) w')).
Qed.

(** The scan loop itself returns no error: a line that fails to parse is
    logged and skipped. *)
Lemma Part000_scan_no_error (ls : list string) (w : World) (err : error) :
  (Part000.scan ls w).2 <> Err err.
Proof.
  revert w. induction ls as [|line ls IH]; intros w; simpl; [discriminate|].
  destruct (Part000.process_line line w) as [w' r] eqn:Estep.
  destruct r as [[]|err'| |]; simpl; try discriminate; [apply IH|].
  unfold Part000.process_line in Estep.
  destruct (HasPrefix line "S,"); simpl in Estep; [|discriminate Estep].
  destruct (Part000.parseRow line); discriminate Estep.
Qed.

Lemma Part000_processFile_open (fs : FS) (filePath : string) (w : World) (file : File) :
  fs filePath = Some file ->
  data_rows_added (Write Part000.header w) (Part000.processFile fs filePath w true).1 /\
  (scanErr file = false ->
   forall err, (Part000.processFile fs filePath w true).2 <> Err err).
Proof.
  intros Hopen. unfold Part000.processFile. rewrite Hopen.
  pose proof (Part000_scan_rows (lines file) (Write Part000.header w)) as Hs.
  pose proof (Part000_scan_no_error (lines file) (Write Part000.header w)) as Hne.
  destruct (Part000.scan (lines file) (Write Part000.header w)) as [w' r].
  simpl in Hs, Hne.
  destruct r as [[]|err| |]; simpl.
  - destruct (scanErr file); simpl; (split; [exact Hs|]).
    + discriminate.
    + intros _ err. discriminate.
  - now contradiction (Hne err).
  - split; [exact Hs|]. intros _ err. discriminate.
  - split; [exact Hs|]. intros _ err. discriminate.
Qed.

(** The walk only appends rows. *)
Lemma Part000_walk_appends (fs : FS) (entries : list Entry) (writeHeader : bool)
    (w : World) :
  exists rows, csv (Part000.walk fs entries writeHeader w).1.1 = csv w ++ rows.
Proof.
  destruct writeHeader.
  2:{ destruct (Part000_walk_rows fs entries w) as (rows & E & _). eauto. }
  revert w. induction entries as [|e entries IH]; intros w; simpl.
  { exists []. now rewrite app_nil_r. }
  destruct (walkErr e); [exists []; now rewrite app_nil_r|].
  destruct (negb (isDir e) && HasSuffix (name e) ".txt"); [|apply IH].
  set (w1 := Printf (ProcessingFile (path e)) w).
  destruct (fs (path e)) as [file|] eqn:Hopen.
  - destruct (Part000_processFile_open fs (path e) w1 file Hopen) as [(rows & E & _) _].
    destruct (Part000.processFile fs (path e) w1 true) as [w' r]. simpl in E.
    destruct r as [[]|err| |]; simpl.
    + destruct (Part000_walk_rows fs entries w') as (rows' & E' & _).
      exists (Part000.header :: rows ++ rows'). rewrite E', E. simpl.
      now rewrite <- !app_assoc.
    + destruct (IH (Printf (ErrorProcessingFile (path e) err) w')) as (rows' & E').
      exists (Part000.header :: rows ++ rows'). rewrite E'. simpl. rewrite E. simpl.
      now rewrite <- !app_assoc.
    + exists (Part000.header :: rows). rewrite E. simpl. now rewrite <- app_assoc.
    + exists (Part000.header :: rows). rewrite E. simpl. now rewrite <- app_assoc.
  - unfold Part000.processFile. rewrite Hopen.
    apply (IH (Printf (ErrorProcessingFile (path e) (CannotOpen (path e))) w1)).
Qed.

(** In the converter without filtering the header is the first row
    written, if any row is written; and when no file that opens ends in
    a read error, it is the only header: every row after it is a data
    row. *)
Lemma Part000_walk_header (fs : FS) (entries : list Entry) (w : World) :
  csv w = [] ->
  (csv (Part000.walk fs entries true w).1.1 = [] \/
   exists rows, csv (Part000.walk fs entries true w).1.1 = Part000.header :: rows) /\
  ((forall e file, In e entries -> fs (path e) = Some file -> scanErr file = false) ->
   csv (Part000.walk fs entries true w).1.1 = [] \/
   exists rows,
     csv (Part000.walk fs entries true w).1.1 = Part000.header :: rows /\
     Forall (fun row => row <> Part000.header) rows).
Proof.
  revert w. induction entries as [|e entries IH]; intros w Hw; simpl.
  { split; [|intros _]; now left. }
  destruct (walkErr e); [split; [|intros _]; now left|].
  destruct (negb (isDir e) && HasSuffix (name e) ".txt").
  2:{ destruct (IH w Hw) as [H1 H2]. split; [exact H1|].
      intros Hok. apply H2. intros e' file Hin. apply Hok. now right. }
  set (w1 := Printf (ProcessingFile (path e)) w).
  destruct (fs (path e)) as [file|] eqn:Hopen.
  - destruct (Part000_processFile_open fs (path e) w1 file Hopen)
      as [(rows & E & Hrows) Hnoerr].
    destruct (Part000.processFile fs (path e) w1 true) as [w' r].
    simpl in E, Hnoerr. rewrite Hw in E. simpl in E.
    destruct r as [[]|err| |]; simpl.
    + destruct (Part000_walk_rows fs entries w') as (rows' & E' & Hrows').
      rewrite E', E. split; [right; eauto|]. intros _. right.
      exists (rows ++ rows'). split; [reflexivity|]. now apply Forall_app.
    + split.
      * destruct (Part000_walk_appends fs entries true
                    (Printf (ErrorProcessingFile (path e) err) w')) as (rows' & E').
        rewrite E'. simpl. rewrite E. right. eauto.
      * intros Hok. exfalso. apply (Hnoerr (Hok e file (or_introl eq_refl) Hopen) err).
        reflexivity.
    + rewrite E. split; [right; eauto|]. intros _. right. eauto.
    + rewrite E. split; [right; eauto|]. intros _. right. eauto.
  - unfold Part000.processFile. rewrite Hopen.
    destruct (IH (Printf (ErrorProcessingFile (path e) (CannotOpen (path e))) w1) Hw)
      as [H1 H2].
    split; [exact H1|].
    intros Hok. apply H2. intros e' file Hin. apply Hok. now right.
Qed.

(** For a whole run of the converter without filtering: the header is the
    first row of the CSV, unless the CSV is empty; and when no file that
    opens ends in a read error, every row after it is a data row. *)
Lemma Part000_run_header (fs : FS) (entries : list Entry) :
  (csv (Part000.run fs entries).1.1 = [] \/
   exists rows, csv (Part000.run fs entries).1.1 = Part000.header :: rows) /\
  ((forall e file, In e entries -> fs (path e) = Some file -> scanErr file = false) ->
   csv (Part000.run fs entries).1.1 = [] \/
   exists rows,
     csv (Part000.run fs entries).1.1 = Part000.header :: rows /\
     Forall (fun row => row <> Part000.header) rows).
Proof. apply Part000_walk_header. reflexivity. Qed.

(** ** The loop bound of the model is never reached *)

Lemma Part000_parseRow_fuel (line : string) : Part000.parseRow line <> OutOfFuel.
Proof.
  destruct (Nat.lt_ge_cases (length (Split line)) 7) as [Hlt|Hge].
  - now rewrite Part000_parseRow_short.
  - destruct (Nat.eq_dec (length (Split line)) 7) as [E|Hne].
    + now rewrite Part000_parseRow_seven.
    + destruct (Part000_parseRow_eight line) as [record ->]; [lia|discriminate].
Qed.

Lemma Nesa2csv_parseRow_fuel `{TimePkg} (line : string) (cutoff : Time) :
  Nesa2csv.parseRow line cutoff <> OutOfFuel.
Proof.
  destruct (Nat.lt_ge_cases (length (Split line)) 7) as [Hlt|Hge].
  - now rewrite Nesa2csv_parseRow_short.
  - destruct (Nat.eq_dec (length (Split line)) 7) as [E|Hne].
    + now rewrite Nesa2csv_parseRow_seven.
    + destruct (Nesa2csv_parseRow_eight line cutoff) as [[record ->]|[ts ->]];
        [lia|discriminate..].
Qed.

Lemma Part000_scan_fuel (ls : list string) (w : World) :
  (Part000.scan ls w).2 <> OutOfFuel.
Proof.
  revert w. induction ls as [|line ls IH]; intros w; simpl; [discriminate|].
  destruct (Part000.process_line line w) as [w' r] eqn:Estep.
  destruct r as [[]|err| |]; simpl; try discriminate; [apply IH|].
  unfold Part000.process_line in Estep.
  destruct (HasPrefix line "S,"); simpl in Estep; [|discriminate Estep].
  pose proof (Part000_parseRow_fuel line) as Hfuel.
  destruct (Part000.parseRow line); try discriminate Estep. now contradiction Hfuel.
Qed.

Lemma Nesa2csv_scan_fuel `{TimePkg} (ls : list string) (cutoff : Time) (w : World) :
  (Nesa2csv.scan ls cutoff w).2 <> OutOfFuel.
Proof.
  revert w. induction ls as [|line ls IH]; intros w; simpl; [discriminate|].
  destruct (Nesa2csv.process_line line cutoff w) as [w' r] eqn:Estep.
  destruct r as [[]|err| |]; simpl; try discriminate; [apply IH|].
  unfold Nesa2csv.process_line in Estep.
  destruct (HasPrefix line "S,"); simpl in Estep; [|discriminate Estep].
  pose proof (Nesa2csv_parseRow_fuel line cutoff) as Hfuel.
  destruct (Nesa2csv.parseRow line cutoff) as [record| | |]; try discriminate Estep.
  - destruct (String.eqb (Timestamp record) ""); discriminate Estep.
  - now contradiction Hfuel.
Qed.

(** * Further properties of the converters *)

(** ** Splitting and joining *)

Lemma Join_cons_char (c : ascii) (f : string) (fs : list string) :
  Join (String c f :: fs) = String c (Join (f :: fs)).
Proof. destruct fs; reflexivity. Qed.

Lemma Split_no_comma (f : string) : has_char comma f = false -> Split f = [f].
Proof.
  induction f as [|c f IH]; [reflexivity|]. cbn [has_char].
  intros [Hc Hf]%orb_false_iff. simpl. rewrite Hc, (IH Hf). reflexivity.
Qed.

Lemma Split_append_comma (f rest : string) :
  has_char comma f = false ->
  Split (f +:+ String comma rest) = f :: Split rest.
Proof.
  induction f as [|c f IH]; [reflexivity|]. cbn [has_char].
  intros [Hc Hf]%orb_false_iff.
  change (String c f +:+ String comma rest) with (String c (f +:+ String comma rest)).
  cbn [Split]. rewrite Hc, (IH Hf). reflexivity.
Qed.

(** [strings.Split] loses nothing: joining the fields with commas gives
    the line back; no field holds a comma; there is one field more than
    there are commas, so at least one; and a non-empty list of comma-free
    fields is what splitting its join returns. *)
Theorem Split_Join_round_trip :
  (forall line : string,
     Join (Split line) = line /\
     Forall (fun f => has_char comma f = false) (Split line) /\
     length (Split line) = S (count_char comma line)) /\
  (forall fields : list string,
     fields <> [] ->
     Forall (fun f => has_char comma f = false) fields ->
     Split (Join fields) = fields).
Proof.
  split.
  - intros line. induction line as [|c line (IHj & IHc & IHl)].
    + repeat split. repeat constructor.
    + cbn [Split count_char]. destruct (Ascii.eqb_spec c comma) as [->|Hne].
      * destruct (Split line) as [|f fs] eqn:E; [now apply Split_nonempty in E|].
        split; [|split].
        -- change (Join ("" :: f :: fs)) with (String comma (Join (f :: fs))).
           now rewrite IHj.
        -- constructor; [reflexivity|exact IHc].
        -- simpl in *. lia.
      * destruct (Split line) as [|f fs] eqn:E; [now apply Split_nonempty in E|].
        split; [|split].
        -- now rewrite Join_cons_char, IHj.
        -- inversion IHc as [|? ? Hf Hfs]; subst. constructor; [|exact Hfs].
           cbn [has_char]. rewrite Hf.
           now destruct (Ascii.eqb_spec c comma).
        -- simpl in *. lia.
  - intros fields. induction fields as [|f fs IH]; [contradiction|].
    intros _ Hall. inversion Hall as [|? ? Hf Hfs]; subst.
    destruct fs as [|g fs].
    + now apply Split_no_comma.
    + change (Join (f :: g :: fs)) with (f +:+ String comma (Join (g :: fs))).
      rewrite (Split_append_comma _ _ Hf). f_equal.
      apply IH; [discriminate|exact Hfs].
Qed.

Lemma Split_Join_round_trip_witness :
  Split (Join ["S"; "0012"; ""; "9"]) = ["S"; "0012"; ""; "9"].
Proof.
  apply (proj2 Split_Join_round_trip ["S"; "0012"; ""; "9"]).
  - discriminate.
  - repeat constructor.
Defined.

(** ** Leading zeros of the station ID *)

Lemma TrimLeft0_no_leading_zero (s : string) :
  starts_with zero (TrimLeft0 s) = false.
Proof.
  induction s as [|c s IH]; [reflexivity|].
  cbn [TrimLeft0]. destruct (Ascii.eqb_spec c zero) as [->|Hne]; [exact IH|].
  cbn [starts_with]. now destruct (Ascii.eqb_spec c zero).
Qed.

(** [strings.TrimLeft(s, "0")] cuts off a run of zeros and nothing else:
    the input is that run followed by the result; the result does not
    begin with a zero; and it is empty exactly when the input consists of
    zeros only (the empty input included). *)
Theorem TrimLeft0_cuts_zeros (s : string) :
  (exists n : nat, s = zeros n +:+ TrimLeft0 s) /\
  starts_with zero (TrimLeft0 s) = false /\
  (TrimLeft0 s = "" <-> all_char zero s = true) /\
  TrimLeft0 (TrimLeft0 s) = TrimLeft0 s.
Proof.
  induction s as [|c s [[n En] [IHs [IHe IHi]]]].
  - repeat split; try reflexivity. now exists 0%nat.
  - cbn [TrimLeft0 all_char]. destruct (Ascii.eqb_spec c zero) as [->|Hne].
    + split; [|split; [exact IHs|split; [exact IHe|exact IHi]]].
      exists (S n). cbn [zeros].
      change (String zero (zeros n) +:+ TrimLeft0 s)
        with (String zero (zeros n +:+ TrimLeft0 s)).
      now rewrite <- En.
    + split; [now exists 0%nat|]. split; [|split].
      * cbn [starts_with]. now destruct (Ascii.eqb_spec c zero).
      * split; discriminate.
      * cbn [TrimLeft0]. now destruct (Ascii.eqb_spec c zero).
Qed.

Lemma Part000_parseRow_stationID (line : string) (record : Record) :
  Part000.parseRow line = Ok record -> starts_with zero (StationID record) = false.
Proof.
  intros Hrow. unfold Part000.parseRow in Hrow.
  destruct (length (Split line) <? 7)%nat; [discriminate Hrow|].
  repeat match type of Hrow with
  | (index ?l ?i ≫= _) = _ =>
      destruct (index l i); try discriminate Hrow; rewrite bind_Ok in Hrow
  end.
  destruct (Part000.loop _ _ _ _) as [values| | |]; try discriminate Hrow.
  rewrite bind_Ok in Hrow. injection Hrow as <-.
  apply TrimLeft0_no_leading_zero.
Qed.

Lemma Nesa2csv_parseRow_stationID `{TimePkg} (line : string) (cutoff : Time)
    (record : Record) :
  Nesa2csv.parseRow line cutoff = Ok record ->
  starts_with zero (StationID record) = false.
Proof.
  intros Hrow. unfold Nesa2csv.parseRow in Hrow.
  destruct (length (Split line) <? 7)%nat; [discriminate Hrow|].
  repeat match type of Hrow with
  | (index ?l ?i ≫= _) = _ =>
      destruct (index l i); try discriminate Hrow; rewrite bind_Ok in Hrow
  end.
  destruct (time_Parse _ _) as [recordTime|]; [|discriminate Hrow].
  destruct (Before recordTime cutoff).
  - now injection Hrow as <-.
  - destruct (Nesa2csv.loop _ _ _ _) as [values| | |]; try discriminate Hrow.
    rewrite bind_Ok in Hrow. injection Hrow as <-.
    apply TrimLeft0_no_leading_zero.
Qed.

(** The station ID of a record [parseRow] returns never begins with a
    zero, in the filtering converter and in the one without filtering. *)
Theorem stationID_has_no_leading_zero :
  (forall (line : string) (record : Record),
     Part000.parseRow line = Ok record ->
     starts_with zero (StationID record) = false) /\
  (forall (T : TimePkg) (line : string) (cutoff : Time) (record : Record),
     Nesa2csv.parseRow line cutoff = Ok record ->
     starts_with zero (StationID record) = false).
Proof.
  split.
  - intros line record. apply Part000_parseRow_stationID.
  - intros T line cutoff record. apply Nesa2csv_parseRow_stationID.
Qed.

Lemma stationID_has_no_leading_zero_witness :
  starts_with zero
    (StationID (mkRecord "12" "2023-06-15T09:05:00" {[ "Temperature_Avg" := "21.5" ]})) =
  false.
Proof.
  apply (proj1 stationID_has_no_leading_zero "S,0012,9,5,0,15,6,2023,1,2,21.5,...").
  vm_compute. reflexivity.
Defined.

(** ** What holds of every row of a run *)

(** A property of the header and of the row of every parsed record holds
    of every row a walk of the converter without filtering writes. *)
Lemma Part000_walk_invariant (P : list string -> Prop) :
  P Part000.header ->
  (forall (line : string) (record : Record),
     prefixed line -> Part000.parseRow line = Ok record ->
     P (Part000.row_of record)) ->
  forall (fs : FS) (entries : list Entry) (writeHeader : bool) (w : World),
    Forall P (csv w) ->
    Forall P (csv (Part000.walk fs entries writeHeader w).1.1).
Proof.
  intros Hheader Hrow fs.
  assert (Hline : forall line w, Forall P (csv w) ->
            Forall P (csv (Part000.process_line line w).1)).
  { intros line w Hw. unfold Part000.process_line.
    destruct (HasPrefix line "S,") eqn:Ep; simpl; [|exact Hw].
    destruct (Part000.parseRow line) as [record| | |] eqn:E; simpl; try exact Hw.
    apply Forall_app. split; [exact Hw|]. repeat constructor. now apply (Hrow line). }
  assert (Hscan : forall ls w, Forall P (csv w) ->
            Forall P (csv (Part000.scan ls w).1)).
  { induction ls as [|line ls IH]; intros w Hw; simpl; [exact Hw|].
    pose proof (Hline line w Hw) as Hstep.
    destruct (Part000.process_line line w) as [w' r]. simpl in Hstep.
    destruct r; [now apply IH|exact Hstep..]. }
  assert (Hfile : forall filePath w writeHeader, Forall P (csv w) ->
            Forall P (csv (Part000.processFile fs filePath w writeHeader).1)).
  { intros filePath w writeHeader Hw. unfold Part000.processFile.
    destruct (fs filePath) as [file|]; [|exact Hw].
    set (w0 := if writeHeader then Write Part000.header w else w).
    assert (Hw0 : Forall P (csv w0)).
    { subst w0. destruct writeHeader; [|exact Hw]. simpl.
      apply Forall_app. split; [exact Hw|]. now repeat constructor. }
    pose proof (Hscan (lines file) w0 Hw0) as Hs.
    destruct (Part000.scan (lines file) w0) as [w' r]. simpl in Hs.
    destruct r; [destruct (scanErr file)|..]; exact Hs. }
  induction entries as [|e entries IH]; intros writeHeader w Hw; simpl; [exact Hw|].
  destruct (walkErr e); [exact Hw|].
  destruct (negb (isDir e) && HasSuffix (name e) ".txt"); [|now apply IH].
  pose proof (Hfile (path e) (Printf (ProcessingFile (path e)) w) writeHeader Hw) as Hf.
  destruct (Part000.processFile fs (path e) (Printf (ProcessingFile (path e)) w)
              writeHeader) as [w' r].
  simpl in Hf.
  destruct r as [[]|err| |]; simpl; try exact Hf; now apply IH.
Qed.

(** A property of the row of every record that is parsed and not dropped
    as too old holds of every row a walk of the filtering converter
    writes. *)
Lemma Nesa2csv_walk_invariant `{TimePkg} (cutoff : Time) (P : list string -> Prop) :
  (forall (line : string) (record : Record),
     prefixed line -> Nesa2csv.parseRow line cutoff = Ok record ->
     Timestamp record <> "" ->
     P (Nesa2csv.row_of record)) ->
  forall (fs : FS) (entries : list Entry) (writeHeader : bool) (w : World),
    Forall P (csv w) ->
    Forall P (csv (Nesa2csv.walk fs entries cutoff writeHeader w).1.1).
Proof.
  intros Hrow fs.
  assert (Hline : forall line w, Forall P (csv w) ->
            Forall P (csv (Nesa2csv.process_line line cutoff w).1)).
  { intros line w Hw. unfold Nesa2csv.process_line.
    destruct (HasPrefix line "S,") eqn:Ep; simpl; [|exact Hw].
    destruct (Nesa2csv.parseRow line cutoff) as [record| | |] eqn:E; simpl;
      try exact Hw.
    destruct (String.eqb_spec (Timestamp record) "") as [|Hne]; simpl; [exact Hw|].
    apply Forall_app. split; [exact Hw|]. repeat constructor. now apply (Hrow line). }
  assert (Hscan : forall ls w, Forall P (csv w) ->
            Forall P (csv (Nesa2csv.scan ls cutoff w).1)).
  { induction ls as [|line ls IH]; intros w Hw; simpl; [exact Hw|].
    pose proof (Hline line w Hw) as Hstep.
    destruct (Nesa2csv.process_line line cutoff w) as [w' r]. simpl in Hstep.
    destruct r; [now apply IH|exact Hstep..]. }
  assert (Hfile : forall filePath w writeHeader, Forall P (csv w) ->
            Forall P (csv (Nesa2csv.processFile fs filePath w writeHeader cutoff).1)).
  { intros filePath w writeHeader Hw. unfold Nesa2csv.processFile.
    destruct (fs filePath) as [file|]; [|exact Hw].
    pose proof (Hscan (lines file) w Hw) as Hs.
    destruct (Nesa2csv.scan (lines file) cutoff w) as [w' r]. simpl in Hs.
    destruct r; [destruct (scanErr file)|..]; exact Hs. }
  induction entries as [|e entries IH]; intros writeHeader w Hw; simpl; [exact Hw|].
  destruct (walkErr e); [exact Hw|].
  destruct (negb (isDir e) && HasSuffix (name e) ".txt"); [|now apply IH].
  pose proof (Hfile (path e) (Printf (ProcessingFile (path e)) w) writeHeader Hw) as Hf.
  destruct (Nesa2csv.processFile fs (path e) (Printf (ProcessingFile (path e)) w)
              writeHeader cutoff) as [w' r].
  simpl in Hf.
  destruct r as [[]|err| |]; simpl; try exact Hf; now apply IH.
Qed.

(** The CSV of a run is rectangular: every row the converter without
    filtering writes, the header included, has 7 fields, and every row
    the filtering converter writes has 13. *)
Theorem rows_are_rectangular :
  (forall (fs : FS) (entries : list Entry),
     Forall (fun row => length row = 7%nat) (csv (Part000.run fs entries).1.1)) /\
  (forall (T : TimePkg) (fs : FS) (entries : list Entry) (cutoff : Time),
     Forall (fun row => length row = 13%nat)
       (csv (Nesa2csv.run fs entries cutoff).1.1)).
Proof.
  split.
  - intros fs entries. apply Part000_walk_invariant; [reflexivity| |constructor].
    intros line record _ _. reflexivity.
  - intros T fs entries cutoff. apply Nesa2csv_walk_invariant; [|constructor].
    intros line record _ _ _. reflexivity.
Qed.

Lemma Nesa2csv_parseRow_recent `{TimePkg} (line : string) (cutoff : Time)
    (record : Record) :
  Nesa2csv.parseRow line cutoff = Ok record -> Timestamp record <> "" ->
  exists recordTime,
    time_Parse "2006-01-02T15:04:05" (Timestamp record) = Some recordTime /\
    Before recordTime cutoff = false.
Proof.
  intros Hrow Hts. unfold Nesa2csv.parseRow in Hrow.
  destruct (length (Split line) <? 7)%nat; [discriminate Hrow|].
  repeat match type of Hrow with
  | (index ?l ?i ≫= _) = _ =>
      destruct (index l i); try discriminate Hrow; rewrite bind_Ok in Hrow
  end.
  destruct (time_Parse _ _) as [recordTime|] eqn:Eparse; [|discriminate Hrow].
  destruct (Before recordTime cutoff) eqn:Eold.
  - injection Hrow as <-. now contradiction Hts.
  - destruct (Nesa2csv.loop _ _ _ _) as [values| | |]; try discriminate Hrow.
    rewrite bind_Ok in Hrow. injection Hrow as <-. simpl. eauto.
Qed.

(** Every row of a run of the filtering converter carries, as its second
    field, a timestamp that [time.Parse] accepts under the layout and
    that is not before the cutoff; its first field does not begin with a
    zero. *)
Theorem filtered_rows_are_recent (T : TimePkg) (fs : FS) (entries : list Entry)
    (cutoff : Time) :
  Forall
    (fun row =>
       exists (stationID timestamp : string) (recordTime : Time),
         row !! 0%nat = Some stationID /\
         row !! 1%nat = Some timestamp /\
         starts_with zero stationID = false /\
         time_Parse "2006-01-02T15:04:05" timestamp = Some recordTime /\
         Before recordTime cutoff = false)
    (csv (Nesa2csv.run fs entries cutoff).1.1).
Proof.
  apply Nesa2csv_walk_invariant; [|constructor].
  intros line record _ Hrow Hts.
  destruct (Nesa2csv_parseRow_recent line cutoff record Hrow Hts) as (t & Hp & Hb).
  exists (StationID record), (Timestamp record), t.
  repeat split; try assumption.
  exact (Nesa2csv_parseRow_stationID line cutoff record Hrow).
Qed.

(** ** Scanning a file *)

Lemma Part000_process_line_cases (line : string) (w : World) :
  (HasPrefix line "S," = false /\ Part000.process_line line w = (w, Ok tt)) \/
  (short_line line = true /\
   Part000.process_line line w =
     (Printf (SkippingLine (InvalidRow line)) (invoke line w), Ok tt)) \/
  (seven_fields line = true /\
   Part000.process_line line w = (invoke line w, Panic)) \/
  (data_line line = true /\
   exists record,
     Part000.parseRow line = Ok record /\
     Part000.process_line line w =
       (Write (Part000.row_of record) (invoke line w), Ok tt)).
Proof.
  unfold Part000.process_line, short_line, seven_fields, data_line.
  destruct (HasPrefix line "S,"); cbn [negb andb]; [|now left]. right.
  destruct (Nat.lt_ge_cases (length (Split line)) 7) as [Hlt|Hge].
  - left. rewrite (Part000_parseRow_short line Hlt).
    split; [now apply Nat.ltb_lt|reflexivity].
  - right. destruct (Nat.eq_dec (length (Split line)) 7) as [E|Hne].
    + left. rewrite (Part000_parseRow_seven line E).
      split; [now apply Nat.eqb_eq|reflexivity].
    + right. destruct (Part000_parseRow_eight line) as [record Hrow]; [lia|].
      rewrite Hrow. split; [apply Nat.leb_le; lia|eauto].
Qed.

Lemma line_kinds (line : string) :
  HasPrefix line "S," = true ->
  (short_line line = true /\ seven_fields line = false /\ data_line line = false) \/
  (short_line line = false /\ seven_fields line = true /\ data_line line = false) \/
  (short_line line = false /\ seven_fields line = false /\ data_line line = true).
Proof.
  intros Ep. unfold short_line, seven_fields, data_line. rewrite Ep. cbn [andb].
  destruct (Nat.ltb_spec (length (Split line)) 7);
    destruct (Nat.eqb_spec (length (Split line)) 7);
    destruct (Nat.leb_spec 8 (length (Split line)));
    first [ exfalso; lia
          | left; repeat split; reflexivity
          | right; left; repeat split; reflexivity
          | right; right; repeat split; reflexivity ].
Qed.

Lemma Part000_scan_app (l1 l2 : list string) (w : World) :
  Part000.scan (l1 ++ l2) w =
  match Part000.scan l1 w with
  | (w1, Ok _) => Part000.scan l2 w1
  | (w1, r) => (w1, r)
  end.
Proof.
  revert w. induction l1 as [|line l1 IH]; intros w; simpl; [reflexivity|].
  destruct (Part000.process_line line w) as [w' [[]| | |]]; auto.
Qed.

Lemma Nesa2csv_scan_app `{TimePkg} (l1 l2 : list string) (cutoff : Time) (w : World) :
  Nesa2csv.scan (l1 ++ l2) cutoff w =
  match Nesa2csv.scan l1 cutoff w with
  | (w1, Ok _) => Nesa2csv.scan l2 cutoff w1
  | (w1, r) => (w1, r)
  end.
Proof.
  revert w. induction l1 as [|line l1 IH]; intros w; simpl; [reflexivity|].
  destruct (Nesa2csv.process_line line cutoff w) as [w' [[]| | |]]; auto.
Qed.

Lemma Part000_scan_panics (ls : list string) (w : World) :
  (Part000.scan ls w).2 = if existsb seven_fields ls then Panic else Ok tt.
Proof.
  revert w. induction ls as [|line ls IH]; intros w; [reflexivity|].
  cbn [Part000.scan existsb].
  destruct (Part000_process_line_cases line w)
    as [[Ep ->]|[[Hk ->]|[[Hk ->]|[Hk (record & _ & ->)]]]].
  - unfold seven_fields. rewrite Ep. cbn [andb orb]. apply IH.
  - pose proof Hk as Hk'. unfold short_line in Hk'.
    apply andb_true_iff in Hk' as [Ep _].
    destruct (line_kinds line Ep) as [(_ & -> & _)|[(Hs & _)|(Hs & _)]];
      [cbn [orb]; apply IH|congruence|congruence].
  - rewrite Hk. reflexivity.
  - pose proof Hk as Hk'. unfold data_line in Hk'.
    apply andb_true_iff in Hk' as [Ep _].
    destruct (line_kinds line Ep) as [(_ & _ & Hd)|[(_ & _ & Hd)|(_ & -> & _)]];
      [congruence|congruence|cbn [orb]; apply IH].
Qed.

Lemma Nesa2csv_scan_panics `{TimePkg} (ls : list string) (cutoff : Time) (w : World) :
  (Nesa2csv.scan ls cutoff w).2 = if existsb seven_fields ls then Panic else Ok tt.
Proof.
  revert w. induction ls as [|line ls IH]; intros w; [reflexivity|].
  cbn [Nesa2csv.scan existsb]. unfold Nesa2csv.process_line, seven_fields.
  destruct (HasPrefix line "S,"); cbn [negb andb orb]; [|apply IH].
  destruct (Nat.lt_ge_cases (length (Split line)) 7) as [Hlt|Hge].
  - rewrite (Nesa2csv_parseRow_short line cutoff Hlt).
    destruct (Nat.eqb_spec (length (Split line)) 7); [exfalso; lia|]. apply IH.
  - destruct (Nat.eqb_spec (length (Split line)) 7) as [E|Hne].
    + rewrite (Nesa2csv_parseRow_seven line cutoff E). reflexivity.
    + destruct (Nesa2csv_parseRow_eight line cutoff) as [[record ->]|[ts ->]];
        [lia| |apply IH].
      destruct (String.eqb (Timestamp record) ""); apply IH.
Qed.

(** A line that begins with ["S,"] and has exactly seven fields ends the
    scan of its file in a panic, in both converters: the scan of a file
    returns a panic exactly when the file holds such a line and returns
    normally otherwise, and what follows the first such line has no
    effect at all. *)
Theorem seven_field_line_aborts_scan :
  (forall (ls : list string) (w : World),
     (Part000.scan ls w).2 = if existsb seven_fields ls then Panic else Ok tt) /\
  (forall (T : TimePkg) (ls : list string) (cutoff : Time) (w : World),
     (Nesa2csv.scan ls cutoff w).2 =
       if existsb seven_fields ls then Panic else Ok tt) /\
  (forall (l1 l2 : list string) (line : string) (w : World),
     seven_fields line = true ->
     Part000.scan (l1 ++ line :: l2) w = Part000.scan (l1 ++ [line]) w /\
     forall (T : TimePkg) (cutoff : Time),
       Nesa2csv.scan (l1 ++ line :: l2) cutoff w =
       Nesa2csv.scan (l1 ++ [line]) cutoff w).
Proof.
  split; [exact Part000_scan_panics|split; [intros T; apply Nesa2csv_scan_panics|]].
  intros l1 l2 line w Hk.
  pose proof Hk as Hk'. unfold seven_fields in Hk'.
  apply andb_true_iff in Hk' as [Ep Hlen]. apply Nat.eqb_eq in Hlen.
  split.
  - rewrite !Part000_scan_app.
    destruct (Part000.scan l1 w) as [w1 r]. destruct r as [[]|err| |];
      [|reflexivity..].
    cbn [Part000.scan]. unfold Part000.process_line. rewrite Ep. cbn [negb].
    rewrite (Part000_parseRow_seven line Hlen). reflexivity.
  - intros T cutoff. rewrite !Nesa2csv_scan_app.
    destruct (Nesa2csv.scan l1 cutoff w) as [w1 r]. destruct r as [[]|err| |];
      [|reflexivity..].
    cbn [Nesa2csv.scan]. unfold Nesa2csv.process_line. rewrite Ep. cbn [negb].
    rewrite (Nesa2csv_parseRow_seven line cutoff Hlen). reflexivity.
Qed.

Lemma seven_field_line_aborts_scan_witness :
  Part000.scan (["S,1,9,5,0,15,6,2023"] ++ "S,1,2,3,4,5,6" :: ["S,2,9,5,0,15,6,2023"])
    World_init =
  Part000.scan (["S,1,9,5,0,15,6,2023"] ++ ["S,1,2,3,4,5,6"]) World_init.
Proof.
  exact (proj1 (proj2 (proj2 seven_field_line_aborts_scan)
                  ["S,1,9,5,0,15,6,2023"] ["S,2,9,5,0,15,6,2023"] "S,1,2,3,4,5,6"
                  World_init eq_refl)).
Defined.

Lemma Part000_processFile_returns (fs : FS) (filePath : string) (w : World)
    (writeHeader : bool) :
  (Part000.processFile fs filePath w writeHeader).2 =
    match fs filePath with
    | None => Err (CannotOpen filePath)
    | Some file =>
        if existsb seven_fields (lines file) then Panic
        else if scanErr file then Err (ReadError filePath) else Ok tt
    end.
Proof.
  unfold Part000.processFile.
  destruct (fs filePath) as [file|]; [|reflexivity].
  pose proof (Part000_scan_panics (lines file)
                (if writeHeader then Write Part000.header w else w)) as Hs.
  destruct (Part000.scan (lines file) _) as [w' r]. cbn [snd] in Hs. subst r.
  destruct (existsb seven_fields (lines file)); [reflexivity|].
  destruct (scanErr file); reflexivity.
Qed.

Lemma Nesa2csv_processFile_returns `{TimePkg} (fs : FS) (filePath : string)
    (w : World) (writeHeader : bool) (cutoff : Time) :
  (Nesa2csv.processFile fs filePath w writeHeader cutoff).2 =
    match fs filePath with
    | None => Err (CannotOpen filePath)
    | Some file =>
        if existsb seven_fields (lines file) then Panic
        else if scanErr file then Err (ReadError filePath) else Ok tt
    end.
Proof.
  unfold Nesa2csv.processFile.
  destruct (fs filePath) as [file|]; [|reflexivity].
  pose proof (Nesa2csv_scan_panics (lines file) cutoff w) as Hs.
  destruct (Nesa2csv.scan (lines file) cutoff w) as [w' r]. cbn [snd] in Hs. subst r.
  destruct (existsb seven_fields (lines file)); [reflexivity|].
  destruct (scanErr file); reflexivity.
Qed.

(** What [processFile] returns is decided by the file alone: the open
    error when the file cannot be opened, a panic when it holds a line of
    exactly seven fields that begins with ["S,"], the read error when the
    scan ends in one, and nil otherwise.  A line that fails to parse
    never makes [processFile] return an error. *)
Theorem processFile_result :
  (forall (fs : FS) (filePath : string) (w : World) (writeHeader : bool),
     (Part000.processFile fs filePath w writeHeader).2 =
       match fs filePath with
       | None => Err (CannotOpen filePath)
       | Some file =>
           if existsb seven_fields (lines file) then Panic
           else if scanErr file then Err (ReadError filePath) else Ok tt
       end) /\
  (forall (T : TimePkg) (fs : FS) (filePath : string) (w : World)
     (writeHeader : bool) (cutoff : Time),
     (Nesa2csv.processFile fs filePath w writeHeader cutoff).2 =
       match fs filePath with
       | None => Err (CannotOpen filePath)
       | Some file =>
           if existsb seven_fields (lines file) then Panic
           else if scanErr file then Err (ReadError filePath) else Ok tt
       end).
Proof.
  split.
  - exact Part000_processFile_returns.
  - intros T. apply Nesa2csv_processFile_returns.
Qed.

Lemma Nesa2csv_process_line_cases `{TimePkg} (line : string) (cutoff : Time) (w : World) :
  (HasPrefix line "S," = false /\ Nesa2csv.process_line line cutoff w = (w, Ok tt)) \/
  (short_line line = true /\
   Nesa2csv.process_line line cutoff w =
     (Printf (SkippingLine (InvalidRow line)) (invoke line w), Ok tt)) \/
  (seven_fields line = true /\
   Nesa2csv.process_line line cutoff w = (invoke line w, Panic)) \/
  (data_line line = true /\
   ((exists timestampStr,
       Nesa2csv.process_line line cutoff w =
         (Printf (SkippingLine (InvalidTimestamp timestampStr)) (invoke line w), Ok tt)) \/
    Nesa2csv.process_line line cutoff w = (invoke line w, Ok tt) \/
    (exists record,
       Nesa2csv.parseRow line cutoff = Ok record /\
       Nesa2csv.process_line line cutoff w =
         (Write (Nesa2csv.row_of record) (invoke line w), Ok tt)))).
Proof.
  unfold Nesa2csv.process_line, short_line, seven_fields, data_line.
  destruct (HasPrefix line "S,"); cbn [negb andb]; [|now left]. right.
  destruct (Nat.lt_ge_cases (length (Split line)) 7) as [Hlt|Hge].
  - left. rewrite (Nesa2csv_parseRow_short line cutoff Hlt).
    split; [now apply Nat.ltb_lt|reflexivity].
  - right. destruct (Nat.eq_dec (length (Split line)) 7) as [E|Hne].
    + left. rewrite (Nesa2csv_parseRow_seven line cutoff E).
      split; [now apply Nat.eqb_eq|reflexivity].
    + right. split; [apply Nat.leb_le; lia|].
      destruct (Nesa2csv_parseRow_eight line cutoff) as [[record Hrow]|[ts Hrow]];
        [lia| |].
      * rewrite Hrow. destruct (String.eqb (Timestamp record) "").
        -- right. left. reflexivity.
        -- right. right. exists record. split; reflexivity.
      * rewrite Hrow. left. exists ts. reflexivity.
Qed.

(** In a file without a line of exactly seven fields, every line that
    begins with ["S,"] is accounted for.  Without filtering, each such
    line of eight or more fields gives exactly one row and each of fewer
    than seven exactly one "Skipping line" message, whatever its fields
    hold; with filtering the rows can only be fewer.  In both converters
    [parseRow] is invoked on exactly the lines with the prefix, in
    order. *)
Theorem every_line_is_accounted_for (ls : list string) (w : World) :
  existsb seven_fields ls = false ->
  (length (csv (Part000.scan ls w).1) =
     (length (csv w) + length (List.filter data_line ls))%nat /\
   length (stdout (Part000.scan ls w).1) =
     (length (stdout w) + length (List.filter short_line ls))%nat /\
   calls (Part000.scan ls w).1 =
     calls w ++ List.filter (fun line => HasPrefix line "S,") ls) /\
  (forall (T : TimePkg) (cutoff : Time),
     (length (csv (Nesa2csv.scan ls cutoff w).1) <=
        length (csv w) + length (List.filter data_line ls))%nat /\
     calls (Nesa2csv.scan ls cutoff w).1 =
       calls w ++ List.filter (fun line => HasPrefix line "S,") ls).
Proof.
  intros Hno. split.
  - revert w. induction ls as [|line ls IH]; intros w.
    { cbn. rewrite app_nil_r. repeat split; lia. }
    cbn [existsb] in Hno. apply orb_false_iff in Hno as [Hk Hno].
    specialize (IH Hno). cbn [Part000.scan List.filter].
    destruct (Part000_process_line_cases line w)
      as [[Ep ->]|[[Hs ->]|[[Hs ->]|[Hd (record & _ & ->)]]]].
    + unfold data_line, short_line. rewrite Ep. cbn [andb]. apply IH.
    + pose proof Hs as Hs'. apply andb_true_iff in Hs' as [Ep _].
      destruct (line_kinds line Ep) as [(_ & _ & Hd)|[(E & _)|(E & _)]];
        [|congruence|congruence].
      rewrite Hs, Hd, Ep. destruct (IH (Printf (SkippingLine (InvalidRow line))
                                          (invoke line w))) as (I1 & I2 & I3).
      rewrite I1, I2, I3. cbn [csv stdout calls Printf invoke length].
      rewrite !length_app, <- app_assoc. cbn [length app]. repeat split; lia.
    + congruence.
    + pose proof Hd as Hd'. apply andb_true_iff in Hd' as [Ep _].
      destruct (line_kinds line Ep) as [(_ & _ & E)|[(_ & _ & E)|(Hs & _ & _)]];
        [congruence|congruence|].
      rewrite Hs, Hd, Ep. destruct (IH (Write (Part000.row_of record)
                                          (invoke line w))) as (I1 & I2 & I3).
      rewrite I1, I2, I3. cbn [csv stdout calls Write invoke length].
      rewrite !length_app, <- app_assoc. cbn [length app]. repeat split; lia.
  - intros T cutoff. revert w. induction ls as [|line ls IH]; intros w.
    { cbn. rewrite app_nil_r. split; [lia|reflexivity]. }
    cbn [existsb] in Hno. apply orb_false_iff in Hno as [Hk Hno].
    specialize (IH Hno). cbn [Nesa2csv.scan List.filter].
    destruct (Nesa2csv_process_line_cases line cutoff w)
      as [[Ep ->]|[[Hs ->]|[[Hs ->]|[Hd [[ts ->]|[->|(record & _ & ->)]]]]]].
    + unfold data_line. rewrite Ep. cbn [andb]. apply IH.
    + pose proof Hs as Hs'. apply andb_true_iff in Hs' as [Ep _].
      destruct (line_kinds line Ep) as [(_ & _ & Hd)|[(E & _)|(E & _)]];
        [|congruence|congruence].
      rewrite Hd, Ep. destruct (IH (Printf (SkippingLine (InvalidRow line))
                                      (invoke line w))) as (I1 & I3).
      rewrite I3. cbn [csv calls Printf invoke] in *.
      rewrite <- app_assoc. split; [lia|reflexivity].
    + congruence.
    + pose proof Hd as Hd'. apply andb_true_iff in Hd' as [Ep _].
      rewrite Hd, Ep. destruct (IH (Printf (SkippingLine (InvalidTimestamp ts))
                                      (invoke line w))) as (I1 & I3).
      rewrite I3. cbn [csv calls Printf invoke length] in *.
      rewrite <- app_assoc. split; [lia|reflexivity].
    + pose proof Hd as Hd'. apply andb_true_iff in Hd' as [Ep _].
      rewrite Hd, Ep. destruct (IH (invoke line w)) as (I1 & I3).
      rewrite I3. cbn [csv calls invoke length] in *.
      rewrite <- app_assoc. split; [lia|reflexivity].
    + pose proof Hd as Hd'. apply andb_true_iff in Hd' as [Ep _].
      rewrite Hd, Ep. destruct (IH (Write (Nesa2csv.row_of record) (invoke line w)))
        as (I1 & I3).
      rewrite I3. cbn [csv calls Write invoke length] in *.
      rewrite length_app in I1. cbn [length] in I1.
      rewrite <- app_assoc. split; [lia|reflexivity].
Qed.

Lemma every_line_is_accounted_for_witness :
  length (csv (Part000.scan ["# log"; "S,1,2"; "S,12,9,5,0,15,6,2023,1,2,21.5"]
                 World_init).1) =
  (length (csv World_init) +
   length (List.filter data_line ["# log"; "S,1,2"; "S,12,9,5,0,15,6,2023,1,2,21.5"]))%nat.
Proof.
  exact (proj1 (proj1 (every_line_is_accounted_for
                         ["# log"; "S,1,2"; "S,12,9,5,0,15,6,2023,1,2,21.5"]
                         World_init eq_refl))).
Defined.

(** ** What the record holds *)

(** The value of a recognized group is in the record [parseRow] returns,
    under the name the two IDs resolve to, when no later group of the
    line resolves to the same name: the last group wins.  The filtering
    converter stores the value with [*] turned into the empty string,
    for a line it does not drop as too old. *)
Theorem last_group_wins :
  (forall (line : string) (record : Record) (j : nat)
     (measurementID processingID value : string),
     Part000.parseRow line = Ok record ->
     Split line !! (8 + 3 * j)%nat = Some measurementID ->
     Split line !! (8 + 3 * j + 1)%nat = Some processingID ->
     Split line !! (8 + 3 * j + 2)%nat = Some value ->
     Part000.measurementName_of measurementID processingID <> "" ->
     (forall (j' : nat) (mid' pid' : string),
        (j < j')%nat ->
        Split line !! (8 + 3 * j')%nat = Some mid' ->
        Split line !! (8 + 3 * j' + 1)%nat = Some pid' ->
        Part000.measurementName_of mid' pid' <>
        Part000.measurementName_of measurementID processingID) ->
     Values record !! Part000.measurementName_of measurementID processingID =
       Some value) /\
  (forall (T : TimePkg) (line : string) (cutoff : Time) (record : Record) (j : nat)
     (measurementID processingID value : string),
     Nesa2csv.parseRow line cutoff = Ok record ->
     Timestamp record <> "" ->
     Split line !! (8 + 3 * j)%nat = Some measurementID ->
     Split line !! (8 + 3 * j + 1)%nat = Some processingID ->
     Split line !! (8 + 3 * j + 2)%nat = Some value ->
     Nesa2csv.measurementName_of measurementID processingID <> "" ->
     (forall (j' : nat) (mid' pid' : string),
        (j < j')%nat ->
        Split line !! (8 + 3 * j')%nat = Some mid' ->
        Split line !! (8 + 3 * j' + 1)%nat = Some pid' ->
        Nesa2csv.measurementName_of mid' pid' <>
        Nesa2csv.measurementName_of measurementID processingID) ->
     Values record !! Nesa2csv.measurementName_of measurementID processingID =
       Some (star_to_empty value)).
Proof.
  split.
  - intros line record j mid pid value Hrow Emid Epid Eval Hne Hlast.
    exact (Part000_loop_store _ _ _ j mid pid value
             (Part000_parseRow_loop line record Hrow) Emid Epid Eval Hne Hlast).
  - intros T line cutoff record j mid pid value Hrow Hts Emid Epid Eval Hne Hlast.
    exact (Nesa2csv_loop_store _ _ _ j mid pid value
             (Nesa2csv_parseRow_loop line cutoff record Hrow Hts)
             Emid Epid Eval Hne Hlast).
Qed.

Lemma last_group_wins_witness :
  exists record,
    Part000.parseRow "S,12,9,5,0,15,6,2023,1,2,20.0,1,2,21.5" = Ok record /\
    Values record !! Part000.measurementName_of "1" "2" = Some "21.5".
Proof.
  destruct (Part000.parseRow "S,12,9,5,0,15,6,2023,1,2,20.0,1,2,21.5")
    as [record| | |] eqn:E; try (vm_compute in E; discriminate E).
  exists record. split; [reflexivity|].
  refine (proj1 last_group_wins "S,12,9,5,0,15,6,2023,1,2,20.0,1,2,21.5" record 1%nat
            "1" "2" "21.5" E eq_refl eq_refl eq_refl _ _).
  - intros H. vm_compute in H. discriminate H.
  - intros j' mid' pid' Hj E1 _.
    rewrite lookup_ge_None_2 in E1; [discriminate E1|].
    change (length (Split "S,12,9,5,0,15,6,2023,1,2,20.0,1,2,21.5")) with 14%nat. lia.
Defined.

(** ** Names that are stored and never written *)

Lemma map_get_insert_ne (values : gmap string string) (name value c : string) :
  name <> c -> map_get (<[name := value]> values) c = map_get values c.
Proof. intros Hne. unfold map_get. now rewrite lookup_insert_ne. Qed.

(** A row is read off the required columns only: an entry under any other
    name, such as the minima and maxima the tables also resolve, changes
    no row, in all three converters. *)
Theorem row_ignores_other_names (stationID timestamp name value : string)
    (values : gmap string string) :
  (name ∉ Part000.requiredMeasurements ->
   Part000.row_of (mkRecord stationID timestamp (<[name := value]> values)) =
   Part000.row_of (mkRecord stationID timestamp values)) /\
  (name ∉ Nesa2csv.requiredMeasurements ->
   Nesa2csv.row_of (mkRecord stationID timestamp (<[name := value]> values)) =
   Nesa2csv.row_of (mkRecord stationID timestamp values)) /\
  (name ∉ Legacy.requiredMeasurements ->
   Legacy.row_of (mkRecord stationID timestamp (<[name := value]> values)) =
   Legacy.row_of (mkRecord stationID timestamp values)).
Proof.
  assert (Hmap : forall required : list string,
            name ∉ required ->
            map (map_get (<[name := value]> values)) required =
            map (map_get values) required).
  { intros required Hnotin. apply map_ext_in. intros c Hc.
    apply map_get_insert_ne. intros ->. apply Hnotin. now apply list_elem_of_In. }
  split; [|split]; intros Hnotin.
  - unfold Part000.row_of. cbn [StationID Timestamp Values]. f_equal. now apply Hmap.
  - unfold Nesa2csv.row_of. cbn [StationID Timestamp Values]. f_equal. now apply Hmap.
  - unfold Legacy.row_of. cbn [StationID Timestamp Values]. f_equal. now apply Hmap.
Qed.

Lemma row_ignores_other_names_witness :
  Part000.row_of (mkRecord "12" "2023-06-15T09:05:00"
                    (<["Temperature_Min" := "3.5"]> ∅)) =
  Part000.row_of (mkRecord "12" "2023-06-15T09:05:00" ∅).
Proof.
  refine (proj1 (row_ignores_other_names "12" "2023-06-15T09:05:00"
                   "Temperature_Min" "3.5" ∅) _).
  intros Hin. apply list_elem_of_In in Hin. cbn in Hin.
  repeat (destruct Hin as [Hin|Hin]; [discriminate Hin|]). exact Hin.
Defined.

(** ** The measurement tables *)

Ltac find_ids :=
  first
    [ exists "1", "2"; vm_compute; reflexivity
    | exists "2", "2"; vm_compute; reflexivity
    | exists "9", "2"; vm_compute; reflexivity
    | exists "4", "2"; vm_compute; reflexivity
    | exists "13", "2"; vm_compute; reflexivity
    | exists "10", "7"; vm_compute; reflexivity
    | exists "9", "4"; vm_compute; reflexivity
    | exists "51", "2"; vm_compute; reflexivity
    | exists "101", "2"; vm_compute; reflexivity
    | exists "151", "2"; vm_compute; reflexivity
    | exists "201", "2"; vm_compute; reflexivity ].

(** In the tables of the filtering converter and of the one without
    filtering no two pairs of IDs resolve to the same name, and every
    required column is the name of some pair: each column can be filled,
    and only by its one pair. *)
Theorem tables_are_one_to_one :
  (forall (mid pid mid' pid' name : string) (pm pm' : gmap string string),
     Nesa2csv.measurementMap !! mid = Some pm -> pm !! pid = Some name ->
     Nesa2csv.measurementMap !! mid' = Some pm' -> pm' !! pid' = Some name ->
     mid = mid' /\ pid = pid') /\
  (forall (mid pid mid' pid' name : string) (pm pm' : gmap string string),
     Part000.measurementMap !! mid = Some pm -> pm !! pid = Some name ->
     Part000.measurementMap !! mid' = Some pm' -> pm' !! pid' = Some name ->
     mid = mid' /\ pid = pid') /\
  (forall column : string,
     column ∈ Nesa2csv.requiredMeasurements ->
     exists mid pid, Nesa2csv.measurementName_of mid pid = column) /\
  (forall column : string,
     column ∈ Part000.requiredMeasurements ->
     exists mid pid, Part000.measurementName_of mid pid = column).
Proof.
  split; [|split; [|split]].
  - assert (H : map_Forall (fun mid pm => map_Forall (fun pid name =>
                  map_Forall (fun mid' pm' => map_Forall (fun pid' name' : string =>
                    name = name' -> mid = mid' /\ pid = pid') pm')
                  Nesa2csv.measurementMap) pm) Nesa2csv.measurementMap)
      by compute_done.
    intros mid pid mid' pid' name pm pm' E1 E2 E3 E4.
    exact (H mid pm E1 pid name E2 mid' pm' E3 pid' name E4 eq_refl).
  - assert (H : map_Forall (fun mid pm => map_Forall (fun pid name =>
                  map_Forall (fun mid' pm' => map_Forall (fun pid' name' : string =>
                    name = name' -> mid = mid' /\ pid = pid') pm')
                  Part000.measurementMap) pm) Part000.measurementMap)
      by compute_done.
    intros mid pid mid' pid' name pm pm' E1 E2 E3 E4.
    exact (H mid pm E1 pid name E2 mid' pm' E3 pid' name E4 eq_refl).
  - intros column Hin. apply list_elem_of_In in Hin. cbn in Hin.
    repeat (destruct Hin as [<-|Hin]; [find_ids|]). contradiction.
  - intros column Hin. apply list_elem_of_In in Hin. cbn in Hin.
    repeat (destruct Hin as [<-|Hin]; [find_ids|]). contradiction.
Qed.

Lemma tables_are_one_to_one_witness :
  "9" = "9" /\ "4" = "4".
Proof.
  refine (proj1 tables_are_one_to_one "9" "4" "9" "4" "Windspeed_Max"
            (list_to_map [("2", "Windspeed_Avg"); ("3", "Windspeed_Min");
                          ("4", "Windspeed_Max")])
            (list_to_map [("2", "Windspeed_Avg"); ("3", "Windspeed_Min");
                          ("4", "Windspeed_Max")]) _ _ _ _); reflexivity.
Defined.

(** ** The header of the converter without filtering, continued *)

Lemma Part000_run_header_witness :
  csv (Part000.run one_file one_entry).1.1 = [] \/
  exists rows,
    csv (Part000.run one_file one_entry).1.1 = Part000.header :: rows /\
    Forall (fun row => row <> Part000.header) rows.
Proof.
  refine (proj2 (Part000_run_header one_file one_entry) _).
  intros e file [<-|[]] Hopen. cbn in Hopen. injection Hopen as <-. reflexivity.
Defined.

Lemma Part000_walk_txt (fs : FS) (e : Entry) (rest : list Entry)
    (writeHeader : bool) (w : World) :
  walkErr e = false -> isDir e = false -> HasSuffix (name e) ".txt" = true ->
  Part000.walk fs (e :: rest) writeHeader w =
  match Part000.processFile fs (path e) (Printf (ProcessingFile (path e)) w)
          writeHeader with
  | (w', Err err) =>
      Part000.walk fs rest writeHeader (Printf (ErrorProcessingFile (path e) err) w')
  | (w', Ok _) => Part000.walk fs rest false w'
  | (w', Panic) => (w', writeHeader, WalkPanic)
  | (w', OutOfFuel) => (w', writeHeader, WalkOutOfFuel)
  end.
Proof. intros Hw Hd Hs. cbn [Part000.walk]. rewrite Hw, Hd, Hs. reflexivity. Qed.

(** In the converter without filtering a read error keeps the header
    pending: when the first text file of the walk opens, holds no line of
    exactly seven fields and ends in a read error, and the next text file
    opens too, the header is written a second time, after the rows of
    the first file. *)
Theorem read_error_repeats_header (fs : FS) (e1 e2 : Entry) (rest : list Entry)
    (file1 file2 : File) :
  walkErr e1 = false -> isDir e1 = false -> HasSuffix (name e1) ".txt" = true ->
  walkErr e2 = false -> isDir e2 = false -> HasSuffix (name e2) ".txt" = true ->
  fs (path e1) = Some file1 -> fs (path e2) = Some file2 ->
  existsb seven_fields (lines file1) = false -> scanErr file1 = true ->
  exists rows1 rows2,
    csv (Part000.run fs (e1 :: e2 :: rest)).1.1 =
      Part000.header :: rows1 ++ Part000.header :: rows2 /\
    Forall (fun row => row <> Part000.header) rows1.
Proof.
  intros Hw1 Hd1 Hs1 Hw2 Hd2 Hs2 Hopen1 Hopen2 Hno1 Herr1.
  unfold Part000.run. rewrite (Part000_walk_txt fs e1 _ true _ Hw1 Hd1 Hs1).
  set (w1 := Printf (ProcessingFile (path e1)) World_init).
  pose proof (Part000_processFile_returns fs (path e1) w1 true) as Hret.
  rewrite Hopen1, Hno1, Herr1 in Hret.
  destruct (Part000_processFile_open fs (path e1) w1 file1 Hopen1)
    as [(rows1 & E1 & Hrows1) _].
  destruct (Part000.processFile fs (path e1) w1 true) as [w1' r1].
  cbn [fst snd] in Hret, E1. subst r1.
  rewrite (Part000_walk_txt fs e2 _ true _ Hw2 Hd2 Hs2).
  set (w2 := Printf (ProcessingFile (path e2))
               (Printf (ErrorProcessingFile (path e1) (ReadError (path e1))) w1')).
  destruct (Part000_processFile_open fs (path e2) w2 file2 Hopen2)
    as [(rows2 & E2 & _) _].
  assert (Ecsv : csv (Write Part000.header w2) =
                 Part000.header :: rows1 ++ [Part000.header]).
  { cbn [Write csv w2 Printf]. rewrite E1. reflexivity. }
  rewrite Ecsv in E2.
  destruct (Part000.processFile fs (path e2) w2 true) as [w2' r2].
  cbn [fst] in E2.
  exists rows1.
  destruct r2 as [[]|err| |].
  - destruct (Part000_walk_appends fs rest false w2') as (rows3 & E3).
    exists (rows2 ++ rows3). split; [|exact Hrows1].
    rewrite E3, E2. cbn [app]. rewrite <- !app_assoc. reflexivity.
  - destruct (Part000_walk_appends fs rest true
                (Printf (ErrorProcessingFile (path e2) err) w2')) as (rows3 & E3).
    exists (rows2 ++ rows3). split; [|exact Hrows1].
    rewrite E3. cbn [Printf csv]. rewrite E2. cbn [app].
    rewrite <- !app_assoc. reflexivity.
  - exists rows2. split; [|exact Hrows1].
    cbn [fst]. rewrite E2. cbn [app]. rewrite <- !app_assoc. reflexivity.
  - exists rows2. split; [|exact Hrows1].
    cbn [fst]. rewrite E2. cbn [app]. rewrite <- !app_assoc. reflexivity.
Qed.

Lemma read_error_repeats_header_witness :
  exists rows1 rows2,
    csv (Part000.run two_files
           (mkEntry "a.txt" "a.txt" false false ::
            mkEntry "b.txt" "b.txt" false false :: [])).1.1 =
      Part000.header :: rows1 ++ Part000.header :: rows2 /\
    Forall (fun row => row <> Part000.header) rows1.
Proof.
  exact (read_error_repeats_header two_files
           (mkEntry "a.txt" "a.txt" false false) (mkEntry "b.txt" "b.txt" false false) []
           (mkFile ["S,0012,9,5,0,15,6,2023,1,2,21.5"] true)
           (mkFile ["S,7,9,5,0,15,6,2023,2,2,50"] false)
           eq_refl eq_refl eq_refl eq_refl eq_refl eq_refl eq_refl eq_refl
           eq_refl eq_refl).
Defined.

(** ** The older converter *)

Lemma Legacy_loop_body_in_bounds (fields : list string) (i : nat)
    (values : gmap string string) :
  (i < length fields)%nat ->
  exists values', Legacy.loop_body fields i values = Ok values'.
Proof.
  intros Hlt. unfold Legacy.loop_body.
  destruct (index_lt fields i Hlt) as [id Eid]. rewrite Eid, bind_Ok.
  destruct (negb (String.eqb (map_get Legacy.measurementMap id) "") &&
            (i + 2 <? length fields)%nat) eqn:Eguard; [|eauto].
  apply andb_true_iff in Eguard as [_ Hin%Nat.ltb_lt].
  destruct (index_lt fields (i + 2) Hin) as [v Ev]. rewrite Ev, bind_Ok. eauto.
Qed.

Lemma Legacy_loop_ok (fields : list string) (fuel i : nat)
    (values : gmap string string) :
  (length fields - 1 <= i + fuel)%nat ->
  exists values', Legacy.loop fuel fields i values = Ok values'.
Proof.
  revert i values. induction fuel as [|fuel IH]; intros i values Hfuel;
    cbn [Legacy.loop];
    (destruct (Nat.ltb_spec i (length fields - 1)) as [Hlt|Hge]; [|eauto]).
  - lia.
  - destruct (Legacy_loop_body_in_bounds fields i values) as [values' E]; [lia|].
    rewrite E, bind_Ok. apply IH. lia.
Qed.

Lemma Legacy_parseRow_fields
    (line tag station hour minute second day month year : string)
    (rest : list string) :
  Split line = tag :: station :: hour :: minute :: second :: day :: month :: year :: rest ->
  Legacy.parseRow line =
    values ← Legacy.loop (length (Split line)) (Split line) 8 ∅;
    Ok (mkRecord station
          ((day +:+ "-" +:+ month +:+ "-" +:+ year) +:+ "T" +:+
           (hour +:+ ":" +:+ minute +:+ ":" +:+ second))
          values).
Proof. intros E. unfold Legacy.parseRow. rewrite E. reflexivity. Qed.

(** [parseRow] of the older converter: the "invalid row" error below
    seven fields, a panic at exactly seven, and from eight fields on a
    record whose station ID is field 1 as it stands, leading zeros
    included, and whose timestamp is day-month-year, then [T], then
    hour:minute:second, each field as it stands, without padding. *)
Theorem Legacy_parseRow_shape (line : string) :
  ((length (Split line) < 7)%nat -> Legacy.parseRow line = Err (InvalidRow line)) /\
  (length (Split line) = 7%nat -> Legacy.parseRow line = Panic) /\
  (forall (tag station hour minute second day month year : string)
     (rest : list string),
     Split line =
       tag :: station :: hour :: minute :: second :: day :: month :: year :: rest ->
     exists values,
       Legacy.parseRow line =
         Ok (mkRecord station
               ((day +:+ "-" +:+ month +:+ "-" +:+ year) +:+ "T" +:+
                (hour +:+ ":" +:+ minute +:+ ":" +:+ second))
               values)).
Proof.
  split; [|split].
  - intros Hlt. unfold Legacy.parseRow.
    now destruct (Nat.ltb_spec (length (Split line)) 7); [|lia].
  - intros E. unfold Legacy.parseRow.
    destruct (Split line) as [|f0 [|f1 [|f2 [|f3 [|f4 [|f5 [|f6 [|f7 fs]]]]]]]];
      try discriminate E.
    reflexivity.
  - intros tag station hour minute second day month year rest E.
    rewrite (Legacy_parseRow_fields _ _ _ _ _ _ _ _ _ _ E).
    destruct (Legacy_loop_ok (Split line) (length (Split line)) 8 ∅) as [values Ev];
      [lia|].
    rewrite Ev, bind_Ok. eauto.
Qed.

Lemma Legacy_parseRow_shape_witness :
  exists values,
    Legacy.parseRow "S,0012,9,5,0,15,6,2023,1,2,21.5" =
      Ok (mkRecord "0012"
            (("15" +:+ "-" +:+ "6" +:+ "-" +:+ "2023") +:+ "T" +:+
             ("9" +:+ ":" +:+ "5" +:+ ":" +:+ "0"))
            values).
Proof.
  exact (proj2 (proj2 (Legacy_parseRow_shape "S,0012,9,5,0,15,6,2023,1,2,21.5"))
           "S" "0012" "9" "5" "0" "15" "6" "2023" ["1"; "2"; "21.5"] eq_refl).
Defined.

Lemma Legacy_loop_agree (fields fields' : list string) :
  length fields = length fields' ->
  (forall k : nat, fields !! (8 + 3 * k)%nat = fields' !! (8 + 3 * k)%nat) ->
  (forall k : nat, fields !! (8 + 3 * k + 2)%nat = fields' !! (8 + 3 * k + 2)%nat) ->
  forall (fuel k : nat) (values : gmap string string),
    Legacy.loop fuel fields (8 + 3 * k) values =
    Legacy.loop fuel fields' (8 + 3 * k) values.
Proof.
  intros Hlen Hid Hval fuel. induction fuel as [|fuel IH]; intros k values;
    cbn [Legacy.loop]; rewrite <- Hlen; [reflexivity|].
  destruct (Nat.ltb_spec (8 + 3 * k) (length fields - 1)); [|reflexivity].
  assert (Ebody : Legacy.loop_body fields (8 + 3 * k) values =
                  Legacy.loop_body fields' (8 + 3 * k) values).
  { unfold Legacy.loop_body, index. now rewrite Hid, Hval, Hlen. }
  rewrite <- Ebody.
  destruct (Legacy.loop_body fields (8 + 3 * k) values) as [values'| | |];
    try reflexivity.
  rewrite !bind_Ok.
  replace (8 + 3 * k + 3)%nat with (8 + 3 * S k)%nat by lia. apply IH.
Qed.

(** The older converter never reads a processing ID: two lines of at
    least seven fields that differ only in the middle fields of their
    groups (the fields at 9, 12, 15, ...) give the same result. *)
Theorem Legacy_ignores_processingID (line line' : string) :
  (7 <= length (Split line))%nat ->
  length (Split line) = length (Split line') ->
  (forall i : nat,
     (forall k : nat, i <> (8 + 3 * k + 1)%nat) ->
     Split line !! i = Split line' !! i) ->
  Legacy.parseRow line = Legacy.parseRow line'.
Proof.
  intros Hge Hlen Hsame. unfold Legacy.parseRow. rewrite <- Hlen.
  destruct (Nat.ltb_spec (length (Split line)) 7); [lia|].
  assert (Hidx : forall i : nat, (i <= 7)%nat ->
            index (Split line') i = index (Split line) i).
  { intros i Hi. unfold index. rewrite (Hsame i); [reflexivity|]. intros k. lia. }
  rewrite !Hidx by lia.
  assert (Hloop : Legacy.loop (length (Split line)) (Split line') 8 ∅ =
                  Legacy.loop (length (Split line)) (Split line) 8 ∅).
  { symmetry. apply (Legacy_loop_agree (Split line) (Split line') Hlen) with (k := 0%nat).
    - intros k. apply Hsame. intros k'. lia.
    - intros k. apply Hsame. intros k'. lia. }
  rewrite Hloop. reflexivity.
Qed.

Lemma Legacy_ignores_processingID_witness :
  Legacy.parseRow "S,12,9,5,0,15,6,2023,1,2,21.5" =
  Legacy.parseRow "S,12,9,5,0,15,6,2023,1,99,21.5".
Proof.
  assert (E : Split "S,12,9,5,0,15,6,2023,1,2,21.5" =
              ["S"; "12"; "9"; "5"; "0"; "15"; "6"; "2023"; "1"; "2"; "21.5"])
    by (vm_compute; reflexivity).
  assert (E' : Split "S,12,9,5,0,15,6,2023,1,99,21.5" =
               ["S"; "12"; "9"; "5"; "0"; "15"; "6"; "2023"; "1"; "99"; "21.5"])
    by (vm_compute; reflexivity).
  apply Legacy_ignores_processingID; rewrite E, ?E'.
  - cbn [length]. lia.
  - reflexivity.
  - intros i Hi.
    do 9 (destruct i as [|i]; [reflexivity|]).
    destruct i as [|i]; [exfalso; apply (Hi 0%nat); reflexivity|].
    destruct i as [|i]; reflexivity.
Defined.

(** ** [main] of the filtering converter *)

Example Atoi_ex :
  Main.Atoi "14" = Some 14%Z /\ Main.Atoi "+7" = Some 7%Z /\
  Main.Atoi "-3" = Some (-3)%Z /\ Main.Atoi "" = None /\ Main.Atoi "-" = None /\
  Main.Atoi "1_4" = None /\ Main.Atoi " 14" = None /\ Main.Atoi "14d" = None /\
  Main.Atoi "9223372036854775807" = Some 9223372036854775807%Z /\
  Main.Atoi "9223372036854775808" = None /\
  Main.Atoi "-9223372036854775808" = Some (-9223372036854775808)%Z.
Proof. repeat split; reflexivity. Qed.

(** The arguments of [main].  With fewer than two operands it prints the
    usage line; with a days operand that is not an integer it prints
    "Invalid days value"; when the output file cannot be created it
    prints "Cannot create output file"; in each of these cases it prints
    nothing else, walks nothing and creates no file.  It creates the
    output file in every other case, under the name of the second
    operand.  Leaving the days operand out is the same as giving [14],
    and operands after it are ignored. *)
Theorem main_arguments (T : TimePkg) (AddDate : Z -> Time) (Create : string -> bool)
    (fs : FS) (Walk : string -> list Entry) :
  (forall Args : list string,
     (length Args < 3)%nat ->
     Main.main AddDate Create fs Walk Args = Main.mkOutcome None [] [Main.Usage] false) /\
  (forall (prog inputDir outputFile arg : string) (extra : list string),
     Main.Atoi arg = None ->
     Main.main AddDate Create fs Walk (prog :: inputDir :: outputFile :: arg :: extra) =
       Main.mkOutcome None [] [Main.InvalidDays arg] false) /\
  (forall (prog inputDir outputFile : string) (rest : list string),
     Create outputFile = false ->
     (forall arg, head rest = Some arg -> Main.Atoi arg <> None) ->
     Main.main AddDate Create fs Walk (prog :: inputDir :: outputFile :: rest) =
       Main.mkOutcome None [] [Main.CannotCreate outputFile] false) /\
  (forall (prog inputDir outputFile : string) (rest : list string),
     Create outputFile = true ->
     (forall arg, head rest = Some arg -> Main.Atoi arg <> None) ->
     exists rows,
       Main.created
         (Main.main AddDate Create fs Walk (prog :: inputDir :: outputFile :: rest)) =
       Some (outputFile, rows)) /\
  (forall (prog inputDir outputFile arg : string) (extra : list string),
     Main.main AddDate Create fs Walk [prog; inputDir; outputFile] =
     Main.main AddDate Create fs Walk (prog :: inputDir :: outputFile :: "14" :: extra) /\
     Main.main AddDate Create fs Walk (prog :: inputDir :: outputFile :: arg :: extra) =
     Main.main AddDate Create fs Walk [prog; inputDir; outputFile; arg]).
Proof.
  split; [|split; [|split; [|split]]].
  - intros [|a0 [|a1 [|a2 rest]]] Hlen; try reflexivity. cbn [length] in Hlen. lia.
  - intros prog inputDir outputFile arg extra Hbad.
    unfold Main.main. rewrite Hbad. reflexivity.
  - intros prog inputDir outputFile rest Hcreate Hdays. unfold Main.main.
    destruct rest as [|arg extra].
    + rewrite Hcreate. reflexivity.
    + destruct (Main.Atoi arg) as [d|] eqn:E.
      * rewrite Hcreate. reflexivity.
      * now contradiction (Hdays arg eq_refl).
  - intros prog inputDir outputFile rest Hcreate Hdays. unfold Main.main.
    assert (Hd : exists d, match rest with [] => Some 14%Z | arg :: _ => Main.Atoi arg end
                           = Some d).
    { destruct rest as [|arg extra]; [eauto|].
      destruct (Main.Atoi arg) as [d|] eqn:E; [eauto|].
      now contradiction (Hdays arg eq_refl). }
    destruct Hd as [d ->]. rewrite Hcreate.
    destruct (Nesa2csv.walk fs (Walk inputDir) (AddDate (Main.neg_int d)) true World_init)
      as [[w flag] [| | |]]; eauto.
  - intros prog inputDir outputFile arg extra. split; reflexivity.
Qed.

Lemma main_arguments_witness :
  Main.main (T := goTime) (fun days => (1700000000 + 86400 * days, 0)%Z)
    (fun _ => true) one_file (fun _ => one_entry) ["nesa2csv"; "in"; "out.csv"; "two"] =
  Main.mkOutcome None [] [Main.InvalidDays "two"] false.
Proof.
  exact (proj1 (proj2 (main_arguments goTime
                         (fun days => (1700000000 + 86400 * days, 0)%Z)
                         (fun _ => true) one_file (fun _ => one_entry)))
           "nesa2csv" "in" "out.csv" "two" [] eq_refl).
Defined.

(** Every row [main] leaves in the output file has 13 fields and, as its
    second field, a timestamp that parses under the layout and is not
    before the cutoff, which is [time.Now().AddDate(0, 0, -days)] for the
    days operand, or for 14 when there is none. *)
Theorem main_rows_are_recent (T : TimePkg) (AddDate : Z -> Time)
    (Create : string -> bool) (fs : FS) (Walk : string -> list Entry)
    (Args : list string) (outputFile : string) (rows : list (list string)) :
  Main.created (Main.main AddDate Create fs Walk Args) = Some (outputFile, rows) ->
  exists days : Z,
    (Args !! 3%nat = None /\ days = 14%Z \/
     exists arg, Args !! 3%nat = Some arg /\ Main.Atoi arg = Some days) /\
    Forall
      (fun row =>
         length row = 13%nat /\
         exists (timestamp : string) (recordTime : Time),
           row !! 1%nat = Some timestamp /\
           time_Parse "2006-01-02T15:04:05" timestamp = Some recordTime /\
           Before recordTime (AddDate (Main.neg_int days)) = false)
      rows.
Proof.
  unfold Main.main.
  destruct Args as [|prog [|inputDir [|out rest]]]; try discriminate.
  set (days := match rest with [] => Some 14%Z | arg :: _ => Main.Atoi arg end).
  assert (Hdays : forall d, days = Some d ->
            rest !! 0%nat = None /\ d = 14%Z \/
            exists arg, rest !! 0%nat = Some arg /\ Main.Atoi arg = Some d).
  { subst days. destruct rest as [|arg extra]; intros d E.
    - left. split; [reflexivity|congruence].
    - right. exists arg. split; [reflexivity|exact E]. }
  destruct days as [d|]; [|discriminate].
  destruct (Create out); [|discriminate].
  pose proof (Nesa2csv_walk_invariant (AddDate (Main.neg_int d))
    (fun row =>
       length row = 13%nat /\
       exists (timestamp : string) (recordTime : Time),
         row !! 1%nat = Some timestamp /\
         time_Parse "2006-01-02T15:04:05" timestamp = Some recordTime /\
         Before recordTime (AddDate (Main.neg_int d)) = false)) as Hinv.
  assert (Hrows : Forall
            (fun row =>
               length row = 13%nat /\
               exists (timestamp : string) (recordTime : Time),
                 row !! 1%nat = Some timestamp /\
                 time_Parse "2006-01-02T15:04:05" timestamp = Some recordTime /\
                 Before recordTime (AddDate (Main.neg_int d)) = false)
            (csv (Nesa2csv.walk fs (Walk inputDir) (AddDate (Main.neg_int d)) true
                    World_init).1.1)).
  { apply Hinv; [|constructor].
    intros line record _ Hrow Hts. split; [reflexivity|].
    destruct (Nesa2csv_parseRow_recent line _ record Hrow Hts) as (t & Hp & Hb).
    exists (Timestamp record), t. repeat split; assumption. }
  destruct (Nesa2csv.walk fs (Walk inputDir) (AddDate (Main.neg_int d)) true World_init)
    as [[w flag] res].
  cbn [fst] in Hrows.
  intros Hcreated. exists d. split; [exact (Hdays d eq_refl)|].
  destruct res; cbn [Main.created] in Hcreated; injection Hcreated as _ <-; exact Hrows.
Qed.

Lemma main_rows_are_recent_witness :
  exists days : Z,
    (["nesa2csv"; "in"; "out.csv"] !! 3%nat = None /\ days = 14%Z \/
     exists arg, ["nesa2csv"; "in"; "out.csv"] !! 3%nat = Some arg /\
                 Main.Atoi arg = Some days) /\
    Forall
      (fun row =>
         length row = 13%nat /\
         exists (timestamp : string) (recordTime : Time),
           row !! 1%nat = Some timestamp /\
           time_Parse "2006-01-02T15:04:05" timestamp = Some recordTime /\
           Before recordTime
             ((fun days => (1687000000 + 86400 * days, 0)%Z) (Main.neg_int days)) = false)
      [["12"; "2023-06-15T09:05:00"; "21.5"; ""; ""; ""; ""; ""; ""; ""; ""; ""; ""]].
Proof.
  refine (main_rows_are_recent goTime (fun days => (1687000000 + 86400 * days, 0)%Z)
            (fun _ => true) one_file (fun _ => one_entry)
            ["nesa2csv"; "in"; "out.csv"] "out.csv"
            [["12"; "2023-06-15T09:05:00"; "21.5"; ""; ""; ""; ""; ""; ""; ""; ""; ""; ""]]
            _).
  vm_compute. reflexivity.
Defined.

(** ** Padded fields and [time.Parse] *)

Section PaddedFields.

Local Open Scope Z_scope.

Lemma digit_char_spec (k : Z) :
  0 <= k <= 9 ->
  GoTime.isDigit (digit_char k) = true /\ GoTime.digit (digit_char k) = k.
Proof.
  intros Hk.
  assert (H : k = 0 \/ k = 1 \/ k = 2 \/ k = 3 \/ k = 4 \/ k = 5 \/ k = 6 \/
              k = 7 \/ k = 8 \/ k = 9) by lia.
  repeat (destruct H as [->|H]; [split; reflexivity|]). subst k. split; reflexivity.
Qed.

Lemma getnum_two_digits (n : Z) (rest : string) (fixed : bool) :
  0 <= n < 100 ->
  GoTime.getnum (String (digit_char (n / 10)) (String (digit_char (n mod 10)) rest)) fixed =
  Some (n, rest).
Proof.
  intros Hn.
  destruct (digit_char_spec (n / 10)) as [I1 D1];
    [Z.to_euclidean_division_equations; lia|].
  destruct (digit_char_spec (n mod 10)) as [I2 D2];
    [Z.to_euclidean_division_equations; lia|].
  unfold GoTime.getnum. rewrite I1, I2, D1, D2. do 2 f_equal.
  Z.to_euclidean_division_equations; lia.
Qed.

Lemma getyear_four_digits (n : Z) (rest : string) :
  0 <= n <= 9999 ->
  GoTime.getyear
    (String (digit_char (n / 1000))
       (String (digit_char (n / 100 mod 10))
          (String (digit_char (n / 10 mod 10)) (String (digit_char (n mod 10)) rest)))) =
  Some (n, rest).
Proof.
  intros Hn.
  destruct (digit_char_spec (n / 1000)) as [I0 D0];
    [Z.to_euclidean_division_equations; lia|].
  destruct (digit_char_spec (n / 100 mod 10)) as [I1 D1];
    [Z.to_euclidean_division_equations; lia|].
  destruct (digit_char_spec (n / 10 mod 10)) as [I2 D2];
    [Z.to_euclidean_division_equations; lia|].
  destruct (digit_char_spec (n mod 10)) as [I3 D3];
    [Z.to_euclidean_division_equations; lia|].
  unfold GoTime.getyear. rewrite I0, I1, I2, I3, D0, D1, D2, D3. cbn [andb].
  do 2 f_equal. Z.to_euclidean_division_equations; lia.
Qed.

Lemma zeroPad_decimal_field (n : Z) (f : string) :
  0 <= n < 100 -> decimal_field n f -> zeroPad f = two_digits n.
Proof.
  intros Hn [->|[Hlt ->]]; [reflexivity|].
  unfold two_digits. rewrite Z.div_small, Z.mod_small by lia. reflexivity.
Qed.

Lemma skip_same (c : ascii) (rest : string) : GoTime.skip (String c rest) c = Some rest.
Proof. unfold GoTime.skip. now rewrite Ascii.eqb_refl. Qed.

Lemma daysIn_le_31 (month year : Z) : GoTime.daysIn month year <= 31.
Proof.
  unfold GoTime.daysIn.
  destruct (month =? 2); [destruct (GoTime.isLeap year); lia|].
  destruct ((month =? 4) || (month =? 6) || (month =? 9) || (month =? 11)); lia.
Qed.

Lemma range_check (lo hi n : Z) :
  lo <= n < hi -> (n <? lo) || (hi <=? n) = false.
Proof.
  intros Hn. destruct (Z.ltb_spec n lo); [lia|]. destruct (Z.leb_spec hi n); [lia|].
  reflexivity.
Qed.

Lemma month_check (month : Z) :
  1 <= month <= 12 -> (month <=? 0) || (12 <? month) = false.
Proof.
  intros Hn. destruct (Z.leb_spec month 0); [lia|]. destruct (Z.ltb_spec 12 month); [lia|].
  reflexivity.
Qed.

Lemma day_check (day month year : Z) :
  1 <= day <= GoTime.daysIn month year ->
  (day <? 1) || (GoTime.daysIn month year <? day) = false.
Proof.
  intros Hn. destruct (Z.ltb_spec day 1); [lia|].
  destruct (Z.ltb_spec (GoTime.daysIn month year) day); [lia|]. reflexivity.
Qed.

(** The assembled timestamp of a valid date and time parses, whether the
    fields are padded or not. *)
Lemma padded_fields_parse (year month day hour minute second : Z)
    (fmonth fday fhour fminute fsecond : string) :
  0 <= year <= 9999 -> 1 <= month <= 12 -> 1 <= day <= GoTime.daysIn month year ->
  0 <= hour < 24 -> 0 <= minute < 60 -> 0 <= second < 60 ->
  decimal_field month fmonth -> decimal_field day fday -> decimal_field hour fhour ->
  decimal_field minute fminute -> decimal_field second fsecond ->
  GoTime.Parse
    (Sprintf_timestamp (four_digits year) (zeroPad fmonth) (zeroPad fday)
       (zeroPad fhour) (zeroPad fminute) (zeroPad fsecond)) =
  Some (GoTime.Date year month day hour minute second 0).
Proof.
  intros Hy Hmo Hd Hh Hmi Hs Fmo Fd Fh Fmi Fs.
  pose proof (daysIn_le_31 month year) as H31.
  rewrite (zeroPad_decimal_field month fmonth), (zeroPad_decimal_field day fday),
    (zeroPad_decimal_field hour fhour), (zeroPad_decimal_field minute fminute),
    (zeroPad_decimal_field second fsecond) by (assumption || lia).
  unfold Sprintf_timestamp, four_digits, two_digits. cbv [String.append].
  unfold GoTime.Parse.
  rewrite getyear_four_digits by lia. cbn [mbind option_bind].
  rewrite skip_same. cbn [mbind option_bind].
  rewrite getnum_two_digits by lia. cbn [mbind option_bind].
  rewrite month_check by lia.
  rewrite skip_same. cbn [mbind option_bind].
  rewrite getnum_two_digits by lia. cbn [mbind option_bind].
  rewrite skip_same. cbn [mbind option_bind].
  rewrite getnum_two_digits by lia. cbn [mbind option_bind].
  rewrite (range_check 0 24) by lia.
  rewrite skip_same. cbn [mbind option_bind].
  rewrite getnum_two_digits by lia. cbn [mbind option_bind].
  rewrite (range_check 0 60) by lia.
  rewrite skip_same. cbn [mbind option_bind].
  rewrite getnum_two_digits by lia. cbn [mbind option_bind].
  rewrite (range_check 0 60) by lia.
  cbn [GoTime.fraction String.eqb negb].
  rewrite day_check by lia. reflexivity.
Qed.

(** With Go's [time.Parse]: when the year field has four digits and the
    month, day, hour, minute and second fields hold a valid date and time
    of day in one or two digits each, the zero padding makes the
    assembled timestamp parse, to that date and time in UTC.  So
    [parseRow] of the filtering converter returns a record and no
    "invalid timestamp" error, and the record is the too-old one exactly
    when that instant is before the cutoff. *)
Theorem valid_date_fields_parse (line : string) (cutoff : Z * Z)
    (tag station fhour fminute fsecond fday fmonth : string) (rest : list string)
    (year month day hour minute second : Z) :
  Split line =
    tag :: station :: fhour :: fminute :: fsecond :: fday :: fmonth ::
    four_digits year :: rest ->
  0 <= year <= 9999 -> 1 <= month <= 12 -> 1 <= day <= GoTime.daysIn month year ->
  0 <= hour < 24 -> 0 <= minute < 60 -> 0 <= second < 60 ->
  decimal_field month fmonth -> decimal_field day fday -> decimal_field hour fhour ->
  decimal_field minute fminute -> decimal_field second fsecond ->
  GoTime.Parse
    (Sprintf_timestamp (four_digits year) (zeroPad fmonth) (zeroPad fday)
       (zeroPad fhour) (zeroPad fminute) (zeroPad fsecond)) =
    Some (GoTime.Date year month day hour minute second 0) /\
  exists record,
    Nesa2csv.parseRow (T := goTime) line cutoff = Ok record /\
    (Timestamp record = "" <->
     GoTime.before (GoTime.Date year month day hour minute second 0) cutoff = true).
Proof.
  intros E Hy Hmo Hd Hh Hmi Hs Fmo Fd Fh Fmi Fs.
  pose proof (padded_fields_parse year month day hour minute second
                fmonth fday fhour fminute fsecond Hy Hmo Hd Hh Hmi Hs Fmo Fd Fh Fmi Fs)
    as Hparse.
  split; [exact Hparse|].
  rewrite (@Nesa2csv_parseRow_fields goTime _ _ _ _ _ _ _ _ _ _ cutoff E).
  cbv zeta.
  change (time_Parse Nesa2csv.layout ?ts) with (GoTime.Parse ts).
  rewrite Hparse.
  change (Before ?t ?u) with (GoTime.before t u).
  destruct (GoTime.before (GoTime.Date year month day hour minute second 0) cutoff).
  - eexists. split; [reflexivity|]. split; reflexivity.
  - destruct (Nesa2csv_loop_ok (Split line) (length (Split line)) 8 ∅)
      as [values Ev]; [lia|].
    rewrite Ev, bind_Ok. eexists. split; [reflexivity|].
    cbn [Timestamp]. split; [|discriminate].
    intros Hempty.
    pose proof (Sprintf_timestamp_has_dash (four_digits year) (zeroPad fmonth)
                  (zeroPad fday) (zeroPad fhour) (zeroPad fminute) (zeroPad fsecond))
      as Hdash.
    rewrite Hempty in Hdash. discriminate Hdash.
Qed.

Lemma valid_date_fields_parse_witness :
  exists record,
    Nesa2csv.parseRow (T := goTime) "S,0012,9,5,0,15,6,2023,1,2,21.5" (0, 0) = Ok record /\
    (Timestamp record = "" <->
     GoTime.before (GoTime.Date 2023 6 15 9 5 0 0) (0, 0) = true).
Proof.
  refine (proj2 (valid_date_fields_parse "S,0012,9,5,0,15,6,2023,1,2,21.5" (0, 0)
                   "S" "0012" "9" "5" "0" "15" "6" ["1"; "2"; "21.5"]
                   2023 6 15 9 5 0 _ _ _ _ _ _ _ _ _ _ _ _)).
  - vm_compute. reflexivity.
  - lia.
  - lia.
  - split; [lia|]. vm_compute. discriminate.
  - lia.
  - lia.
  - lia.
  - right. split; [lia|reflexivity].
  - left. reflexivity.
  - right. split; [lia|reflexivity].
  - right. split; [lia|reflexivity].
  - right. split; [lia|reflexivity].
Defined.

End PaddedFields.

(** ** The walk *)

Lemma Part000_walk_app (fs : FS) (l1 l2 : list Entry) (writeHeader : bool) (w : World) :
  Part000.walk fs (l1 ++ l2) writeHeader w =
  match Part000.walk fs l1 writeHeader w with
  | (w1, writeHeader1, WalkDone) => Part000.walk fs l2 writeHeader1 w1
  | r => r
  end.
Proof.
  revert writeHeader w. induction l1 as [|e l1 IH]; intros writeHeader w;
    [reflexivity|].
  cbn [app Part000.walk]. destruct (walkErr e); [reflexivity|].
  destruct (negb (isDir e) && HasSuffix (name e) ".txt"); [|apply IH].
  destruct (Part000.processFile fs (path e) (Printf (ProcessingFile (path e)) w)
              writeHeader) as [w' r].
  destruct r as [[]|err| |]; [apply IH|apply IH|reflexivity|reflexivity].
Qed.

Lemma Nesa2csv_walk_app `{TimePkg} (fs : FS) (l1 l2 : list Entry) (cutoff : Time)
    (writeHeader : bool) (w : World) :
  Nesa2csv.walk fs (l1 ++ l2) cutoff writeHeader w =
  match Nesa2csv.walk fs l1 cutoff writeHeader w with
  | (w1, writeHeader1, WalkDone) => Nesa2csv.walk fs l2 cutoff writeHeader1 w1
  | r => r
  end.
Proof.
  revert writeHeader w. induction l1 as [|e l1 IH]; intros writeHeader w;
    [reflexivity|].
  cbn [app Nesa2csv.walk]. destruct (walkErr e); [reflexivity|].
  destruct (negb (isDir e) && HasSuffix (name e) ".txt"); [|apply IH].
  destruct (Nesa2csv.processFile fs (path e) (Printf (ProcessingFile (path e)) w)
              writeHeader cutoff) as [w' r].
  destruct r as [[]|err| |]; [apply IH|apply IH|reflexivity|reflexivity].
Qed.

(** Files are converted one after the other: the walk over two runs of
    entries is the walk over the first followed, unless that ended in a
    walk error or a panic, by the walk over the second from the rows,
    messages and header flag the first left.  Directories and entries
    whose name does not end in [.txt] have no effect, as long as the
    walk reports no error on an entry. *)
Theorem walk_composes :
  (forall (fs : FS) (l1 l2 : list Entry) (writeHeader : bool) (w : World),
     Part000.walk fs (l1 ++ l2) writeHeader w =
     match Part000.walk fs l1 writeHeader w with
     | (w1, writeHeader1, WalkDone) => Part000.walk fs l2 writeHeader1 w1
     | r => r
     end) /\
  (forall (T : TimePkg) (fs : FS) (l1 l2 : list Entry) (cutoff : Time)
     (writeHeader : bool) (w : World),
     Nesa2csv.walk fs (l1 ++ l2) cutoff writeHeader w =
     match Nesa2csv.walk fs l1 cutoff writeHeader w with
     | (w1, writeHeader1, WalkDone) => Nesa2csv.walk fs l2 cutoff writeHeader1 w1
     | r => r
     end) /\
  (forall (fs : FS) (entries : list Entry) (writeHeader : bool) (w : World),
     Forall (fun e => walkErr e = false) entries ->
     Part000.walk fs entries writeHeader w =
     Part000.walk fs (List.filter is_text entries) writeHeader w /\
     forall (T : TimePkg) (cutoff : Time),
       Nesa2csv.walk fs entries cutoff writeHeader w =
       Nesa2csv.walk fs (List.filter is_text entries) cutoff writeHeader w).
Proof.
  split; [exact Part000_walk_app|split; [intros T; apply Nesa2csv_walk_app|]].
  intros fs entries writeHeader w Hok. split.
  - revert writeHeader w. induction Hok as [|e entries He Hok IH];
      intros writeHeader w; [reflexivity|].
    cbn [List.filter]. unfold is_text at 1.
    destruct (negb (isDir e) && HasSuffix (name e) ".txt") eqn:Et.
    + cbn [Part000.walk]. rewrite He, Et.
      destruct (Part000.processFile fs (path e) (Printf (ProcessingFile (path e)) w)
                  writeHeader) as [w' r].
      destruct r as [[]|err| |]; [apply IH|apply IH|reflexivity|reflexivity].
    + cbn [Part000.walk]. rewrite He, Et. apply IH.
  - intros T cutoff. revert writeHeader w. induction Hok as [|e entries He Hok IH];
      intros writeHeader w; [reflexivity|].
    cbn [List.filter]. unfold is_text at 1.
    destruct (negb (isDir e) && HasSuffix (name e) ".txt") eqn:Et.
    + cbn [Nesa2csv.walk]. rewrite He, Et.
      destruct (Nesa2csv.processFile fs (path e) (Printf (ProcessingFile (path e)) w)
                  writeHeader cutoff) as [w' r].
      destruct r as [[]|err| |]; [apply IH|apply IH|reflexivity|reflexivity].
    + cbn [Nesa2csv.walk]. rewrite He, Et. apply IH.
Qed.

Lemma walk_composes_witness :
  Part000.walk one_file
    [mkEntry "." "." true false; mkEntry "a.txt" "a.txt" false false;
     mkEntry "notes.md" "notes.md" false false] true World_init =
  Part000.walk one_file
    (List.filter is_text
       [mkEntry "." "." true false; mkEntry "a.txt" "a.txt" false false;
        mkEntry "notes.md" "notes.md" false false]) true World_init.
Proof.
  refine (proj1 (proj2 (proj2 walk_composes) one_file
                   [mkEntry "." "." true false; mkEntry "a.txt" "a.txt" false false;
                    mkEntry "notes.md" "notes.md" false false] true World_init _)).
  repeat constructor.
Defined.
